(** * GitHub MCP server: log analysis, archive fetching and workflow wrappers

    A shallow embedding of
      - [log-analyzer.ts]   ([analyzeBazelLogs] and its two excerpt extractors),
      - [downloader.ts]     ([downloadAndUnzip]),
      - [workflow-logs.ts]  ([analyzeWorkflowLogs]),
      - [workflows.ts] and [ci_workflows.ts] (the workflow-run wrappers),
    followed by the properties of these functions.

    JavaScript strings are sequences of code units; they are modelled by
    [string], one [ascii] per code unit.  Numbers that index arrays are
    modelled by [Z], so that [-1] (the "not found" answer of [findIndex]) and
    differences such as [i - 5] are what they are in the source. *)

From Stdlib Require Import String Ascii List Bool Arith ZArith Lia DecimalString.
Import ListNotations.
Open Scope string_scope.

(* ================================================================== *)
(** ** JavaScript strings and arrays *)
(* ================================================================== *)

Module JS.

Definition newline : ascii := ascii_of_nat 10.
Definition nl : string := String newline EmptyString.

Definition is_newline (c : ascii) : bool := Ascii.eqb c newline.

(** Does [s] have a line break? *)
Fixpoint has_newline (s : string) : bool :=
  match s with
  | EmptyString => false
  | String c r => is_newline c || has_newline r
  end.

(** [s.length] *)
Definition len (s : string) : Z := Z.of_nat (String.length s).

(** [String.prototype.toLowerCase], on the letters [A]..[Z].  Code units
    128..255 lower-case to code units that are no ASCII letters, so for the
    only use the sources make of it ([includes] of an ASCII literal) leaving
    them alone is the same test. *)
Definition is_upper (c : ascii) : bool :=
  let n := nat_of_ascii c in (65 <=? n)%nat && (n <=? 90)%nat.

Definition lower_char (c : ascii) : ascii :=
  if is_upper c then ascii_of_nat (nat_of_ascii c + 32) else c.

Fixpoint toLowerCase (s : string) : string :=
  match s with
  | EmptyString => EmptyString
  | String c r => String (lower_char c) (toLowerCase r)
  end.

(** [s.startsWith(p)] *)
Fixpoint startsWith (s p : string) : bool :=
  match p, s with
  | EmptyString, _ => true
  | String _ _, EmptyString => false
  | String a p', String b s' => Ascii.eqb a b && startsWith s' p'
  end.

(** [s.includes(p)] *)
Fixpoint includes (s p : string) : bool :=
  startsWith s p ||
  match s with
  | EmptyString => false
  | String _ s' => includes s' p
  end.

(** White space and line terminators of ECMAScript among the code units
    0..255: TAB, LF, VT, FF, CR, SP, NBSP. *)
Definition is_space (c : ascii) : bool :=
  let n := nat_of_ascii c in
  ((9 <=? n)%nat && (n <=? 13)%nat) || (n =? 32)%nat || (n =? 160)%nat.

Fixpoint trimStart (s : string) : string :=
  match s with
  | EmptyString => EmptyString
  | String c r => if is_space c then trimStart r else s
  end.

Fixpoint trimEnd (s : string) : string :=
  match s with
  | EmptyString => EmptyString
  | String c r =>
      match trimEnd r with
      | EmptyString => if is_space c then EmptyString else String c EmptyString
      | r' => String c r'
      end
  end.

(** [s.trim()] *)
Definition trim (s : string) : string := trimEnd (trimStart s).

(** [s.substring(0, n)] for [0 <= n] *)
Definition substring0 (n : Z) (s : string) : string :=
  String.substring 0 (Z.to_nat n) s.

(** [s.split('\n')]: the first line and the lines after it. *)
Fixpoint split_nl (s : string) : string * list string :=
  match s with
  | EmptyString => (EmptyString, [])
  | String c r =>
      let (l, ls) := split_nl r in
      if is_newline c then (EmptyString, l :: ls) else (String c l, ls)
  end.

Definition split_lines (s : string) : list string :=
  let (l, ls) := split_nl s in l :: ls.

(** [a.join(sep)] *)
Definition join (sep : string) (a : list string) : string := String.concat sep a.

(** [s.replace(/[:.]/g, '-')] *)
Definition replace_colon_dot (s : string) : string :=
  let fix go s :=
    match s with
    | EmptyString => EmptyString
    | String c r =>
        String (if Ascii.eqb c ":" || Ascii.eqb c "." then "-"%char else c) (go r)
    end in go s.

(** Relative index of [Array.prototype.slice]: a negative index counts from
    the end, and the result is clamped to [0..len]. *)
Definition rel_index (len k : Z) : Z :=
  if (k <? 0)%Z then Z.max (len + k) 0 else Z.min k len.

(** [a.slice(start, end)] *)
Definition slice {A} (start end_ : Z) (a : list A) : list A :=
  let n := Z.of_nat (length a) in
  let from := rel_index n start in
  let to := rel_index n end_ in
  firstn (Z.to_nat (to - from)) (skipn (Z.to_nat from) a).

(** [a.slice(start)] *)
Definition slice_from {A} (start : Z) (a : list A) : list A :=
  slice start (Z.of_nat (length a)) a.

(** [a.findIndex(p)], [-1] when no element satisfies [p]. *)
Fixpoint findIndex_at {A} (p : A -> bool) (i : Z) (a : list A) : Z :=
  match a with
  | [] => (-1)%Z
  | x :: r => if p x then i else findIndex_at p (i + 1)%Z r
  end.

Definition findIndex {A} (p : A -> bool) (a : list A) : Z := findIndex_at p 0%Z a.

(** [a.map((x, index) => (x, index))] *)
Fixpoint with_index_at {A} (i : Z) (a : list A) : list (A * Z) :=
  match a with
  | [] => []
  | x :: r => (x, i) :: with_index_at (i + 1)%Z r
  end.

Definition with_index {A} (a : list A) : list (A * Z) := with_index_at 0%Z a.

(** Truthiness of an optional string: [undefined] and [""] are falsy. *)
Definition truthy (s : option string) : bool :=
  match s with
  | Some (String _ _) => true
  | _ => false
  end.

(** [a || b] on optional strings *)
Definition or_else (a b : option string) : option string :=
  if truthy a then a else b.

(** Decimal text of an integer, as a template literal prints it. *)
Definition show_Z (z : Z) : string := NilZero.string_of_int (Z.to_int z).

(** [Number.isSafeInteger]: the integers that a number holds exactly, from
    [-(2^53 - 1)] to [2^53 - 1].  For these a template literal prints all
    the digits, as [show_Z] does; from [10^21] on it prints an exponent. *)
Definition isSafeInteger (z : Z) : Prop :=
  (- 9007199254740991 <= z <= 9007199254740991)%Z.

End JS.

(* ================================================================== *)
(** ** log-analyzer.ts: the two excerpt extractors *)
(* ================================================================== *)

Module LogText.
Import JS.

(** The alternatives of [/ERROR:|FAILED:|Exception:|error:|failed:|BUILD FAILED/gi]. *)
Definition errorPattern : list string :=
  ["ERROR:"; "FAILED:"; "Exception:"; "error:"; "failed:"; "BUILD FAILED"].

(** [s.match(pattern)] is not [null]: some alternative occurs in [s], letter
    case ignored (flag [i]).  With the flag [g], [match] starts every search
    at index 0, so one pattern object serves all the calls. *)
Definition matches (alternatives : list string) (s : string) : bool :=
  existsb (fun p => includes (toLowerCase s) (toLowerCase p)) alternatives.

Definition errorPatterns : list (list string) := [errorPattern].

(** The loop [for (const pattern of errorPatterns)] of [extractErrorDetails];
    [None] when the loop ends without returning. *)
Fixpoint extractErrorDetails_loop (patterns : list (list string)) (content : string)
  : option string :=
  match patterns with
  | [] => None
  | pattern :: rest =>
      if matches pattern content then
        let lines := split_lines content in
        let errorLineIndex := findIndex (matches pattern) lines in
        if (errorLineIndex >=? 0)%Z then
          let contextLines :=
            slice errorLineIndex
                  (Z.min (errorLineIndex + 10) (Z.of_nat (length lines))) lines in
          Some (join nl contextLines)
        else extractErrorDetails_loop rest content
      else extractErrorDetails_loop rest content
  end.

Definition extractErrorDetails (content : string) : string :=
  match extractErrorDetails_loop errorPatterns content with
  | Some excerpt => excerpt
  | None =>
      substring0 500 content ++ (if (len content >? 500)%Z then "..." else "")
  end.

Definition errorIndicators : list string :=
  ["ERROR:"; "FAILED:"; "BUILD FAILED"; "Exception:"; "error:"; "failed:";
   "Execution failed"].

Definition containsErrors (content : string) : bool :=
  existsb (fun indicator => includes content indicator) errorIndicators.

Definition extractRelevantContent (content : string) : string :=
  if (len content <=? 2000)%Z then content
  else
    let lines := split_lines content in
    let errorLines :=
      filter (fun '(line, _) => containsErrors line) (with_index lines) in
    match errorLines with
    | (_, firstErrorIndex) :: _ =>
        let startIndex := Z.max 0 (firstErrorIndex - 5) in
        let endIndex := Z.min (Z.of_nat (length lines)) (firstErrorIndex + 15) in
        join nl (slice startIndex endIndex lines)
    | [] =>
        let head := join nl (slice 0 10 lines) in
        let tail :=
          join nl (slice_from (Z.max 0 (Z.of_nat (length lines) - 20)) lines) in
        head ++ nl ++ nl ++ "..." ++ nl ++ nl ++ tail
    end.

End LogText.

(* ================================================================== *)
(** ** The outside world: disk, network, processes, exceptions *)
(* ================================================================== *)

Module Effects.
Import JS.

(** A thrown value: an [Error] object with its message, or anything else,
    with the text [String(value)] gives for it. *)
Inductive thrown :=
| ErrorObject (message : string)
| OtherValue (text : string).

(** [error instanceof Error ? error.message : String(error)] *)
Definition error_text (e : thrown) : string :=
  match e with
  | ErrorObject message => message
  | OtherValue text => text
  end.

Inductive outcome (A : Type) :=
| Returned (a : A)
| Raised (e : thrown).
Arguments Returned {A} a.
Arguments Raised {A} e.

(** The disk: paths with what is stored there, in the order in which a
    directory listing shows them.  Paths are compared as they are written,
    letter case included.

    The disk is flat: a path is looked up under its spelling, and an
    operation of [fs] below fails for what is at its own path (nothing, a
    file where a directory is needed, a directory where a file is needed).
    What else can fail an operation on a real disk (a parent that is a file,
    a dangling link, missing permissions, a full disk) has no counterpart
    here. *)
Inductive node :=
| File (content : string)
| Directory.

Definition disk := list (string * node).

Fixpoint stat (d : disk) (p : string) : option node :=
  match d with
  | [] => None
  | (q, n) :: r => if String.eqb q p then Some n else stat r p
  end.

Fixpoint put (d : disk) (p : string) (n : node) : disk :=
  match d with
  | [] => [(p, n)]
  | (q, m) :: r => if String.eqb q p then (p, n) :: r else (q, m) :: put r p n
  end.

Definition remove (d : disk) (p : string) : disk :=
  filter (fun '(q, _) => negb (String.eqb q p)) d.

(** [path.join(a, b)] for two paths that need no normalisation. *)
Definition path_join (a b : string) : string := a ++ "/" ++ b.

Fixpoint strip_prefix (pre s : string) : option string :=
  match pre, s with
  | EmptyString, _ => Some s
  | String _ _, EmptyString => None
  | String a pre', String b s' => if Ascii.eqb a b then strip_prefix pre' s' else None
  end.

(** The name under which the path [p] is listed in [dir], when it is an
    entry of [dir] itself. *)
Definition entry_name (dir p : string) : option string :=
  match strip_prefix (dir ++ "/") p with
  | Some (String c r as name) => if includes name "/" then None else Some name
  | _ => None
  end.

Fixpoint entries (d : disk) (dir : string) : list string :=
  match d with
  | [] => []
  | (p, _) :: r =>
      match entry_name dir p with
      | Some name => name :: entries r dir
      | None => entries r dir
      end
  end.

(** What an operation did to the outside, in order. *)
Inductive event :=
| ExistsSync (p : string)
| MkdirSync (p : string)
| ReaddirSync (p : string)
| ReadFileSync (p : string)
| CreateWriteStream (p : string)
| UnlinkSync (p : string)
| Pipeline (p : string)
| SpawnSync (command : string) (args : list string)
| Fetch (url : string).

Record world := { on_disk : disk; log : list event }.

(** Computations that change the world and return or throw. *)
Definition M (A : Type) : Type := world -> world * outcome A.

Definition ret {A} (a : A) : M A := fun w => (w, Returned a).
Definition throw {A} (e : thrown) : M A := fun w => (w, Raised e).
Definition bind {A B} (m : M A) (k : A -> M B) : M B :=
  fun w =>
    match m w with
    | (w', Returned a) => k a w'
    | (w', Raised e) => (w', Raised e)
    end.
(** [try { body } catch (error) { handler }] *)
Definition try_catch {A} (body : M A) (handler : thrown -> M A) : M A :=
  fun w =>
    match body w with
    | (w', Returned a) => (w', Returned a)
    | (w', Raised e) => handler e w'
    end.

Definition lift {A} (o : outcome A) : M A := fun w => (w, o).

Definition emit (e : event) : M unit :=
  fun w => ({| on_disk := on_disk w; log := log w ++ [e] |}, Returned tt).

(** The world [w] after the operations [events], the disk as it was. *)
Definition logged (w : world) (events : list event) : world :=
  {| on_disk := on_disk w; log := log w ++ events |}.

Definition get_files : M disk := fun w => (w, Returned (on_disk w)).
Definition set_files (d : disk) : M unit :=
  fun w => ({| on_disk := d; log := log w |}, Returned tt).

(** [post m w Q]: running [m] in the world [w] ends in a world and with an
    outcome that satisfy [Q]. *)
Definition post {A} (m : M A) (w : world) (Q : world -> outcome A -> Prop) : Prop :=
  let (w', o) := m w in Q w' o.

(** Is there a file, and not a directory, at [p]? *)
Definition holds_file (d : disk) (p : string) : Prop :=
  exists content, stat d p = Some (File content).

Declare Scope js_scope.
Delimit Scope js_scope with js.
Notation "x <- m ;; k" := (bind m (fun x => k))
  (at level 61, m at next level, right associativity) : js_scope.
Notation "m ;; k" := (bind m (fun _ => k))
  (at level 61, right associativity) : js_scope.
Notation "'when' c 'then' m" := (if c then m else ret tt)
  (at level 60, c at next level) : js_scope.
Open Scope js_scope.

(** *** [fs] *)

Definition existsSync (p : string) : M bool :=
  emit (ExistsSync p) ;;
  d <- get_files ;;
  ret (match stat d p with Some _ => true | None => false end).

(** [fs.mkdirSync(p, { recursive: true })] *)
Definition mkdirSync (p : string) : M unit :=
  emit (MkdirSync p) ;;
  d <- get_files ;;
  match stat d p with
  | Some Directory => ret tt
  | Some (File _) =>
      throw (ErrorObject ("EEXIST: file already exists, mkdir '" ++ p ++ "'"))
  | None => set_files (put d p Directory)
  end.

Definition readdirSync (p : string) : M (list string) :=
  emit (ReaddirSync p) ;;
  d <- get_files ;;
  match stat d p with
  | Some Directory => ret (entries d p)
  | Some (File _) =>
      throw (ErrorObject ("ENOTDIR: not a directory, scandir '" ++ p ++ "'"))
  | None =>
      throw (ErrorObject ("ENOENT: no such file or directory, scandir '" ++ p ++ "'"))
  end.

(** [fs.readFileSync(p, 'utf-8')] *)
Definition readFileSync (p : string) : M string :=
  emit (ReadFileSync p) ;;
  d <- get_files ;;
  match stat d p with
  | Some (File content) => ret content
  | Some Directory =>
      throw (ErrorObject "EISDIR: illegal operation on a directory, read")
  | None =>
      throw (ErrorObject ("ENOENT: no such file or directory, open '" ++ p ++ "'"))
  end.

Definition unlinkSync (p : string) : M unit :=
  emit (UnlinkSync p) ;;
  d <- get_files ;;
  match stat d p with
  | Some (File _) => set_files (remove d p)
  | Some Directory =>
      throw (ErrorObject ("EISDIR: illegal operation on a directory, unlink '" ++ p ++ "'"))
  | None =>
      throw (ErrorObject ("ENOENT: no such file or directory, unlink '" ++ p ++ "'"))
  end.

(** A write stream and the path it writes to.  Node opens the file of a
    stream in the background, after the synchronous code of the caller; here
    the file is opened by the first use of the stream, in [pipeline]. *)
Record WriteStream := { ws_path : string }.

(** [fs.createWriteStream(p)] *)
Definition createWriteStream (p : string) : M WriteStream :=
  emit (CreateWriteStream p) ;;
  ret {| ws_path := p |}.

(** *** Network and processes: what the outside answers *)

Record response := {
  ok : bool;
  status : Z;
  statusText : string;
  text : string;
  body : option string;
  location : option string
}.

(** The value [child_process.spawnSync] returns. *)
Record SpawnResult := {
  sp_error : option string;       (* [error.message], when the process did not start *)
  sp_status : option Z;           (* [null] when a signal ended the process *)
  sp_stderr : string
}.

Record externals := {
  process_env : string -> option string;
  now_iso : string;                              (* [new Date().toISOString()] *)
  http : string -> list (string * string) -> outcome response;
  pipe_failure : option (string * thrown);       (* what was written, and the error *)
  unzip_result : SpawnResult;
  unzip_writes : list (string * node)            (* entries of the archive *)
}.

Section Outside.
Variable X : externals.

(** [fetch(url, { headers })] *)
Definition fetch (url : string) (headers : list (string * string)) : M response :=
  emit (Fetch url) ;;
  lift (http X url headers).

(** [await pipeline(body, fileStream)]: the file is created, or emptied, and
    the body written to it; when the transfer breaks, a part of it is. *)
Definition pipeline (body : string) (fileStream : WriteStream) : M unit :=
  let p := ws_path fileStream in
  emit (Pipeline p) ;;
  d <- get_files ;;
  match stat d p with
  | Some Directory =>
      throw (ErrorObject ("EISDIR: illegal operation on a directory, open '" ++ p ++ "'"))
  | _ =>
      match pipe_failure X with
      | Some (written, e) => set_files (put d p (File written)) ;; throw e
      | None => set_files (put d p (File body))
      end
  end.

(** One entry of the archive written under [dir]; [unzip] replaces a file
    by a file ([-o]) and leaves a directory a directory, and it does not
    put the one in the place of the other. *)
Definition extract_entry (dir : string) (d : disk) (entry : string * node) : disk :=
  let (name, n) := entry in
  let p := path_join dir name in
  match stat d p, n with
  | Some (File _), Directory => d
  | Some Directory, File _ => d
  | _, _ => put d p n
  end.

(** [child_process.spawnSync('unzip', ['-o', zip, '-d', dir])] *)
Definition spawnSync_unzip (zip dir : string) : M SpawnResult :=
  emit (SpawnSync "unzip" ["-o"; zip; "-d"; dir]) ;;
  d <- get_files ;;
  match sp_error (unzip_result X) with
  | Some _ => ret (unzip_result X)
  | None =>
      set_files (fold_left (extract_entry dir) (unzip_writes X) d) ;;
      ret (unzip_result X)
  end.

End Outside.

End Effects.

(* ================================================================== *)
(** ** [path.join] of Node, as [path.posix] computes it *)
(* ================================================================== *)

(** [Effects.path_join] writes the two paths one after the other.  Node's
    [path.join] also normalises what it joined; this module has the whole
    function, so that a property that depends on how a path is spelled can
    say for which paths the two agree. *)
Module Path.

Definition is_separator (c : ascii) : bool := Ascii.eqb c "/".

(** The segments of a path: the texts between its separators. *)
Fixpoint split_separator (s : string) : string * list string :=
  match s with
  | EmptyString => (EmptyString, [])
  | String c r =>
      let (l, ls) := split_separator r in
      if is_separator c then (EmptyString, l :: ls) else (String c l, ls)
  end.

Definition segments (path : string) : list string :=
  let (l, ls) := split_separator path in l :: ls.

(** One round of the loop of [normalizeString], at the end of a segment;
    [kept] has the segments of the result so far, the last one first.  An
    empty segment and [.] are dropped; [..] takes the last segment away,
    unless there is none or it is [..] itself: then [..] is kept when the
    path may go above its start. *)
Definition keep_segment (allowAboveRoot : bool) (kept : list string) (segment : string)
  : list string :=
  if String.eqb segment "" || String.eqb segment "." then kept
  else if String.eqb segment ".." then
    match kept with
    | last :: before =>
        if String.eqb last ".." then (if allowAboveRoot then ".." :: kept else kept)
        else before
    | [] => if allowAboveRoot then [".."] else []
    end
  else segment :: kept.

Definition normalizeString (path : string) (allowAboveRoot : bool) : string :=
  String.concat "/" (rev (fold_left (keep_segment allowAboveRoot) (segments path) [])).

Fixpoint ends_with_separator (s : string) : bool :=
  match s with
  | EmptyString => false
  | String c EmptyString => is_separator c
  | String _ r => ends_with_separator r
  end.

(** [path.normalize(path)] *)
Definition normalize (path : string) : string :=
  match path with
  | EmptyString => "."
  | String first _ =>
      let isAbsolute := is_separator first in
      let trailingSeparator := ends_with_separator path in
      match normalizeString path (negb isAbsolute) with
      | EmptyString =>
          if isAbsolute then "/" else if trailingSeparator then "./" else "."
      | normalized =>
          let normalized := if trailingSeparator then normalized ++ "/" else normalized in
          if isAbsolute then "/" ++ normalized else normalized
      end
  end.

(** [path.join(...args)] *)
Definition join (args : list string) : string :=
  match filter (fun arg => negb (String.eqb arg "")) args with
  | [] => "."
  | parts => normalize (String.concat "/" parts)
  end.

End Path.

(* ================================================================== *)
(** ** log-analyzer.ts: [analyzeBazelLogs] *)
(* ================================================================== *)

Module LogAnalyzer.
Import JS Effects LogText.
Open Scope js_scope.

Record LogAnalysisResult := {
  success : bool;
  errorSummary : string;
  errorDetails : string;
  sourceFile : option string;
  relevantLogContent : option string
}.

Record AnalyzeBazelLogsParams := {
  extractedDir : string;
  bazelLogsFolderName : string
}.

(** [AnalyzeBazelLogsSchema]: the folder name has a default. *)
Definition AnalyzeBazelLogsSchema_default_folder : string := "Bazel Build and Test".

Definition AnalyzeBazelLogsSchema_parse
    (extractedDir : string) (bazelLogsFolderName : option string)
  : AnalyzeBazelLogsParams :=
  {| extractedDir := extractedDir;
     bazelLogsFolderName :=
       match bazelLogsFolderName with
       | Some name => name
       | None => AnalyzeBazelLogsSchema_default_folder
       end |}.

Definition is_summary_file (file : string) : bool :=
  includes (toLowerCase file) "get errors during workflow run.txt".
Definition is_failed_test_file (file : string) : bool :=
  includes (toLowerCase file) "view failed test logs.txt".
Definition is_build_file (file : string) : bool :=
  includes (toLowerCase file) "build incremental.txt".

Definition not_found_result (bazelLogsFolderName bazelLogsPath : string)
  : LogAnalysisResult :=
  {| success := false;
     errorSummary := "Bazel logs folder not found";
     errorDetails := "Could not find '" ++ bazelLogsFolderName ++
                     "' folder in the extracted directory '" ++ bazelLogsPath ++ "'";
     sourceFile := None;
     relevantLogContent := None |}.

Definition no_files_result (bazelLogsFolderName : string) : LogAnalysisResult :=
  {| success := false;
     errorSummary := "No relevant log files found";
     errorDetails := "Could not find expected log files in '" ++
                     bazelLogsFolderName ++ "' folder";
     sourceFile := None;
     relevantLogContent := None |}.

(** Priority 3 and the final return. *)
Definition analyze_build_log
    (bazelLogsFolderName bazelLogsPath : string) (files : list string)
  : M LogAnalysisResult :=
  let buildFile := find is_build_file files in
  match buildFile with
  | Some buildFile =>
      let filePath := path_join bazelLogsPath buildFile in
      content <- readFileSync filePath ;;
      if containsErrors content then
        ret {| success := false;
               errorSummary := "Build errors detected";
               errorDetails := extractErrorDetails content;
               sourceFile := Some buildFile;
               relevantLogContent := Some (extractRelevantContent content) |}
      else
        ret {| success := true;
               errorSummary := "No errors found in build log";
               errorDetails := "Build appears successful";
               sourceFile := Some buildFile;
               relevantLogContent := None |}
  | None => ret (no_files_result bazelLogsFolderName)
  end.

(** Priority 2, then what follows it. *)
Definition analyze_failed_tests
    (bazelLogsFolderName bazelLogsPath : string) (files : list string)
  : M LogAnalysisResult :=
  let failedTestFile := find is_failed_test_file files in
  match failedTestFile with
  | Some failedTestFile =>
      let filePath := path_join bazelLogsPath failedTestFile in
      content <- readFileSync filePath ;;
      if (len (trim content) >? 0)%Z then
        ret {| success := false;
               errorSummary := "Test failures detected";
               errorDetails := extractErrorDetails content;
               sourceFile := Some failedTestFile;
               relevantLogContent := Some content |}
      else analyze_build_log bazelLogsFolderName bazelLogsPath files
  | None => analyze_build_log bazelLogsFolderName bazelLogsPath files
  end.

(** Priority 1, then what follows it. *)
Definition analyze_summary
    (bazelLogsFolderName bazelLogsPath : string) (files : list string)
  : M LogAnalysisResult :=
  let errorSummaryFile := find is_summary_file files in
  match errorSummaryFile with
  | Some errorSummaryFile =>
      let filePath := path_join bazelLogsPath errorSummaryFile in
      content <- readFileSync filePath ;;
      if (len (trim content) >? 0)%Z then
        ret {| success := false;
               errorSummary := "Workflow run errors found";
               errorDetails := extractErrorDetails content;
               sourceFile := Some errorSummaryFile;
               relevantLogContent := Some content |}
      else analyze_failed_tests bazelLogsFolderName bazelLogsPath files
  | None => analyze_failed_tests bazelLogsFolderName bazelLogsPath files
  end.

Definition analyzeBazelLogs (params : AnalyzeBazelLogsParams) : M LogAnalysisResult :=
  let extractedDir := extractedDir params in
  let bazelLogsFolderName := bazelLogsFolderName params in
  let bazelLogsPath := path_join extractedDir bazelLogsFolderName in
  found <- existsSync bazelLogsPath ;;
  if negb found then ret (not_found_result bazelLogsFolderName bazelLogsPath)
  else
    files <- readdirSync bazelLogsPath ;;
    analyze_summary bazelLogsFolderName bazelLogsPath files.

End LogAnalyzer.

(* ================================================================== *)
(** ** downloader.ts: [downloadAndUnzip] *)
(* ================================================================== *)

Module Downloader.
Import JS Effects.
Open Scope js_scope.

Record DownloadAndUnzipParams := {
  url : string;
  outputDir : string;
  filename : option string
}.

Record DownloadResult := {
  success : bool;
  message : string;
  extractedDirectory : string;
  files : list string
}.

(** [DownloadAndUnzipSchema]: [outputDir] has a default. *)
Definition DownloadAndUnzipSchema_parse
    (url : string) (outputDir filename : option string) : DownloadAndUnzipParams :=
  {| url := url;
     outputDir := match outputDir with Some d => d | None => "/tmp" end;
     filename := filename |}.

(** [filename || `github-logs.zip`] *)
Definition tempFilename_of (filename : option string) : string :=
  match or_else filename (Some "github-logs.zip") with
  | Some name => name
  | None => "github-logs.zip"
  end.

Definition show_status (s : option Z) : string :=
  match s with
  | Some z => show_Z z
  | None => "null"
  end.

Section WithOutside.
Variable X : externals.

(** The body of the [try] block. *)
Definition download_steps (url outputDir tempFilePath : string) : M DownloadResult :=
  response <- fetch X url [] ;;
  (when negb (ok response) then
     throw (ErrorObject ("HTTP error! Status: " ++ show_Z (status response) ++
                         ", Message: " ++ text response))) ;;
  fileStream <- createWriteStream tempFilePath ;;
  match body response with
  | None => throw (ErrorObject "Response body is null")
  | Some body =>
      pipeline X body fileStream ;;
      let extractDir := outputDir in
      unzipProcess <- spawnSync_unzip X tempFilePath extractDir ;;
      match sp_error unzipProcess with
      | Some message => throw (ErrorObject ("Error unzipping file: " ++ message))
      | None =>
          if match sp_status unzipProcess with Some 0%Z => false | _ => true end
          then
            throw (ErrorObject ("Unzip process exited with code " ++
                                show_status (sp_status unzipProcess) ++ ": " ++
                                sp_stderr unzipProcess))
          else
            unlinkSync tempFilePath ;;
            files <- readdirSync extractDir ;;
            ret {| success := true;
                   message := "File downloaded and unzipped successfully to " ++
                              extractDir;
                   extractedDirectory := extractDir;
                   files := files |}
      end
  end.

(** The [catch] block. *)
Definition download_cleanup (tempFilePath : string) (error : thrown)
  : M DownloadResult :=
  present <- existsSync tempFilePath ;;
  (when present then unlinkSync tempFilePath) ;;
  throw error.

Definition downloadAndUnzip (params : DownloadAndUnzipParams) : M DownloadResult :=
  let url := url params in
  let outputDir := outputDir params in
  let filename := filename params in
  present <- existsSync outputDir ;;
  (when negb present then mkdirSync outputDir) ;;
  let tempFilename := tempFilename_of filename in
  let tempFilePath := path_join outputDir tempFilename in
  try_catch (download_steps url outputDir tempFilePath)
            (download_cleanup tempFilePath).

End WithOutside.

End Downloader.

(* ================================================================== *)
(** ** workflow-logs.ts: [analyzeWorkflowLogs] *)
(* ================================================================== *)

Module WorkflowLogs.
Import JS Effects LogAnalyzer.
Open Scope js_scope.

Record AnalyzeWorkflowLogsParams := {
  url : string;
  outputDir : string;
  bazelLogsFolderName : string
}.

(** [AnalyzeWorkflowLogsSchema]: two defaults. *)
Definition AnalyzeWorkflowLogsSchema_default_folder : string := "Bazel build and test".

Definition AnalyzeWorkflowLogsSchema_parse
    (url : string) (outputDir bazelLogsFolderName : option string)
  : AnalyzeWorkflowLogsParams :=
  {| url := url;
     outputDir := match outputDir with Some d => d | None => "/tmp/workflow_logs" end;
     bazelLogsFolderName :=
       match bazelLogsFolderName with
       | Some name => name
       | None => AnalyzeWorkflowLogsSchema_default_folder
       end |}.

Definition download_failed_result (message : string) : LogAnalysisResult :=
  {| success := false;
     errorSummary := "Failed to download or extract logs";
     errorDetails :=
       match or_else (Some message) (Some "Unknown error occurred during download") with
       | Some m => m
       | None => ""
       end;
     sourceFile := None;
     relevantLogContent := None |}.

Definition caught_result (error : thrown) : LogAnalysisResult :=
  let errorMessage := error_text error in
  {| success := false;
     errorSummary := "Error analyzing workflow logs";
     errorDetails := errorMessage;
     sourceFile := None;
     relevantLogContent := None |}.

Section WithOutside.
Variable X : externals.

(** [path.join(outputDir, new Date().toISOString().replace(/[:.]/g, '-'))] *)
Definition analysisDir_of (outputDir : string) : string :=
  path_join outputDir (replace_colon_dot (now_iso X)).

(** The body of the [try] block. *)
Definition workflow_steps (params : AnalyzeWorkflowLogsParams) : M LogAnalysisResult :=
  let analysisDir := analysisDir_of (outputDir params) in
  mkdirSync analysisDir ;;
  downloadResult <-
    Downloader.downloadAndUnzip X
      {| Downloader.url := url params;
         Downloader.outputDir := analysisDir;
         Downloader.filename := None |} ;;
  if negb (Downloader.success downloadResult) then
    ret (download_failed_result (Downloader.message downloadResult))
  else
    analysisResult <-
      analyzeBazelLogs
        {| extractedDir := Downloader.extractedDirectory downloadResult;
           LogAnalyzer.bazelLogsFolderName := bazelLogsFolderName params |} ;;
    ret analysisResult.

Definition analyzeWorkflowLogs (params : AnalyzeWorkflowLogsParams)
  : M LogAnalysisResult :=
  try_catch (workflow_steps params) (fun error => ret (caught_result error)).

End WithOutside.

End WorkflowLogs.

(* ================================================================== *)
(** ** workflows.ts and ci_workflows.ts: the workflow-run wrappers *)
(* ================================================================== *)

Module Workflows.
Import JS Effects.
Open Scope js_scope.

(** [ListWorkflowRunsSchema]; ids and page numbers are integers. *)
Record ListWorkflowRunsOptions := {
  lr_owner : option string;
  lr_repo : option string;
  lr_branch : option string;
  lr_actor : option string;
  lr_event : option string;
  lr_status : option string;
  lr_per_page : option Z;
  lr_page : option Z
}.

(** [GetWorkflowRunSchema] and [GetWorkflowRunLogsSchema] (the same fields). *)
Record GetWorkflowRunOptions := {
  gr_run_id : Z;
  gr_owner : option string;
  gr_repo : option string
}.

(** [ListWorkflowRunsByWorkflowIdSchema] *)
Record ListWorkflowRunsByWorkflowIdOptions := {
  lw_owner : option string;
  lw_repo : option string;
  lw_workflow_id : option string;
  lw_branch : option string;
  lw_actor : option string;
  lw_event : option string;
  lw_status : option string;
  lw_created : option string;
  lw_exclude_pull_requests : option bool;
  lw_check_suite_id : option Z;
  lw_head_sha : option string;
  lw_per_page : option Z;
  lw_page : option Z
}.

Definition show_bool (b : bool) : string := if b then "true" else "false".

Definition api_headers : list (string * string) :=
  [("Accept", "application/vnd.github+json"); ("X-GitHub-Api-Version", "2022-11-28")].

Definition owner_required : string :=
  "Repository owner is required. Either provide it as a parameter or set GITHUB_OWNER environment variable.".
Definition repo_required : string :=
  "Repository name is required. Either provide it as a parameter or set GITHUB_REPO environment variable.".
Definition workflow_id_required : string :=
  "Workflow ID is required. Either provide it as a parameter or set GITHUB_WORKFLOW_ID environment variable.".

Section Wrappers.
Variable X : externals.

(** What [../common/utils.js] and the response schemas provide. *)
Variables json WorkflowRuns WorkflowRun : Type.
Variable buildUrl : string -> list (string * option string) -> string.
Variable githubRequest : string -> list (string * string) -> M json.
Variable WorkflowRunsResponseSchema_parse : json -> outcome WorkflowRuns.
Variable WorkflowRunSchema_parse : json -> outcome WorkflowRun.

(** *** workflows.ts *)

Definition getOwnerAndRepo (providedOwner providedRepo : option string)
  : M (string * string) :=
  let owner := or_else providedOwner (process_env X "GITHUB_OWNER") in
  let repo := or_else providedRepo (process_env X "GITHUB_REPO") in
  match owner with
  | Some (String _ _ as owner) =>
      match repo with
      | Some (String _ _ as repo) => ret (owner, repo)
      | _ => throw (ErrorObject repo_required)
      end
  | _ => throw (ErrorObject owner_required)
  end.

Definition listWorkflowRuns (options : ListWorkflowRunsOptions) : M WorkflowRuns :=
  r <- getOwnerAndRepo (lr_owner options) (lr_repo options) ;;
  let (owner, repo) := (r : string * string) in
  let url :=
    buildUrl ("https://api.github.com/repos/" ++ owner ++ "/" ++ repo ++ "/actions/runs")
      [("branch", lr_branch options);
       ("actor", lr_actor options);
       ("event", lr_event options);
       ("status", lr_status options);
       ("per_page", option_map show_Z (lr_per_page options));
       ("page", option_map show_Z (lr_page options))] in
  response <- githubRequest url api_headers ;;
  lift (WorkflowRunsResponseSchema_parse response).

Definition getWorkflowRun (options : GetWorkflowRunOptions) : M WorkflowRun :=
  r <- getOwnerAndRepo (gr_owner options) (gr_repo options) ;;
  let (owner, repo) := (r : string * string) in
  response <-
    githubRequest
      ("https://api.github.com/repos/" ++ owner ++ "/" ++ repo ++ "/actions/runs/" ++
       show_Z (gr_run_id options))
      api_headers ;;
  lift (WorkflowRunSchema_parse response).

Definition listWorkflowRunsByWorkflowId (options : ListWorkflowRunsByWorkflowIdOptions)
  : M WorkflowRuns :=
  r <- getOwnerAndRepo (lw_owner options) (lw_repo options) ;;
  let (owner, repo) := (r : string * string) in
  let workflow_id :=
    or_else (lw_workflow_id options) (process_env X "GITHUB_WORKFLOW_ID") in
  match workflow_id with
  | Some (String _ _ as workflow_id) =>
      let url :=
        buildUrl
          ("https://api.github.com/repos/" ++ owner ++ "/" ++ repo ++
           "/actions/workflows/" ++ workflow_id ++ "/runs")
          [("branch", lw_branch options);
           ("actor", lw_actor options);
           ("event", lw_event options);
           ("status", lw_status options);
           ("created", lw_created options);
           ("exclude_pull_requests",
             option_map show_bool (lw_exclude_pull_requests options));
           ("check_suite_id", option_map show_Z (lw_check_suite_id options));
           ("head_sha", lw_head_sha options);
           ("per_page", option_map show_Z (lw_per_page options));
           ("page", option_map show_Z (lw_page options))] in
      response <- githubRequest url api_headers ;;
      lift (WorkflowRunsResponseSchema_parse response)
  | _ => throw (ErrorObject workflow_id_required)
  end.

(** The headers of the raw request for the logs, and what follows the
    request; both files have the same text for them. *)
Definition logs_headers : list (string * string) :=
  api_headers ++ [("User-Agent", "modelcontextprotocol/servers/github")] ++
  match process_env X "GITHUB_PERSONAL_ACCESS_TOKEN" with
  | Some (String _ _ as token) => [("Authorization", "Bearer " ++ token)]
  | _ => []
  end.

Definition logs_redirect (url : string) : M string :=
  response <- fetch X url logs_headers ;;
  if negb (status response =? 302)%Z then
    let errorBody := text response in
    throw (ErrorObject ("Failed to get logs download URL: " ++
                        show_Z (status response) ++ " " ++ statusText response ++
                        nl ++ errorBody))
  else
    match location response with
    | Some (String _ _ as downloadUrl) => ret downloadUrl
    | _ => throw (ErrorObject "No download URL found in the response headers")
    end.

Definition getWorkflowRunLogs (options : GetWorkflowRunOptions) : M string :=
  r <- getOwnerAndRepo (gr_owner options) (gr_repo options) ;;
  let (owner, repo) := (r : string * string) in
  let url :=
    "https://api.github.com/repos/" ++ owner ++ "/" ++ repo ++ "/actions/runs/" ++
    show_Z (gr_run_id options) ++ "/logs" in
  logs_redirect url.

(** *** ci_workflows.ts

    The file has its own copy of [getOwnerAndRepo], word for word the one
    above; none of its operations calls it. *)

Definition listCiWorkflowRuns (options : ListWorkflowRunsOptions) : M WorkflowRuns :=
  let url :=
    buildUrl "https://api.github.com/repos/askscio/scio/actions/runs"
      [("branch", lr_branch options);
       ("actor", lr_actor options);
       ("event", lr_event options);
       ("status", lr_status options);
       ("per_page", option_map show_Z (lr_per_page options));
       ("page", option_map show_Z (lr_page options))] in
  response <- githubRequest url api_headers ;;
  lift (WorkflowRunsResponseSchema_parse response).

Definition getCiWorkflowRun (options : GetWorkflowRunOptions) : M WorkflowRun :=
  response <-
    githubRequest
      ("https://api.github.com/repos/askscio/scio/actions/runs/" ++
       show_Z (gr_run_id options))
      api_headers ;;
  lift (WorkflowRunSchema_parse response).

Definition listCiWorkflowRunsForBranch (options : ListWorkflowRunsByWorkflowIdOptions)
  : M WorkflowRuns :=
  let url :=
    buildUrl
      "https://api.github.com/repos/askscio/scio/actions/workflows/bazel_pr_runner.yml/runs"
      [("branch", lw_branch options);
       ("actor", lw_actor options);
       ("event", lw_event options);
       ("status", lw_status options);
       ("created", lw_created options);
       ("exclude_pull_requests",
         option_map show_bool (lw_exclude_pull_requests options));
       ("check_suite_id", option_map show_Z (lw_check_suite_id options));
       ("head_sha", lw_head_sha options);
       ("per_page", option_map show_Z (lw_per_page options));
       ("page", option_map show_Z (lw_page options))] in
  response <- githubRequest url api_headers ;;
  lift (WorkflowRunsResponseSchema_parse response).

Definition getCiWorkflowRunLogs (options : GetWorkflowRunOptions) : M string :=
  let url :=
    "https://api.github.com/repos/askscio/scio/actions/runs/" ++
    show_Z (gr_run_id options) ++ "/logs" in
  logs_redirect url.

End Wrappers.

(** *** The parameters after the defaults of the environment

    [lr_set_repository owner repo options] is [options] with these two
    fields; [lr_from_env X options] has the fields that are absent, or empty,
    taken from [GITHUB_OWNER] and [GITHUB_REPO].  Likewise for the other two
    parameter objects, the third with [GITHUB_WORKFLOW_ID]. *)

Definition lr_set_repository (owner repo : option string)
    (options : ListWorkflowRunsOptions) : ListWorkflowRunsOptions :=
  {| lr_owner := owner;
     lr_repo := repo;
     lr_branch := lr_branch options;
     lr_actor := lr_actor options;
     lr_event := lr_event options;
     lr_status := lr_status options;
     lr_per_page := lr_per_page options;
     lr_page := lr_page options |}.

Definition gr_set_repository (owner repo : option string)
    (options : GetWorkflowRunOptions) : GetWorkflowRunOptions :=
  {| gr_run_id := gr_run_id options; gr_owner := owner; gr_repo := repo |}.

Definition lw_set_repository (owner repo workflow_id : option string)
    (options : ListWorkflowRunsByWorkflowIdOptions) : ListWorkflowRunsByWorkflowIdOptions :=
  {| lw_owner := owner;
     lw_repo := repo;
     lw_workflow_id := workflow_id;
     lw_branch := lw_branch options;
     lw_actor := lw_actor options;
     lw_event := lw_event options;
     lw_status := lw_status options;
     lw_created := lw_created options;
     lw_exclude_pull_requests := lw_exclude_pull_requests options;
     lw_check_suite_id := lw_check_suite_id options;
     lw_head_sha := lw_head_sha options;
     lw_per_page := lw_per_page options;
     lw_page := lw_page options |}.

Definition resolved (X : externals) (provided : option string) (variable : string)
  : option string :=
  or_else provided (process_env X variable).

Definition lr_from_env (X : externals) (options : ListWorkflowRunsOptions) :=
  lr_set_repository (resolved X (lr_owner options) "GITHUB_OWNER")
                    (resolved X (lr_repo options) "GITHUB_REPO") options.

Definition gr_from_env (X : externals) (options : GetWorkflowRunOptions) :=
  gr_set_repository (resolved X (gr_owner options) "GITHUB_OWNER")
                    (resolved X (gr_repo options) "GITHUB_REPO") options.

Definition lw_from_env (X : externals) (options : ListWorkflowRunsByWorkflowIdOptions) :=
  lw_set_repository (resolved X (lw_owner options) "GITHUB_OWNER")
                    (resolved X (lw_repo options) "GITHUB_REPO")
                    (resolved X (lw_workflow_id options) "GITHUB_WORKFLOW_ID") options.

(** An operation on [ListWorkflowRunsOptions] reports a missing owner: with
    neither the parameter nor [GITHUB_OWNER], it throws an error and leaves
    the world as it was, so that no request was made. *)
Definition reports_missing_owner {R : Type}
    (operation : externals -> ListWorkflowRunsOptions -> M R) : Prop :=
  forall (X : externals) (options : ListWorkflowRunsOptions) (w : world),
    truthy (resolved X (lr_owner options) "GITHUB_OWNER") = false ->
    exists message, operation X options w = (w, Raised (ErrorObject message)).

End Workflows.

(* ================================================================== *)
(** ** Scenarios: concrete disks, archives and answers of the outside *)
(* ================================================================== *)

Module Scenario.
Import JS Effects.
Open Scope js_scope.

Definition empty_world : world := {| on_disk := []; log := [] |}.

Definition on (d : disk) : world := {| on_disk := d; log := [] |}.

Definition logs_dir : string := "/tmp/x/Bazel Build and Test".

Definition analyzer_params : LogAnalyzer.AnalyzeBazelLogsParams :=
  LogAnalyzer.AnalyzeBazelLogsSchema_parse "/tmp/x" None.

(** A summary file and a failed-test file, both with content. *)
Definition both_files : disk :=
  [(logs_dir, Directory);
   (path_join logs_dir "3_View Failed Test Logs.txt", File "//foo:test FAILED in 3.1s");
   (path_join logs_dir "7_Get errors during workflow run.txt",
     File ("ERROR: disk full" ++ nl))].

(** The summary file holds white space only. *)
Definition blank_summary : disk :=
  [(logs_dir, Directory);
   (path_join logs_dir "3_View Failed Test Logs.txt", File "//foo:test FAILED in 3.1s");
   (path_join logs_dir "7_Get errors during workflow run.txt", File ("  " ++ nl))].

Definition failing_build_log : string :=
  "Compiling..." ++ nl ++ "BUILD FAILED: target //foo failed" ++ nl ++ "see above" ++ nl.

Definition failing_build : disk :=
  [(logs_dir, Directory);
   (path_join logs_dir "Build Incremental.txt", File failing_build_log)].

Definition clean_build : disk :=
  [(logs_dir, Directory);
   (path_join logs_dir "Build Incremental.txt",
     File ("Compiling..." ++ nl ++ "Build completed successfully" ++ nl))].

Definition unrelated_files : disk :=
  [(logs_dir, Directory); (path_join logs_dir "1_Set up job.txt", File "ok")].

(** [n] lines, each the text [line]. *)
Fixpoint lines_of (n : nat) (line : string) : string :=
  match n with
  | O => EmptyString
  | S n' => line ++ nl ++ lines_of n' line
  end.

(** "ERROR: disk full" and 15 more lines. *)
Definition disk_full_log : string :=
  "ERROR: disk full" ++ nl ++ lines_of 15 "  at step".

(** More than 2000 characters, an indicator in the line of index 7. *)
Definition long_failing_log : string :=
  lines_of 7 "step ok" ++ "FAILED: //foo:bar" ++ nl ++ lines_of 300 "step ok".

(** More than 2000 characters, no indicator. *)
Definition long_clean_log : string := lines_of 300 "step ok".

(** The outside, when the network and [unzip] answer as given. *)
Definition outside
    (answer : outcome response) (result : SpawnResult) (archive : list (string * node))
  : externals :=
  {| process_env := fun _ => None;
     now_iso := "2024-05-06T07:08:09.123Z";
     http := fun _ _ => answer;
     pipe_failure := None;
     unzip_result := result;
     unzip_writes := archive |}.

Definition ok_response : response :=
  {| ok := true; status := 200; statusText := "OK"; text := "";
     body := Some "PK"; location := None |}.

Definition unzip_ok : SpawnResult :=
  {| sp_error := None; sp_status := Some 0%Z; sp_stderr := "" |}.

Definition unzip_broken : SpawnResult :=
  {| sp_error := None; sp_status := Some 9%Z;
     sp_stderr := "End-of-central-directory signature not found." |}.

(** The archive of a run: the folder of the logs, and a build log in it. *)
Definition archive : list (string * node) :=
  [("Bazel Build and Test", Directory);
   ("Bazel Build and Test/Build Incremental.txt", File failing_build_log)].

Definition good_run : externals := outside (Returned ok_response) unzip_ok archive.
Definition broken_archive : externals := outside (Returned ok_response) unzip_broken [].
Definition no_network : externals :=
  outside (Raised (ErrorObject "getaddrinfo ENOTFOUND example.com")) unzip_ok [].

Definition fetch_params : Downloader.DownloadAndUnzipParams :=
  Downloader.DownloadAndUnzipSchema_parse "https://example.com/logs.zip"
    (Some "/tmp/out") None.

Definition workflow_params : WorkflowLogs.AnalyzeWorkflowLogsParams :=
  WorkflowLogs.AnalyzeWorkflowLogsSchema_parse "https://example.com/logs.zip" None None.

(** A disk on which a file is in the way of the output directory. *)
Definition blocked_output : disk :=
  [("/tmp/workflow_logs/2024-05-06T07-08-09-123Z", File "")].

(** A request helper that sends the request and answers with the URL, a URL
    builder that drops the query, schemas that accept everything. *)
Definition send (url : string) (headers : list (string * string)) : M string :=
  emit (Fetch url) ;; ret url.

Definition base_only (base : string) (query : list (string * option string)) : string :=
  base.

Definition accept (response : string) : outcome string := Returned response.

Definition no_options : Workflows.ListWorkflowRunsOptions :=
  {| Workflows.lr_owner := None; Workflows.lr_repo := None;
     Workflows.lr_branch := None; Workflows.lr_actor := None;
     Workflows.lr_event := None; Workflows.lr_status := None;
     Workflows.lr_per_page := None; Workflows.lr_page := None |}.

Definition no_run_options : Workflows.ListWorkflowRunsByWorkflowIdOptions :=
  Workflows.lw_set_repository None None None
    {| Workflows.lw_owner := None; Workflows.lw_repo := None;
       Workflows.lw_workflow_id := None; Workflows.lw_branch := Some "main";
       Workflows.lw_actor := None; Workflows.lw_event := None;
       Workflows.lw_status := None; Workflows.lw_created := None;
       Workflows.lw_exclude_pull_requests := None;
       Workflows.lw_check_suite_id := None; Workflows.lw_head_sha := None;
       Workflows.lw_per_page := None; Workflows.lw_page := None |}.

(** The run 42, asked for with an owner that is not the one of the CI. *)
Definition run_42 : Workflows.GetWorkflowRunOptions :=
  {| Workflows.gr_run_id := 42; Workflows.gr_owner := Some "octocat";
     Workflows.gr_repo := None |}.

(** An environment with the three variables. *)
Definition configured : externals :=
  {| process_env := fun name =>
       if String.eqb name "GITHUB_OWNER" then Some "octocat"
       else if String.eqb name "GITHUB_REPO" then Some "hello-world"
       else if String.eqb name "GITHUB_WORKFLOW_ID" then Some "ci.yml"
       else None;
     now_iso := "2024-05-06T07:08:09.123Z";
     http := fun _ _ => Returned ok_response;
     pipe_failure := None;
     unzip_result := unzip_ok;
     unzip_writes := [] |}.

End Scenario.

(* ================================================================== *)
(** ** Observing a run: the operations it adds to the log *)
(* ================================================================== *)

Module Observations.
Import JS Effects.

(** The operations that running [m] in [w] appends to the log. *)
Definition trace {A} (m : M A) (w : world) : list event :=
  skipn (length (log w)) (log (fst (m w))).

Definition is_fetch (e : event) : bool :=
  match e with Fetch _ => true | _ => false end.

Definition is_spawn (e : event) : bool :=
  match e with SpawnSync _ _ => true | _ => false end.

Definition is_pipeline (e : event) : bool :=
  match e with Pipeline _ => true | _ => false end.

Definition is_read (e : event) : bool :=
  match e with ReadFileSync _ => true | _ => false end.

(** Operations that change the disk. *)
Definition is_write (e : event) : bool :=
  match e with
  | MkdirSync _ | UnlinkSync _ | Pipeline _ | SpawnSync _ _ => true
  | _ => false
  end.

Definition count (f : event -> bool) (events : list event) : nat :=
  length (filter f events).

(** The file that a rule picked is missing, or blank after trimming. *)
Definition blank_or_missing (d : disk) (path : string) (file : option string) : Prop :=
  match file with
  | None => True
  | Some f => exists c, stat d (path_join path f) = Some (File c) /\ len (trim c) = 0%Z
  end.

End Observations.

(* ================================================================== *)
(** ** More scenarios *)
(* ================================================================== *)

Module MoreScenarios.
Import JS Effects Scenario.

(** Flagged by "Execution failed" alone. *)
Definition execution_failed_log : string :=
  "> Task :app:compile" ++ nl ++ "Execution failed for task ':app:compile'." ++ nl.

(** The lines "step n: ..." for [n] from [from] on, [n] of them. *)
Fixpoint numbered_lines (from n : nat) : list string :=
  match n with
  | O => []
  | S n' =>
      ("step " ++ show_Z (Z.of_nat from) ++ ": compiling //pkg:target") ::
      numbered_lines (S from) n'
  end.

(** A hundred numbered lines, more than 2000 characters; the line of index
    20, and no other, has an indicator. *)
Definition numbered_log : string :=
  join nl (numbered_lines 0 20 ++
           ["step 20: ERROR: compilation of //pkg:target stopped"] ++
           numbered_lines 21 79).

(** No summary file; a failed-test file with content and a clean build log. *)
Definition failed_tests_only : disk :=
  [(logs_dir, Directory);
   (path_join logs_dir "2_Build Incremental.txt", File ("Build completed" ++ nl));
   (path_join logs_dir "3_View Failed Test Logs.txt", File "//foo:test FAILED in 3.1s")].

(** A summary file and a failed-test file, both blank, and no build log. *)
Definition blank_files : disk :=
  [(logs_dir, Directory);
   (path_join logs_dir "3_View Failed Test Logs.txt", File "");
   (path_join logs_dir "7_Get errors during workflow run.txt", File ("  " ++ nl))].

(** A file where the folder of the logs should be. *)
Definition folder_is_a_file : disk := [(logs_dir, File "not a folder")].

(** A directory with the name of the summary file. *)
Definition summary_is_a_directory : disk :=
  [(logs_dir, Directory);
   (path_join logs_dir "Get errors during workflow run.txt", Directory)].

(** A blank summary file, and a directory with the name of the failed-test
    file. *)
Definition failed_tests_is_a_directory : disk :=
  [(logs_dir, Directory);
   (path_join logs_dir "7_Get errors during workflow run.txt", File ("  " ++ nl));
   (path_join logs_dir "View Failed Test Logs.txt", Directory)].

(** A directory where the temporary archive should be written. *)
Definition archive_is_a_directory : disk :=
  [("/tmp/out", Directory); ("/tmp/out/github-logs.zip", Directory)].

Definition not_found_response : response :=
  {| ok := false; status := 404; statusText := "Not Found"; text := "no such run";
     body := Some ""; location := None |}.

Definition not_found : externals := outside (Returned not_found_response) unzip_ok [].

Definition redirect_response : response :=
  {| ok := false; status := 302; statusText := "Found"; text := "";
     body := None; location := Some "https://logs.example.com/run-42.zip" |}.

(** The answer is a redirect, and a token is configured. *)
Definition redirecting : externals :=
  {| process_env := fun name =>
       if String.eqb name "GITHUB_PERSONAL_ACCESS_TOKEN" then Some "t0ken" else None;
     now_iso := "2024-05-06T07:08:09.123Z";
     http := fun _ _ => Returned redirect_response;
     pipe_failure := None;
     unzip_result := unzip_ok;
     unzip_writes := [] |}.

(** The answer is a redirect, a token is configured, and an owner and a
    repository too. *)
Definition redirecting_configured : externals :=
  {| process_env := fun name =>
       if String.eqb name "GITHUB_PERSONAL_ACCESS_TOKEN" then Some "t0ken"
       else if String.eqb name "GITHUB_OWNER" then Some "octocat"
       else if String.eqb name "GITHUB_REPO" then Some "hello-world"
       else None;
     now_iso := "2025-01-02T03:04:05.678Z";
     http := fun _ _ => Returned redirect_response;
     pipe_failure := None;
     unzip_result := unzip_ok;
     unzip_writes := [] |}.

(** The run 42 of a repository that the call names. *)
Definition run_42_named : Workflows.GetWorkflowRunOptions :=
  {| Workflows.gr_run_id := 42; Workflows.gr_owner := Some "rust-lang";
     Workflows.gr_repo := Some "rust" |}.

End MoreScenarios.

(* ================================================================== *)
(** * Properties *)
(* ================================================================== *)

Import JS Effects LogText.

(** ** Strings, lines and slices *)

Section Lines.

Lemma is_newline_lower_char (c : ascii) : is_newline (lower_char c) = is_newline c.
Proof. destruct c as [[] [] [] [] [] [] [] []]; reflexivity. Qed.

Lemma split_nl_toLowerCase (s : string) :
  split_nl (toLowerCase s) =
    (toLowerCase (fst (split_nl s)), map toLowerCase (snd (split_nl s))).
Proof.
  induction s as [|c r IH]; [reflexivity|].
  cbn [toLowerCase split_nl]. rewrite IH, is_newline_lower_char.
  destruct (split_nl r) as [l ls]. cbn [fst snd].
  destruct (is_newline c) eqn:E; [|reflexivity].
  cbn [fst snd map toLowerCase]. reflexivity.
Qed.

Lemma split_lines_toLowerCase (s : string) :
  split_lines (toLowerCase s) = map toLowerCase (split_lines s).
Proof.
  unfold split_lines. rewrite split_nl_toLowerCase.
  destruct (split_nl s); reflexivity.
Qed.

Lemma startsWith_first_line (p s : string) :
  has_newline p = false -> startsWith s p = true ->
  startsWith (fst (split_nl s)) p = true.
Proof.
  revert s. induction p as [|a p IH]; intros s Hp Hs; [destruct (fst (split_nl s)); reflexivity|].
  destruct s as [|b s]; [discriminate|].
  cbn [has_newline] in Hp. apply orb_false_iff in Hp as [Ha Hp].
  cbn [startsWith] in Hs. apply andb_true_iff in Hs as [Hab Hs].
  apply Ascii.eqb_eq in Hab. subst b.
  cbn [split_nl]. specialize (IH s Hp Hs).
  destruct (split_nl s) as [l ls]. rewrite Ha. cbn [fst] in *.
  cbn [startsWith]. rewrite Ascii.eqb_refl. exact IH.
Qed.

Lemma includes_cons (c : ascii) (s p : string) :
  includes s p = true -> includes (String c s) p = true.
Proof. intros H. cbn [includes]. rewrite H. apply orb_true_r. Qed.

Lemma startsWith_includes (s p : string) :
  startsWith s p = true -> includes s p = true.
Proof. intros H. destruct s; cbn [includes]; rewrite H; reflexivity. Qed.

(** A text that contains [p], where [p] has no line break, has a line that
    contains [p]. *)
Lemma includes_some_line (p s : string) :
  has_newline p = false -> includes s p = true ->
  existsb (fun l => includes l p) (split_lines s) = true.
Proof.
  intros Hp. unfold split_lines.
  induction s as [|c r IH]; intros H.
  - cbn. cbn in H. rewrite H. reflexivity.
  - cbn [includes] in H. apply orb_true_iff in H as [H|H].
    + pose proof (startsWith_first_line p (String c r) Hp H) as F.
      destruct (split_nl (String c r)) as [l ls]. cbn [fst] in F.
      cbn [existsb]. rewrite (startsWith_includes _ _ F). reflexivity.
    + specialize (IH H). cbn [split_nl].
      destruct (split_nl r) as [l ls]. cbn [existsb] in IH.
      destruct (is_newline c).
      * cbn [existsb]. rewrite IH. apply orb_true_r.
      * cbn [existsb]. apply orb_true_iff in IH as [IH|IH].
        -- rewrite (includes_cons c _ _ IH). reflexivity.
        -- rewrite IH. apply orb_true_r.
Qed.

Lemma matches_some_line (alternatives : list string) (content : string) :
  forallb (fun p => negb (has_newline (toLowerCase p))) alternatives = true ->
  matches alternatives content = true ->
  existsb (matches alternatives) (split_lines content) = true.
Proof.
  intros Hall H. unfold matches in H.
  apply existsb_exists in H as [p [Hin H]].
  rewrite forallb_forall in Hall. specialize (Hall p Hin).
  apply negb_true_iff in Hall.
  apply (includes_some_line _ _ Hall) in H.
  rewrite split_lines_toLowerCase in H.
  apply existsb_exists in H as [l' [Hl' H]].
  apply in_map_iff in Hl' as [l [<- Hl]].
  apply existsb_exists. exists l. split; [exact Hl|].
  unfold matches. apply existsb_exists. exists p. split; assumption.
Qed.

Context {A : Type}.

(** [findIndex] answers the first index that satisfies the test. *)
Lemma findIndex_at_first (p : A -> bool) (d : A) (a : list A) (k : Z) :
  existsb p a = true ->
  exists i : nat,
    findIndex_at p k a = (k + Z.of_nat i)%Z /\
    (i < length a)%nat /\
    p (nth i a d) = true /\
    forall j, (j < i)%nat -> p (nth j a d) = false.
Proof.
  revert k. induction a as [|x r IH]; intros k H; [discriminate|].
  cbn [existsb] in H. cbn [findIndex_at].
  destruct (p x) eqn:Px.
  - exists 0%nat. repeat split; cbn; try lia; try assumption.
  - cbn in H. destruct (IH (k + 1)%Z H) as [i [E [L [P F]]]].
    exists (S i). repeat split.
    + rewrite E. lia.
    + cbn. lia.
    + exact P.
    + intros [|j] Hj; [exact Px|]. cbn. apply F. lia.
Qed.

Lemma findIndex_first (p : A -> bool) (d : A) (a : list A) :
  existsb p a = true ->
  exists i : nat,
    findIndex p a = Z.of_nat i /\
    (i < length a)%nat /\
    p (nth i a d) = true /\
    forall j, (j < i)%nat -> p (nth j a d) = false.
Proof.
  intros H. destruct (findIndex_at_first p d a 0%Z H) as [i [E R]].
  exists i. split; [exact E | exact R].
Qed.

(** The first element that [filter] keeps of an indexed array carries the
    index [findIndex] answers. *)
Lemma filter_with_index_at (p : A -> bool) (a : list A) (k : Z) :
  match filter (fun '(x, _) => p x) (with_index_at k a) with
  | [] => existsb p a = false
  | (_, i) :: _ => existsb p a = true /\ i = findIndex_at p k a
  end.
Proof.
  revert k. induction a as [|x r IH]; intros k; [reflexivity|].
  cbn [with_index_at filter existsb findIndex_at].
  destruct (p x) eqn:Px.
  - split; reflexivity.
  - cbn [orb]. apply IH.
Qed.

(** [slice] between two indices that are natural numbers. *)
Lemma slice_nat (a b : nat) (l : list A) :
  slice (Z.of_nat a) (Z.of_nat b) l = firstn (b - a) (skipn a l).
Proof.
  unfold slice, rel_index.
  destruct (Z.ltb_spec (Z.of_nat a) 0); [lia|].
  destruct (Z.ltb_spec (Z.of_nat b) 0); [lia|].
  destruct (Nat.le_gt_cases a (length l)) as [La|La].
  - rewrite (Z.min_l (Z.of_nat a)) by lia. rewrite Nat2Z.id.
    destruct (Nat.le_gt_cases b (length l)) as [Lb|Lb].
    + rewrite Z.min_l by lia. f_equal. lia.
    + rewrite Z.min_r by lia.
      rewrite !firstn_all2; [reflexivity | |]; rewrite length_skipn; lia.
  - rewrite (Z.min_r (Z.of_nat a)) by lia. rewrite Nat2Z.id.
    rewrite (skipn_all2 l) by lia. rewrite (skipn_all2 l) by lia.
    rewrite !firstn_nil. reflexivity.
Qed.

End Lines.

(** ** The functions on small inputs *)

Example split_lines_trailing_newline :
  split_lines ("a" ++ nl ++ "b" ++ nl) = ["a"; "b"; ""].
Proof. reflexivity. Qed.

Example join_split_lines :
  join nl (split_lines ("a" ++ nl ++ nl ++ "b")) = "a" ++ nl ++ nl ++ "b".
Proof. reflexivity. Qed.

Example slice_counts_from_the_end : slice (-2) 10 [1; 2; 3]%nat = [2; 3]%nat.
Proof. reflexivity. Qed.

Example slice_empty_when_end_before_start : slice 2 1 [1; 2; 3]%nat = [].
Proof. reflexivity. Qed.

Example trim_both_ends : trim ("  a b " ++ nl) = "a b".
Proof. reflexivity. Qed.

Example toLowerCase_file_name :
  toLowerCase "4_Build Incremental.TXT" = "4_build incremental.txt".
Proof. reflexivity. Qed.

Example pattern_ignores_case :
  matches errorPattern "Error: no space" = true /\
  containsErrors "Error: no space" = false /\
  containsErrors "Execution failed for task" = true /\
  matches errorPattern "Execution failed for task" = false.
Proof. repeat split. Qed.

Example findIndex_not_found : findIndex (Nat.eqb 7) [1; 2; 3]%nat = (-1)%Z.
Proof. reflexivity. Qed.

Example show_Z_status : show_Z 404 = "404" /\ show_Z (-1) = "-1".
Proof. split; reflexivity. Qed.

Example replace_colon_dot_timestamp :
  replace_colon_dot "2024-05-06T07:08:09.123Z" = "2024-05-06T07-08-09-123Z".
Proof. reflexivity. Qed.

Example entries_of_a_directory :
  entries [("/d", Directory); ("/d/a.txt", File "x"); ("/d/sub", Directory);
           ("/d/sub/b.txt", File "y"); ("/e/c.txt", File "z")] "/d"
  = ["a.txt"; "sub"].
Proof. reflexivity. Qed.

(** [path.join] normalises what it joins: a separator at the end of the
    directory is not doubled, [.] and [..] are resolved, an empty part is
    left out. *)
Example join_normalises :
  Path.join ["/tmp/x/"; "Bazel Build and Test"] = "/tmp/x/Bazel Build and Test" /\
  Path.join ["/tmp/x"; "Bazel Build and Test"] = "/tmp/x/Bazel Build and Test" /\
  Path.join ["/tmp/a"; "../b"] = "/tmp/b" /\
  Path.join ["a//b/."; "c/"] = "a/b/c/" /\
  Path.join ["a"; ".."] = "." /\
  Path.join ["/"; ".."] = "/" /\
  Path.join [".."; "../x"] = "../../x" /\
  Path.join ["/tmp/x"; ""] = "/tmp/x" /\
  Path.join [""; ""] = ".".
Proof. repeat split. Qed.

(** A separator at the end of the last part stays: the folder "logs/" is
    joined as it is written, and names the folder "logs" a second way. *)
Example join_keeps_last_separator :
  Path.join ["/tmp/x"; "logs/"] = path_join "/tmp/x" "logs/" /\
  Path.ends_with_separator (Path.join ["/tmp/x"; "logs/"]) = true /\
  Path.ends_with_separator (Path.join ["/tmp/x"; "logs"]) = false.
Proof. repeat split. Qed.

(** Two parts that are not empty are written with a separator between
    them, and the whole is normalised. *)
Lemma join_two (a b : string) :
  a <> "" -> b <> "" -> Path.join [a; b] = Path.normalize (path_join a b).
Proof.
  intros Ha Hb. unfold Path.join. cbn [filter].
  destruct (String.eqb_spec a "") as [|_]; [contradiction|].
  destruct (String.eqb_spec b "") as [|_]; [contradiction|].
  reflexivity.
Qed.

(** ** The error-detail extractor *)

Lemma errorPattern_one_line :
  forallb (fun p => negb (has_newline (toLowerCase p))) errorPattern = true.
Proof. reflexivity. Qed.

(** C3. When the pattern [/ERROR:|FAILED:|Exception:|error:|failed:|BUILD FAILED/gi]
    matches somewhere in the text, [extractErrorDetails] returns the first
    line that matches and the lines after it, ten lines in all or as many as
    are left; when the pattern matches nowhere, it returns the first 500
    characters, followed by [...] exactly when the text has more than 500. *)
Theorem extractErrorDetails_excerpt (content : string) :
  let lines := split_lines content in
  (matches errorPattern content = true ->
   exists i : nat,
     (i < length lines)%nat /\
     matches errorPattern (nth i lines "") = true /\
     (forall j, (j < i)%nat -> matches errorPattern (nth j lines "") = false) /\
     extractErrorDetails content = join nl (firstn 10 (skipn i lines)) /\
     length (firstn 10 (skipn i lines)) = Nat.min 10 (length lines - i))
  /\
  (matches errorPattern content = false ->
   extractErrorDetails content =
     String.substring 0 500 content ++
     (if (500 <? String.length content)%nat then "..." else "")).
Proof.
  intros lines. split; intros H.
  - pose proof (matches_some_line _ _ errorPattern_one_line H) as Hl.
    destruct (findIndex_first (matches errorPattern) "" _ Hl) as [i [E [L [P F]]]].
    exists i. fold lines in E, L, P, F.
    repeat split; try assumption.
    + unfold extractErrorDetails, errorPatterns.
      cbn [extractErrorDetails_loop]. rewrite H. fold lines. rewrite E.
      destruct (Z.geb_spec (Z.of_nat i) 0); [|lia].
      replace (Z.min (Z.of_nat i + 10) (Z.of_nat (length lines)))
        with (Z.of_nat (Nat.min (i + 10) (length lines))) by lia.
      rewrite slice_nat. f_equal.
      destruct (Nat.le_gt_cases (i + 10) (length lines)) as [Le|Gt].
      * rewrite Nat.min_l by lia. f_equal. lia.
      * rewrite Nat.min_r by lia.
        rewrite !firstn_all2; [reflexivity | |]; rewrite length_skipn; lia.
    + rewrite length_firstn, length_skipn. reflexivity.
  - unfold extractErrorDetails, errorPatterns.
    cbn [extractErrorDetails_loop]. rewrite H.
    unfold substring0, len. change (Z.to_nat 500) with 500%nat.
    f_equal.
    destruct (Z.gtb_spec (Z.of_nat (String.length content)) 500);
      destruct (Nat.ltb_spec 500 (String.length content)); try reflexivity; lia.
Qed.

(** ** The relevant-content extractor *)

(** C4, amended.  A text of at most 2000 characters is returned as it
    is.  For a longer text with a line that contains an error indicator,
    with [i] the index of the first such line, [extractRelevantContent]
    returns the lines of [slice(max(0, i - 5), min(length, i + 15))]: those
    from index [i - 5] up to, and not including, index [i + 15], as far as
    the text has them (five lines before the line, the line, and fourteen
    after it).  For a longer text without such a line it returns the first
    10 lines, an ellipsis between two empty lines, and the last 20 lines. *)
Theorem extractRelevantContent_window (content : string) :
  let lines := split_lines content in
  ((String.length content <= 2000)%nat -> extractRelevantContent content = content)
  /\
  ((2000 < String.length content)%nat ->
   existsb containsErrors lines = true ->
   exists i : nat,
     (i < length lines)%nat /\
     containsErrors (nth i lines "") = true /\
     (forall j, (j < i)%nat -> containsErrors (nth j lines "") = false) /\
     extractRelevantContent content =
       join nl (slice (Z.max 0 (Z.of_nat i - 5))
                      (Z.min (Z.of_nat (length lines)) (Z.of_nat i + 15)) lines) /\
     extractRelevantContent content =
       join nl (firstn (Nat.min (length lines) (i + 15) - (i - 5)) (skipn (i - 5) lines)))
  /\
  ((2000 < String.length content)%nat ->
   existsb containsErrors lines = false ->
   extractRelevantContent content =
     join nl (firstn 10 lines) ++ nl ++ nl ++ "..." ++ nl ++ nl ++
     join nl (skipn (length lines - 20) lines)).
Proof.
  intros lines. unfold extractRelevantContent, len. fold lines.
  split; [|split].
  - intros H. destruct (Z.leb_spec (Z.of_nat (String.length content)) 2000); [reflexivity|lia].
  - intros H E.
    destruct (Z.leb_spec (Z.of_nat (String.length content)) 2000); [lia|].
    destruct (findIndex_first containsErrors "" lines E) as [i [Ei [L [P F]]]].
    exists i. repeat split; try assumption.
    + pose proof (filter_with_index_at containsErrors lines 0%Z) as W.
      unfold with_index.
      destruct (filter _ (with_index_at 0 lines)) as [|[x k] rest].
      * congruence.
      * destruct W as [_ ->]. fold (findIndex containsErrors lines).
        rewrite Ei. reflexivity.
    + pose proof (filter_with_index_at containsErrors lines 0%Z) as W.
      unfold with_index.
      destruct (filter _ (with_index_at 0 lines)) as [|[x k] rest].
      * congruence.
      * destruct W as [_ ->]. fold (findIndex containsErrors lines).
        rewrite Ei.
        replace (Z.max 0 (Z.of_nat i - 5)) with (Z.of_nat (i - 5)) by lia.
        replace (Z.min (Z.of_nat (length lines)) (Z.of_nat i + 15))
          with (Z.of_nat (Nat.min (length lines) (i + 15))) by lia.
        rewrite slice_nat. reflexivity.
  - intros H E.
    destruct (Z.leb_spec (Z.of_nat (String.length content)) 2000); [lia|].
    pose proof (filter_with_index_at containsErrors lines 0%Z) as W.
    unfold with_index.
    destruct (filter _ (with_index_at 0 lines)) as [|[x k] rest].
    + unfold slice_from.
      change 0%Z with (Z.of_nat 0). change 10%Z with (Z.of_nat 10).
      replace (Z.max (Z.of_nat 0) (Z.of_nat (length lines) - 20))
        with (Z.of_nat (length lines - 20)) by lia.
      rewrite !slice_nat. cbn [skipn]. rewrite Nat.sub_0_r.
      rewrite (firstn_all2 (skipn (length lines - 20) lines))
        by (rewrite length_skipn; lia).
      reflexivity.
    + destruct W as [W _]. congruence.
Qed.

(** C4, as it is stated, fails for the end of the window: "to 15 after it"
    counts the line 15 after the first line with an indicator in, and
    [slice] stops before it.  In [numbered_log] that first line has index
    20: the excerpt is the lines 15 to 34, twenty lines, and not the lines
    15 to 35; "step 34" is in it and "step 35" is not. *)
Lemma extractRelevantContent_stops_before_line_15_after :
  let content := MoreScenarios.numbered_log in
  let lines := split_lines content in
  (2000 < String.length content)%nat /\
  length lines = 100%nat /\
  findIndex containsErrors lines = 20%Z /\
  extractRelevantContent content = join nl (firstn 20 (skipn 15 lines)) /\
  extractRelevantContent content <> join nl (firstn 21 (skipn 15 lines)) /\
  includes (extractRelevantContent content) "step 34:" = true /\
  includes (extractRelevantContent content) "step 35:" = false.
Proof.
  cbn zeta. split; [apply Nat.ltb_lt; vm_compute; reflexivity|].
  split; [vm_compute; reflexivity|].
  split; [vm_compute; reflexivity|].
  split; [vm_compute; reflexivity|].
  split; [apply String.eqb_neq; vm_compute; reflexivity|].
  split; vm_compute; reflexivity.
Qed.

(** ** Running computations *)

Section Running.

Context {A B : Type}.

Lemma bind_returned (m : M A) (k : A -> M B) (w w' : world) (a : A) :
  m w = (w', Returned a) -> bind m k w = k a w'.
Proof. intros H. unfold bind. rewrite H. reflexivity. Qed.

Lemma bind_raised (m : M A) (k : A -> M B) (w w' : world) (e : thrown) :
  m w = (w', Raised e) -> bind m k w = (w', Raised e).
Proof. intros H. unfold bind. rewrite H. reflexivity. Qed.

Lemma try_returned (m : M A) (h : thrown -> M A) (w w' : world) (a : A) :
  m w = (w', Returned a) -> try_catch m h w = (w', Returned a).
Proof. intros H. unfold try_catch. rewrite H. reflexivity. Qed.

Lemma try_raised (m : M A) (h : thrown -> M A) (w w' : world) (e : thrown) :
  m w = (w', Raised e) -> try_catch m h w = h e w'.
Proof. intros H. unfold try_catch. rewrite H. reflexivity. Qed.

End Running.

Lemma logged_logged (w : world) (a b : list event) :
  logged (logged w a) b = logged w (a ++ b).
Proof. unfold logged. cbn. rewrite app_assoc. reflexivity. Qed.

Lemma existsSync_run (p : string) (w : world) :
  existsSync p w =
    (logged w [ExistsSync p],
     Returned (match stat (on_disk w) p with Some _ => true | None => false end)).
Proof. reflexivity. Qed.

Lemma readdirSync_directory (p : string) (w : world) :
  stat (on_disk w) p = Some Directory ->
  readdirSync p w = (logged w [ReaddirSync p], Returned (entries (on_disk w) p)).
Proof.
  intros H. unfold readdirSync, bind, emit, get_files. cbn. rewrite H. reflexivity.
Qed.

Lemma readFileSync_file (p content : string) (w : world) :
  stat (on_disk w) p = Some (File content) ->
  readFileSync p w = (logged w [ReadFileSync p], Returned content).
Proof.
  intros H. unfold readFileSync, bind, emit, get_files. cbn. rewrite H. reflexivity.
Qed.

(** ** The log analyzer *)

Section Analyzer.

Import LogAnalyzer.

Variable params : AnalyzeBazelLogsParams.
Variable w : world.

Let folder := bazelLogsFolderName params.
Let path := path_join (extractedDir params) folder.
Let listing := entries (on_disk w) path.

(** Up to the listing of the folder. *)
Lemma analyzeBazelLogs_listing :
  stat (on_disk w) path = Some Directory ->
  analyzeBazelLogs params w =
    analyze_summary folder path listing (logged w [ExistsSync path; ReaddirSync path]).
Proof.
  intros H. unfold analyzeBazelLogs. fold folder. fold path.
  rewrite (bind_returned _ _ _ _ _ (existsSync_run path w)). rewrite H. cbn [negb].
  rewrite (bind_returned _ _ _ _ _
             (readdirSync_directory path (logged w [ExistsSync path]) H)).
  rewrite logged_logged. reflexivity.
Qed.

(** C1. The summary file is the first entry of the listing whose name
    contains "get errors during workflow run.txt", letter case ignored, as
    [files.find] picks it; the failed-test file likewise.  When both are
    there and both have content that is not empty after trimming, the result
    names the summary file as [sourceFile].  When the summary file is empty
    after trimming, the analysis goes on with the check of the failed-test
    file. *)
Theorem analyzeBazelLogs_priority (summary content : string) :
  stat (on_disk w) path = Some Directory ->
  find is_summary_file listing = Some summary ->
  stat (on_disk w) (path_join path summary) = Some (File content) ->
  (forall test testContent,
     (len (trim content) > 0)%Z ->
     find is_failed_test_file listing = Some test ->
     stat (on_disk w) (path_join path test) = Some (File testContent) ->
     (len (trim testContent) > 0)%Z ->
     exists w' r,
       analyzeBazelLogs params w = (w', Returned r) /\
       sourceFile r = Some summary /\
       success r = false /\
       errorSummary r = "Workflow run errors found" /\
       errorDetails r = extractErrorDetails content /\
       relevantLogContent r = Some content)
  /\
  (len (trim content) = 0%Z ->
   analyzeBazelLogs params w =
     analyze_failed_tests folder path listing
       (logged w [ExistsSync path; ReaddirSync path;
                  ReadFileSync (path_join path summary)])).
Proof.
  intros Hdir Hfind Hfile.
  rewrite (analyzeBazelLogs_listing Hdir). unfold analyze_summary. rewrite Hfind.
  assert (R : readFileSync (path_join path summary)
                (logged w [ExistsSync path; ReaddirSync path]) =
              (logged w [ExistsSync path; ReaddirSync path;
                         ReadFileSync (path_join path summary)], Returned content)).
  { rewrite (readFileSync_file _ content) by exact Hfile.
    rewrite logged_logged. reflexivity. }
  rewrite (bind_returned _ _ _ _ _ R).
  split.
  - intros test testContent Hc _ _ _.
    destruct (Z.gtb_spec (len (trim content)) 0); [|lia].
    eexists. eexists. split; [reflexivity|]. cbn. repeat split; reflexivity.
  - intros Hc. rewrite Hc. reflexivity.
Qed.

(** C2. Without a summary file and without a failed-test file, and with a
    build-log file (the first entry whose name contains
    "build incremental.txt", letter case ignored): when the content has one of
    the error indicators as a substring, the result is the failure
    "Build errors detected" with the excerpt of [extractRelevantContent] as
    [relevantLogContent]; otherwise it is the success
    "No errors found in build log". *)
Theorem analyzeBazelLogs_build_log (build content : string) :
  stat (on_disk w) path = Some Directory ->
  find is_summary_file listing = None ->
  find is_failed_test_file listing = None ->
  find is_build_file listing = Some build ->
  stat (on_disk w) (path_join path build) = Some (File content) ->
  ((exists indicator,
      In indicator ["ERROR:"; "FAILED:"; "BUILD FAILED"; "Exception:"; "error:";
                    "failed:"; "Execution failed"] /\
      includes content indicator = true) ->
   analyzeBazelLogs params w =
     (logged w [ExistsSync path; ReaddirSync path; ReadFileSync (path_join path build)],
      Returned {| success := false;
                  errorSummary := "Build errors detected";
                  errorDetails := extractErrorDetails content;
                  sourceFile := Some build;
                  relevantLogContent := Some (extractRelevantContent content) |}))
  /\
  ((forall indicator,
      In indicator ["ERROR:"; "FAILED:"; "BUILD FAILED"; "Exception:"; "error:";
                    "failed:"; "Execution failed"] ->
      includes content indicator = false) ->
   analyzeBazelLogs params w =
     (logged w [ExistsSync path; ReaddirSync path; ReadFileSync (path_join path build)],
      Returned {| success := true;
                  errorSummary := "No errors found in build log";
                  errorDetails := "Build appears successful";
                  sourceFile := Some build;
                  relevantLogContent := None |})).
Proof.
  intros Hdir Hs Ht Hb Hfile.
  rewrite (analyzeBazelLogs_listing Hdir).
  unfold analyze_summary. rewrite Hs.
  unfold analyze_failed_tests. rewrite Ht.
  unfold analyze_build_log. rewrite Hb.
  assert (R : readFileSync (path_join path build)
                (logged w [ExistsSync path; ReaddirSync path]) =
              (logged w [ExistsSync path; ReaddirSync path;
                         ReadFileSync (path_join path build)], Returned content)).
  { rewrite (readFileSync_file _ content) by exact Hfile.
    rewrite logged_logged. reflexivity. }
  rewrite (bind_returned _ _ _ _ _ R).
  split.
  - intros [indicator [Hin Hinc]].
    assert (E : containsErrors content = true).
    { unfold containsErrors. apply existsb_exists. exists indicator. split; assumption. }
    rewrite E. reflexivity.
  - intros Hnone.
    assert (E : containsErrors content = false).
    { unfold containsErrors. apply not_true_is_false. intros C.
      apply existsb_exists in C as [indicator [Hin Hinc]].
      rewrite (Hnone indicator Hin) in Hinc. discriminate. }
    rewrite E. reflexivity.
Qed.

Lemma analyzeBazelLogs_missing_folder :
  stat (on_disk w) path = None ->
  analyzeBazelLogs params w =
    (logged w [ExistsSync path], Returned (not_found_result folder path)).
Proof.
  intros H. unfold analyzeBazelLogs. fold folder. fold path.
  rewrite (bind_returned _ _ _ _ _ (existsSync_run path w)). rewrite H.
  reflexivity.
Qed.

(** C5. When the folder of the logs does not exist, [analyzeBazelLogs]
    returns the failure "Bazel logs folder not found", and the test for the
    folder is all it did: no directory was listed, no file read.  When the
    folder exists and none of its entries is one of the three files, it
    returns the failure "No relevant log files found".  The path of the
    folder is [path.join(extractedDir, bazelLogsFolderName)], the path that
    is tested, listed and printed; the statement is for a directory and a
    folder name that [path.join] joins as they are written, with one
    separator between them and none at the end: then the path has one
    spelling, the one under which the disk of the model has the folder. *)
Theorem analyzeBazelLogs_absent_inputs :
  let bazelLogsPath := Path.join [extractedDir params; folder] in
  bazelLogsPath = path_join (extractedDir params) folder ->
  Path.ends_with_separator bazelLogsPath = false ->
  (stat (on_disk w) bazelLogsPath = None ->
   analyzeBazelLogs params w =
     (logged w [ExistsSync bazelLogsPath],
      Returned {| success := false;
                  errorSummary := "Bazel logs folder not found";
                  errorDetails := "Could not find '" ++ folder ++
                                  "' folder in the extracted directory '" ++
                                  bazelLogsPath ++ "'";
                  sourceFile := None;
                  relevantLogContent := None |}))
  /\
  (stat (on_disk w) bazelLogsPath = Some Directory ->
   find is_summary_file (entries (on_disk w) bazelLogsPath) = None ->
   find is_failed_test_file (entries (on_disk w) bazelLogsPath) = None ->
   find is_build_file (entries (on_disk w) bazelLogsPath) = None ->
   analyzeBazelLogs params w =
     (logged w [ExistsSync bazelLogsPath; ReaddirSync bazelLogsPath],
      Returned {| success := false;
                  errorSummary := "No relevant log files found";
                  errorDetails := "Could not find expected log files in '" ++
                                  folder ++ "' folder";
                  sourceFile := None;
                  relevantLogContent := None |})).
Proof.
  intros bazelLogsPath E _. fold path in E. rewrite E. fold listing. split.
  - intros H. rewrite (analyzeBazelLogs_missing_folder H). reflexivity.
  - intros Hdir Hs Ht Hb.
    rewrite (analyzeBazelLogs_listing Hdir).
    unfold analyze_summary. rewrite Hs.
    unfold analyze_failed_tests. rewrite Ht.
    unfold analyze_build_log. rewrite Hb. reflexivity.
Qed.

End Analyzer.

(** ** The disk *)

Lemma stat_put_same (d : disk) (p : string) (n : node) : stat (put d p n) p = Some n.
Proof.
  induction d as [|[q m] r IH]; cbn.
  - rewrite String.eqb_refl. reflexivity.
  - destruct (String.eqb q p) eqn:E; cbn.
    + rewrite String.eqb_refl. reflexivity.
    + rewrite E. exact IH.
Qed.

Lemma stat_put_other (d : disk) (p q : string) (n : node) :
  p <> q -> stat (put d p n) q = stat d q.
Proof.
  intros Hpq. induction d as [|[x m] r IH]; cbn.
  - destruct (String.eqb_spec p q); [contradiction|reflexivity].
  - destruct (String.eqb_spec x p) as [->|Hx]; cbn.
    + destruct (String.eqb_spec p q); [contradiction|reflexivity].
    + rewrite IH. reflexivity.
Qed.

Lemma stat_remove_same (d : disk) (p : string) : stat (remove d p) p = None.
Proof.
  induction d as [|[q m] r IH]; cbn; [reflexivity|].
  destruct (String.eqb q p) eqn:E; cbn; [exact IH|].
  rewrite E. exact IH.
Qed.

Lemma length_append (a b : string) :
  String.length (a ++ b) = (String.length a + String.length b)%nat.
Proof. induction a as [|c a IH]; cbn; [reflexivity|]. rewrite IH. reflexivity. Qed.

Lemma path_join_longer (a b : string) : path_join a b <> a.
Proof.
  intros E. apply (f_equal String.length) in E.
  unfold path_join in E. rewrite !length_append in E. cbn in E. lia.
Qed.

Lemma path_join_inj (a b c : string) : path_join a b = path_join a c -> b = c.
Proof.
  unfold path_join. induction a as [|x a IH]; cbn; intros E.
  - injection E as E. exact E.
  - injection E as E. exact (IH E).
Qed.

(** [unzip] leaves a file where a file is. *)
Lemma extract_entry_keeps_file (dir : string) (d : disk) (entry : string * node)
      (p : string) :
  holds_file d p -> holds_file (extract_entry dir d entry) p.
Proof.
  intros [c Hc]. destruct entry as [name n]. unfold extract_entry.
  destruct (String.eqb_spec (path_join dir name) p) as [->|Hne].
  - rewrite Hc. destruct n as [c'|].
    + exists c'. apply stat_put_same.
    + exists c. exact Hc.
  - assert (K : stat (put d (path_join dir name) n) p = Some (File c))
      by (rewrite stat_put_other by exact Hne; exact Hc).
    destruct (stat d (path_join dir name)) as [[c'|]|]; destruct n;
      exists c; assumption.
Qed.

Lemma extract_all_keeps_file (dir : string) (entries : list (string * node))
      (d : disk) (p : string) :
  holds_file d p -> holds_file (fold_left (extract_entry dir) entries d) p.
Proof.
  revert d. induction entries as [|e r IH]; intros d H; [exact H|].
  cbn [fold_left]. apply IH. apply extract_entry_keeps_file. exact H.
Qed.

(** ** Rules for [post] *)

Section Post.

Context {A B : Type}.

Lemma post_run (m : M A) (w w' : world) (o : outcome A) (Q : world -> outcome A -> Prop) :
  post m w Q -> m w = (w', o) -> Q w' o.
Proof. unfold post. intros H E. rewrite E in H. exact H. Qed.

Lemma post_weaken (m : M A) (w : world) (Q Q' : world -> outcome A -> Prop) :
  post m w Q -> (forall w' o, Q w' o -> Q' w' o) -> post m w Q'.
Proof. unfold post. destruct (m w). auto. Qed.

Lemma post_bind (m : M A) (k : A -> M B) (w : world) (Q : world -> outcome B -> Prop) :
  post m w (fun w1 o =>
              match o with
              | Returned a => post (k a) w1 Q
              | Raised e => Q w1 (Raised e)
              end) ->
  post (bind m k) w Q.
Proof. unfold post, bind. destruct (m w) as [w1 [a|e]]; auto. Qed.

Lemma post_try (m : M A) (h : thrown -> M A) (w : world)
      (Q : world -> outcome A -> Prop) :
  post m w (fun w1 o =>
              match o with
              | Returned a => Q w1 (Returned a)
              | Raised e => post (h e) w1 Q
              end) ->
  post (try_catch m h) w Q.
Proof. unfold post, try_catch. destruct (m w) as [w1 [a|e]]; auto. Qed.

End Post.

(** ** The archive fetcher *)

Section Fetcher.

Import Downloader.

Variable X : externals.

(** The [try] block: when it returns, the archive is gone and the result
    says [success]; when it throws, no directory has taken the place of the
    archive. *)
Lemma download_steps_post (url outputDir temp : string) (w : world) :
  stat (on_disk w) temp <> Some Directory ->
  post (download_steps X url outputDir temp) w
       (fun w' o =>
          match o with
          | Returned r =>
              stat (on_disk w') temp = None /\
              success r = true /\ extractedDirectory r = outputDir
          | Raised _ => stat (on_disk w') temp <> Some Directory
          end).
Proof.
  intros H. unfold download_steps, post, fetch, bind, lift, emit. cbn [on_disk log].
  destruct (http X url []) as [response|e]; [|exact H].
  destruct (ok response); cbn [negb]; unfold throw, ret; [|exact H].
  unfold createWriteStream, bind, emit, ret. cbn [on_disk log].
  destruct (body response) as [body|]; [|exact H].
  unfold pipeline, bind, emit, get_files, set_files, throw. cbn [on_disk log ws_path].
  assert (NF : forall d, holds_file d temp -> stat d temp <> Some Directory)
    by (intros d [c Hc]; congruence).
  destruct (stat (on_disk w) temp) as [[c|]|] eqn:S0; try congruence.
  all: destruct (pipe_failure X) as [[written e]|];
    [apply NF; eexists; apply stat_put_same|].
  all: unfold spawnSync_unzip, bind, emit, get_files, set_files, ret; cbn [on_disk log].
  all: set (d1 := put (on_disk w) temp (File body)).
  all: assert (F1 : holds_file d1 temp) by (eexists; apply stat_put_same).
  all: destruct (sp_error (unzip_result X)) as [m|] eqn:Se; rewrite ?Se;
    [apply NF; exact F1|].
  all: pose proof (extract_all_keeps_file outputDir (unzip_writes X) d1 temp F1) as F2.
  all: destruct (sp_status (unzip_result X)) as [[|?|?]|]; try (apply NF; exact F2).
  all: unfold unlinkSync, bind, emit, get_files, set_files, throw; cbn [on_disk log].
  all: destruct F2 as [c2 ->].
  all: unfold readdirSync, bind, emit, get_files, throw, ret; cbn [on_disk log].
  all: destruct (stat (remove _ temp) outputDir) as [[?|]|]; cbn;
    rewrite stat_remove_same; first [discriminate | repeat split; reflexivity].
Qed.

(** The [catch] block throws, and leaves nothing at the place of the archive
    unless a directory is there. *)
Lemma download_cleanup_post (temp : string) (error : thrown) (w : world) :
  stat (on_disk w) temp <> Some Directory ->
  post (download_cleanup temp error) w
       (fun w' o =>
          stat (on_disk w') temp = None /\ exists e, o = Raised e).
Proof.
  intros H. unfold download_cleanup, post, existsSync, bind, emit, get_files, ret.
  cbn [on_disk log].
  destruct (stat (on_disk w) temp) as [[c|]|] eqn:S0; try congruence.
  - unfold unlinkSync, bind, emit, get_files, set_files, throw. cbn [on_disk log].
    rewrite S0. cbn. rewrite stat_remove_same. eauto.
  - unfold throw. cbn. rewrite S0. eauto.
Qed.

(** What comes before the [try]: the output directory is made when it is not
    there, and the place of the archive is left as it was. *)
Lemma download_prepare_post (outputDir temp : string) (w : world) :
  temp <> outputDir ->
  post (bind (existsSync outputDir)
             (fun present => if negb present then mkdirSync outputDir else ret tt)) w
       (fun w' o => o = Returned tt /\ stat (on_disk w') temp = stat (on_disk w) temp).
Proof.
  intros Hne. unfold post, existsSync, bind, emit, get_files, ret. cbn [on_disk log].
  destruct (stat (on_disk w) outputDir) as [n|] eqn:S0; cbn [negb].
  - split; reflexivity.
  - unfold mkdirSync, bind, emit, get_files, set_files. cbn [on_disk log].
    rewrite S0. cbn. split; [reflexivity|].
    apply stat_put_other. congruence.
Qed.

End Fetcher.

(** ** Case analysis of a whole computation *)

Ltac unfold_ops :=
  unfold existsSync, mkdirSync, readdirSync, readFileSync, unlinkSync,
    createWriteStream, fetch, pipeline, spawnSync_unzip,
    bind, ret, throw, lift, emit, get_files, set_files, try_catch in *;
  cbn [on_disk log ws_path] in *.

Ltac split_match :=
  match goal with
  | |- context [match ?x with _ => _ end] =>
      lazymatch x with
      | context [match _ with _ => _ end] => fail
      | _ => destruct x eqn:?
      end
  end.

Ltac all_cases := repeat (split_match; cbn [negb on_disk log ws_path]).

Section FetcherResults.

Import Downloader.

Variable X : externals.

Lemma downloadAndUnzip_returned (params : DownloadAndUnzipParams) (w : world) :
  post (downloadAndUnzip X params) w
       (fun _ o =>
          match o with
          | Returned r => success r = true /\ extractedDirectory r = outputDir params
          | Raised _ => True
          end).
Proof.
  unfold downloadAndUnzip, download_steps, download_cleanup, post. unfold_ops.
  all_cases; auto.
Qed.

(** Unless a directory is in the place of the temporary archive, nothing is
    there after the call. *)
Lemma downloadAndUnzip_leaves_no_archive
    (params : DownloadAndUnzipParams) (w : world) :
  let tempFilePath := path_join (outputDir params) (tempFilename_of (filename params)) in
  stat (on_disk w) tempFilePath <> Some Directory ->
  post (downloadAndUnzip X params) w
       (fun w' _ => stat (on_disk w') tempFilePath = None).
Proof.
  intros temp Hfile.
  unfold downloadAndUnzip. fold temp.
  apply post_bind.
  pose proof (download_prepare_post (outputDir params) temp w
                (path_join_longer _ _)) as P.
  unfold bind in P. unfold post in P |- *.
  destruct (existsSync (outputDir params) w) as [w0 [present|e0]];
    [|destruct P; discriminate].
  change (post (bind (if negb present then mkdirSync (outputDir params) else ret tt)
                     (fun _ => try_catch (download_steps X (url params)
                                            (outputDir params) temp)
                                         (download_cleanup temp))) w0
               (fun w' _ => stat (on_disk w') temp = None)).
  apply post_bind. unfold post in P |- *.
  destruct ((if negb present then mkdirSync (outputDir params) else ret tt) w0)
    as [w1 [[]|e1]]; destruct P as [P1 P2]; [|discriminate].
  fold (post (try_catch (download_steps X (url params) (outputDir params) temp)
                        (download_cleanup temp)) w1
             (fun w' _ => stat (on_disk w') temp = None)).
  apply post_try.
  assert (H1 : stat (on_disk w1) temp <> Some Directory) by (rewrite P2; exact Hfile).
  eapply post_weaken; [apply (download_steps_post X _ _ _ _ H1)|].
  intros w2 [r|e] Q.
  - tauto.
  - eapply post_weaken; [apply (download_cleanup_post _ _ _ Q)|].
    intros w3 o3 [Q3 _]. exact Q3.
Qed.


End FetcherResults.

(** ** The orchestrator *)

Section Orchestrator.

Import WorkflowLogs.

Variable X : externals.
Variable params : AnalyzeWorkflowLogsParams.
Variable w : world.

Let analysisDir := analysisDir_of X (outputDir params).
Let fetchParams :=
  {| Downloader.url := url params;
     Downloader.outputDir := analysisDir;
     Downloader.filename := None |}.

Lemma analyzeBazelLogs_summaries (p : LogAnalyzer.AnalyzeBazelLogsParams) (w0 : world) :
  post (LogAnalyzer.analyzeBazelLogs p) w0
       (fun _ o =>
          match o with
          | Returned r =>
              In (LogAnalyzer.errorSummary r)
                 ["Bazel logs folder not found"; "Workflow run errors found";
                  "Test failures detected"; "Build errors detected";
                  "No errors found in build log"; "No relevant log files found"]
          | Raised _ => True
          end).
Proof.
  unfold LogAnalyzer.analyzeBazelLogs, LogAnalyzer.analyze_summary,
    LogAnalyzer.analyze_failed_tests, LogAnalyzer.analyze_build_log, post.
  unfold_ops. all_cases; cbn; auto 10.
Qed.

(** C7. [analyzeWorkflowLogs] always returns.  An error of [mkdirSync], of
    [downloadAndUnzip] or of [analyzeBazelLogs] becomes the failure
    "Error analyzing workflow logs" with the message of the error as
    [errorDetails].  When [downloadAndUnzip] throws, the world in which the
    orchestrator ends is the one the fetcher left, log of operations
    included: the analyzer did not run. *)
Theorem analyzeWorkflowLogs_boundary :
  (exists w' r, analyzeWorkflowLogs X params w = (w', Returned r))
  /\
  (forall w1 e,
     mkdirSync analysisDir w = (w1, Raised e) ->
     analyzeWorkflowLogs X params w = (w1,
        Returned {| LogAnalyzer.success := false;
                    LogAnalyzer.errorSummary := "Error analyzing workflow logs";
                    LogAnalyzer.errorDetails := error_text e;
                    LogAnalyzer.sourceFile := None;
                    LogAnalyzer.relevantLogContent := None |}))
  /\
  (forall w1 w2 e,
     mkdirSync analysisDir w = (w1, Returned tt) ->
     Downloader.downloadAndUnzip X fetchParams w1 = (w2, Raised e) ->
     analyzeWorkflowLogs X params w = (w2,
        Returned {| LogAnalyzer.success := false;
                    LogAnalyzer.errorSummary := "Error analyzing workflow logs";
                    LogAnalyzer.errorDetails := error_text e;
                    LogAnalyzer.sourceFile := None;
                    LogAnalyzer.relevantLogContent := None |}))
  /\
  (forall w1 w2 downloadResult w3 e,
     mkdirSync analysisDir w = (w1, Returned tt) ->
     Downloader.downloadAndUnzip X fetchParams w1 = (w2, Returned downloadResult) ->
     LogAnalyzer.analyzeBazelLogs
       {| LogAnalyzer.extractedDir := Downloader.extractedDirectory downloadResult;
          LogAnalyzer.bazelLogsFolderName := bazelLogsFolderName params |} w2
       = (w3, Raised e) ->
     analyzeWorkflowLogs X params w = (w3,
        Returned {| LogAnalyzer.success := false;
                    LogAnalyzer.errorSummary := "Error analyzing workflow logs";
                    LogAnalyzer.errorDetails := error_text e;
                    LogAnalyzer.sourceFile := None;
                    LogAnalyzer.relevantLogContent := None |})).
Proof.
  unfold analyzeWorkflowLogs.
  split; [|split; [|split]].
  - unfold try_catch.
    destruct (workflow_steps X params w) as [w' [r|e]]; [eauto | unfold ret; eauto].
  - intros w1 e Hm.
    assert (S : workflow_steps X params w = (w1, Raised e)).
    { unfold workflow_steps. fold analysisDir. apply bind_raised. exact Hm. }
    rewrite (try_raised _ _ _ _ _ S). reflexivity.
  - intros w1 w2 e Hm Hd.
    assert (S : workflow_steps X params w = (w2, Raised e)).
    { unfold workflow_steps. fold analysisDir. fold fetchParams.
      rewrite (bind_returned _ _ _ _ _ Hm). apply bind_raised. exact Hd. }
    rewrite (try_raised _ _ _ _ _ S). reflexivity.
  - intros w1 w2 d w3 e Hm Hd Ha.
    assert (S : workflow_steps X params w = (w3, Raised e)).
    { unfold workflow_steps. fold analysisDir. fold fetchParams.
      rewrite (bind_returned _ _ _ _ _ Hm). rewrite (bind_returned _ _ _ _ _ Hd).
      pose proof (post_run _ _ _ _ _ (downloadAndUnzip_returned X fetchParams w1) Hd)
        as [Hs _].
      rewrite Hs. cbn [negb]. apply bind_raised. exact Ha. }
    rewrite (try_raised _ _ _ _ _ S). reflexivity.
Qed.

(** C9. A call of [downloadAndUnzip] that returns, returns [success: true];
    failure is a thrown error.  So the branch of [analyzeWorkflowLogs] for a
    download result without [success] is never taken: no call ends with
    the summary "Failed to download or extract logs", which only that branch
    writes. *)
Theorem downloadAndUnzip_fails_by_throwing :
  (forall (p : Downloader.DownloadAndUnzipParams) (w0 w' : world) r,
     Downloader.downloadAndUnzip X p w0 = (w', Returned r) ->
     Downloader.success r = true)
  /\
  (forall w' o,
     analyzeWorkflowLogs X params w = (w', o) ->
     exists r, o = Returned r /\
               LogAnalyzer.errorSummary r <> "Failed to download or extract logs").
Proof.
  split.
  - intros p w0 w' r Hd.
    exact (proj1 (post_run _ _ _ _ _ (downloadAndUnzip_returned X p w0) Hd)).
  - intros w' o. unfold analyzeWorkflowLogs, try_catch.
    destruct (workflow_steps X params w) as [w1 [r|e]] eqn:E; intros H; inversion H; subst.
    + exists r. split; [reflexivity|].
      unfold workflow_steps, bind in E. fold analysisDir in E. fold fetchParams in E.
      destruct (mkdirSync analysisDir w) as [wa [[]|ea]]; [|discriminate].
      destruct (Downloader.downloadAndUnzip X fetchParams wa) as [wb [d|eb]] eqn:Hd;
        [|discriminate].
      pose proof (post_run _ _ _ _ _ (downloadAndUnzip_returned X fetchParams wa) Hd)
        as [Hs _].
      rewrite Hs in E. cbn [negb] in E.
      destruct (LogAnalyzer.analyzeBazelLogs _ wb) as [wc [ra|ec]] eqn:Ha;
        [|discriminate].
      unfold ret in E. inversion E; subst.
      pose proof (post_run _ _ _ _ _ (analyzeBazelLogs_summaries _ wb) Ha) as Hin.
      cbn beta iota in Hin. intros C. rewrite C in Hin.
      cbn in Hin. intuition discriminate.
    + eexists. split; [reflexivity|]. cbn. discriminate.
Qed.

(** C10. The default folder names of the two schemas differ in letter case
    only, and so do the paths of the two folders in any directory.  A call
    of [analyzeWorkflowLogs] with the default name, for an archive that
    unpacks to a folder "Bazel Build and Test" and to no folder
    "Bazel build and test" (the disk tells the two names apart), ends with
    the failure "Bazel logs folder not found"; the analyzer with its own
    default name finds the folder there. *)
Theorem default_folder_names_differ_in_case :
  AnalyzeWorkflowLogsSchema_default_folder = "Bazel build and test" /\
  LogAnalyzer.AnalyzeBazelLogsSchema_default_folder = "Bazel Build and Test" /\
  AnalyzeWorkflowLogsSchema_default_folder <>
    LogAnalyzer.AnalyzeBazelLogsSchema_default_folder /\
  toLowerCase AnalyzeWorkflowLogsSchema_default_folder =
    toLowerCase LogAnalyzer.AnalyzeBazelLogsSchema_default_folder /\
  (forall dir,
     path_join dir AnalyzeWorkflowLogsSchema_default_folder <>
     path_join dir LogAnalyzer.AnalyzeBazelLogsSchema_default_folder) /\
  (forall w1 w2 downloadResult,
     bazelLogsFolderName params = AnalyzeWorkflowLogsSchema_default_folder ->
     mkdirSync analysisDir w = (w1, Returned tt) ->
     Downloader.downloadAndUnzip X fetchParams w1 = (w2, Returned downloadResult) ->
     stat (on_disk w2) (path_join analysisDir "Bazel Build and Test") = Some Directory ->
     stat (on_disk w2) (path_join analysisDir "Bazel build and test") = None ->
     (exists w3 r,
        analyzeWorkflowLogs X params w = (w3, Returned r) /\
        LogAnalyzer.success r = false /\
        LogAnalyzer.errorSummary r = "Bazel logs folder not found") /\
     (exists w3 o,
        LogAnalyzer.analyzeBazelLogs
          (LogAnalyzer.AnalyzeBazelLogsSchema_parse analysisDir None) w2 = (w3, o) /\
        forall r, o = Returned r ->
                  LogAnalyzer.errorSummary r <> "Bazel logs folder not found")).
Proof.
  split; [reflexivity|]. split; [reflexivity|].
  split; [discriminate|]. split; [reflexivity|].
  split; [intros dir E; apply path_join_inj in E; discriminate E|].
  intros w1 w2 d Hname Hm Hd Hupper Hlower.
  pose proof (post_run _ _ _ _ _ (downloadAndUnzip_returned X fetchParams w1) Hd)
    as [Hs Hdir].
  cbn [Downloader.outputDir fetchParams] in Hdir.
  split.
  - pose proof (analyzeBazelLogs_missing_folder
                  {| LogAnalyzer.extractedDir := analysisDir;
                     LogAnalyzer.bazelLogsFolderName :=
                       AnalyzeWorkflowLogsSchema_default_folder |} w2) as Habs.
    cbn [LogAnalyzer.extractedDir LogAnalyzer.bazelLogsFolderName] in Habs.
    specialize (Habs Hlower).
    eexists. eexists. split.
    + unfold analyzeWorkflowLogs. apply try_returned.
      unfold workflow_steps. fold analysisDir. fold fetchParams.
      rewrite (bind_returned _ _ _ _ _ Hm). rewrite (bind_returned _ _ _ _ _ Hd).
      rewrite Hs, Hdir, Hname. cbn [negb].
      rewrite (bind_returned _ _ _ _ _ Habs). reflexivity.
    + split; reflexivity.
  - destruct (LogAnalyzer.analyzeBazelLogs
                (LogAnalyzer.AnalyzeBazelLogsSchema_parse analysisDir None) w2)
      as [w3 o] eqn:Ha.
    exists w3, o. split; [reflexivity|].
    intros r ->.
    unfold LogAnalyzer.AnalyzeBazelLogsSchema_parse in Ha.
    rewrite analyzeBazelLogs_listing in Ha by exact Hupper.
    cbn [LogAnalyzer.extractedDir LogAnalyzer.bazelLogsFolderName] in Ha.
    revert Ha.
    unfold LogAnalyzer.analyze_summary, LogAnalyzer.analyze_failed_tests,
      LogAnalyzer.analyze_build_log.
    unfold_ops. all_cases; intros Ha; inversion Ha; subst; cbn; discriminate.
Qed.

End Orchestrator.

(** ** The workflow-run wrappers *)

Lemma or_else_twice (a b : option string) : or_else (or_else a b) b = or_else a b.
Proof.
  unfold or_else. destruct (truthy a) eqn:Ta.
  - rewrite Ta. reflexivity.
  - destruct (truthy b); reflexivity.
Qed.

Section WrapperDefaults.

Import Workflows.

Variable X : externals.
Variables json WorkflowRuns WorkflowRun : Type.
Variable buildUrl : string -> list (string * option string) -> string.
Variable githubRequest : string -> list (string * string) -> M json.
Variable parseRuns : json -> outcome WorkflowRuns.
Variable parseRun : json -> outcome WorkflowRun.

Let list_runs := listWorkflowRuns X json WorkflowRuns buildUrl githubRequest parseRuns.
Let get_run := getWorkflowRun X json WorkflowRun githubRequest parseRun.
Let list_runs_by_id :=
  listWorkflowRunsByWorkflowId X json WorkflowRuns buildUrl githubRequest parseRuns.
Let get_logs := getWorkflowRunLogs X.
Let list_ci_runs := listCiWorkflowRuns json WorkflowRuns buildUrl githubRequest parseRuns.
Let get_ci_run := getCiWorkflowRun json WorkflowRun githubRequest parseRun.
Let list_ci_runs_for_branch :=
  listCiWorkflowRunsForBranch json WorkflowRuns buildUrl githubRequest parseRuns.
Let get_ci_logs := getCiWorkflowRunLogs X.

Lemma getOwnerAndRepo_from_env (owner repo : option string) :
  getOwnerAndRepo X (resolved X owner "GITHUB_OWNER") (resolved X repo "GITHUB_REPO") =
  getOwnerAndRepo X owner repo.
Proof. unfold getOwnerAndRepo, resolved. rewrite !or_else_twice. reflexivity. Qed.

Lemma getOwnerAndRepo_no_owner (owner repo : option string) (w : world) :
  truthy (resolved X owner "GITHUB_OWNER") = false ->
  getOwnerAndRepo X owner repo w = (w, Raised (ErrorObject owner_required)).
Proof.
  unfold getOwnerAndRepo, resolved. intros H.
  destruct (or_else owner _) as [[|c s]|]; [reflexivity | discriminate | reflexivity].
Qed.

Lemma getOwnerAndRepo_no_repo (owner repo : option string) (w : world) :
  truthy (resolved X owner "GITHUB_OWNER") = true ->
  truthy (resolved X repo "GITHUB_REPO") = false ->
  getOwnerAndRepo X owner repo w = (w, Raised (ErrorObject repo_required)).
Proof.
  unfold getOwnerAndRepo, resolved. intros Ho Hr.
  destruct (or_else owner _) as [[|c s]|]; try discriminate.
  destruct (or_else repo _) as [[|c' s']|]; [reflexivity | discriminate | reflexivity].
Qed.

Lemma getOwnerAndRepo_resolved (owner repo : option string) (w : world) :
  truthy (resolved X owner "GITHUB_OWNER") = true ->
  truthy (resolved X repo "GITHUB_REPO") = true ->
  exists o r,
    resolved X owner "GITHUB_OWNER" = Some o /\
    resolved X repo "GITHUB_REPO" = Some r /\
    getOwnerAndRepo X owner repo w = (w, Returned (o, r)).
Proof.
  unfold getOwnerAndRepo, resolved. intros Ho Hr.
  destruct (or_else owner _) as [[|c s]|]; try discriminate.
  destruct (or_else repo _) as [[|c' s']|]; try discriminate.
  eexists. eexists. repeat split.
Qed.

(** C8, amended.  For the four operations of workflows.ts a
    parameter [owner], [repo] or [workflow_id] that is absent (or empty) is
    taken from [GITHUB_OWNER], [GITHUB_REPO] or [GITHUB_WORKFLOW_ID]: the call
    is the call with the value of the variable as parameter.  When parameter
    and variable are both absent (or empty), the operation throws the error
    that names the value and the two ways to supply it, and the world is as
    it was: no request was made.  The four operations of ci_workflows.ts take
    the same parameter objects and do the same whatever [owner], [repo] and
    [workflow_id] are; the request of each is for the repository
    askscio/scio, that of the listing for a branch for its workflow
    bazel_pr_runner.yml (the number of a run is printed digit by digit when
    it is a safe integer). *)
Theorem workflow_wrappers_environment_defaults :
  (* absent parameters are taken from the environment *)
  ((forall options w, list_runs options w = list_runs (lr_from_env X options) w) /\
   (forall options w, get_run options w = get_run (gr_from_env X options) w) /\
   (forall options w, list_runs_by_id options w = list_runs_by_id (lw_from_env X options) w) /\
   (forall options w, get_logs options w = get_logs (gr_from_env X options) w))
  /\
  (* neither parameter nor variable for the owner *)
  ((forall options w,
      truthy (resolved X (lr_owner options) "GITHUB_OWNER") = false ->
      list_runs options w = (w, Raised (ErrorObject owner_required))) /\
   (forall options w,
      truthy (resolved X (gr_owner options) "GITHUB_OWNER") = false ->
      get_run options w = (w, Raised (ErrorObject owner_required)) /\
      get_logs options w = (w, Raised (ErrorObject owner_required))) /\
   (forall options w,
      truthy (resolved X (lw_owner options) "GITHUB_OWNER") = false ->
      list_runs_by_id options w = (w, Raised (ErrorObject owner_required))))
  /\
  (* an owner, and neither parameter nor variable for the repository *)
  ((forall options w,
      truthy (resolved X (lr_owner options) "GITHUB_OWNER") = true ->
      truthy (resolved X (lr_repo options) "GITHUB_REPO") = false ->
      list_runs options w = (w, Raised (ErrorObject repo_required))) /\
   (forall options w,
      truthy (resolved X (gr_owner options) "GITHUB_OWNER") = true ->
      truthy (resolved X (gr_repo options) "GITHUB_REPO") = false ->
      get_run options w = (w, Raised (ErrorObject repo_required)) /\
      get_logs options w = (w, Raised (ErrorObject repo_required))) /\
   (forall options w,
      truthy (resolved X (lw_owner options) "GITHUB_OWNER") = true ->
      truthy (resolved X (lw_repo options) "GITHUB_REPO") = false ->
      list_runs_by_id options w = (w, Raised (ErrorObject repo_required))))
  /\
  (* owner and repository, and neither parameter nor variable for the workflow *)
  (forall options w,
     truthy (resolved X (lw_owner options) "GITHUB_OWNER") = true ->
     truthy (resolved X (lw_repo options) "GITHUB_REPO") = true ->
     truthy (resolved X (lw_workflow_id options) "GITHUB_WORKFLOW_ID") = false ->
     list_runs_by_id options w = (w, Raised (ErrorObject workflow_id_required)))
  /\
  (* ci_workflows.ts *)
  ((forall owner repo options,
      list_ci_runs (lr_set_repository owner repo options) = list_ci_runs options) /\
   (forall owner repo options,
      get_ci_run (gr_set_repository owner repo options) = get_ci_run options /\
      get_ci_logs (gr_set_repository owner repo options) = get_ci_logs options) /\
   (forall owner repo workflow_id options,
      list_ci_runs_for_branch (lw_set_repository owner repo workflow_id options) =
      list_ci_runs_for_branch options) /\
   (forall options, exists query,
      list_ci_runs options =
        bind (githubRequest
                (buildUrl "https://api.github.com/repos/askscio/scio/actions/runs" query)
                api_headers)
             (fun response => lift (parseRuns response))) /\
   (forall options, exists query,
      list_ci_runs_for_branch options =
        bind (githubRequest
                (buildUrl
                   "https://api.github.com/repos/askscio/scio/actions/workflows/bazel_pr_runner.yml/runs"
                   query)
                api_headers)
             (fun response => lift (parseRuns response))) /\
   (forall options,
      isSafeInteger (gr_run_id options) ->
      get_ci_run options =
        bind (githubRequest
                ("https://api.github.com/repos/askscio/scio/actions/runs/" ++
                 show_Z (gr_run_id options)) api_headers)
             (fun response => lift (parseRun response)) /\
      get_ci_logs options =
        logs_redirect X ("https://api.github.com/repos/askscio/scio/actions/runs/" ++
                         show_Z (gr_run_id options) ++ "/logs"))).
Proof.
  unfold list_runs, get_run, list_runs_by_id, get_logs,
    list_ci_runs, get_ci_run, list_ci_runs_for_branch, get_ci_logs.
  split; [|split; [|split; [|split]]].
  - split; [|split; [|split]]; intros options w.
    + unfold listWorkflowRuns, lr_from_env. cbn [lr_set_repository lr_owner lr_repo
        lr_branch lr_actor lr_event lr_status lr_per_page lr_page].
      rewrite getOwnerAndRepo_from_env. reflexivity.
    + unfold getWorkflowRun, gr_from_env. cbn [gr_set_repository gr_owner gr_repo gr_run_id].
      rewrite getOwnerAndRepo_from_env. reflexivity.
    + unfold listWorkflowRunsByWorkflowId, lw_from_env.
      cbn [lw_set_repository lw_owner lw_repo lw_workflow_id lw_branch lw_actor
           lw_event lw_status lw_created lw_exclude_pull_requests lw_check_suite_id
           lw_head_sha lw_per_page lw_page].
      rewrite getOwnerAndRepo_from_env. unfold resolved. rewrite or_else_twice.
      reflexivity.
    + unfold getWorkflowRunLogs, gr_from_env.
      cbn [gr_set_repository gr_owner gr_repo gr_run_id].
      rewrite getOwnerAndRepo_from_env. reflexivity.
  - split; [|split].
    + intros options w H. unfold listWorkflowRuns.
      apply bind_raised. apply getOwnerAndRepo_no_owner. exact H.
    + intros options w H. split.
      * unfold getWorkflowRun.
        apply bind_raised. apply getOwnerAndRepo_no_owner. exact H.
      * unfold getWorkflowRunLogs.
        apply bind_raised. apply getOwnerAndRepo_no_owner. exact H.
    + intros options w H. unfold listWorkflowRunsByWorkflowId.
      apply bind_raised. apply getOwnerAndRepo_no_owner. exact H.
  - split; [|split].
    + intros options w Ho Hr. unfold listWorkflowRuns.
      apply bind_raised. apply getOwnerAndRepo_no_repo; assumption.
    + intros options w Ho Hr. split.
      * unfold getWorkflowRun.
        apply bind_raised. apply getOwnerAndRepo_no_repo; assumption.
      * unfold getWorkflowRunLogs.
        apply bind_raised. apply getOwnerAndRepo_no_repo; assumption.
    + intros options w Ho Hr. unfold listWorkflowRunsByWorkflowId.
      apply bind_raised. apply getOwnerAndRepo_no_repo; assumption.
  - intros options w Ho Hr Hw.
    destruct (getOwnerAndRepo_resolved _ _ w Ho Hr) as [o [r [_ [_ E]]]].
    unfold listWorkflowRunsByWorkflowId. rewrite (bind_returned _ _ _ _ _ E).
    unfold resolved in Hw.
    destruct (or_else (lw_workflow_id options) _) as [[|c s]|];
      [reflexivity | discriminate | reflexivity].
  - split; [|split; [|split; [|split; [|split]]]].
    + reflexivity.
    + split; reflexivity.
    + reflexivity.
    + intros options. eexists. unfold listCiWorkflowRuns. reflexivity.
    + intros options. eexists. unfold listCiWorkflowRunsForBranch. reflexivity.
    + intros options _. split; reflexivity.
Qed.

End WrapperDefaults.

(** C8, as it is stated, fails for [listCiWorkflowRuns]: the operation takes
    the parameter object with [owner] and [repo]; with neither these nor the
    variables it throws nothing, and with the variables set it does not use
    them: either way its request goes to the repository askscio/scio, where
    [listWorkflowRuns] asks for the repository of the variables. *)
Lemma listCiWorkflowRuns_reports_no_missing_owner :
  ~ Workflows.reports_missing_owner
      (fun _ => Workflows.listCiWorkflowRuns string string
                  Scenario.base_only Scenario.send Scenario.accept)
  /\
  Workflows.listCiWorkflowRuns string string
      Scenario.base_only Scenario.send Scenario.accept
      Scenario.no_options Scenario.empty_world =
    ({| on_disk := [];
        log := [Fetch "https://api.github.com/repos/askscio/scio/actions/runs"] |},
     Returned "https://api.github.com/repos/askscio/scio/actions/runs")
  /\
  Workflows.listWorkflowRuns Scenario.configured string string
      Scenario.base_only Scenario.send Scenario.accept
      Scenario.no_options Scenario.empty_world =
    ({| on_disk := [];
        log := [Fetch "https://api.github.com/repos/octocat/hello-world/actions/runs"] |},
     Returned "https://api.github.com/repos/octocat/hello-world/actions/runs").
Proof.
  split; [|split; reflexivity].
  intros law.
  destruct (law Scenario.no_network Scenario.no_options Scenario.empty_world eq_refl)
    as [message E].
  vm_compute in E. discriminate.
Qed.

(** ** The theorems at work on the scenarios *)

Section Witnesses.

Import Scenario.

Lemma extractErrorDetails_excerpt_witness :
  (exists i : nat,
     extractErrorDetails disk_full_log =
       join nl (firstn 10 (skipn i (split_lines disk_full_log))) /\
     length (firstn 10 (skipn i (split_lines disk_full_log))) = 10%nat) /\
  extractErrorDetails "all targets built" = "all targets built".
Proof.
  split.
  - destruct (proj1 (extractErrorDetails_excerpt disk_full_log) eq_refl)
      as [i [L [P [F [E N]]]]].
    destruct i as [|i].
    + exists 0%nat. split; [exact E | reflexivity].
    + specialize (F 0%nat (Nat.lt_0_succ i)). discriminate F.
  - exact (proj2 (extractErrorDetails_excerpt "all targets built") eq_refl).
Defined.

Lemma extractRelevantContent_window_witness :
  extractRelevantContent failing_build_log = failing_build_log /\
  (exists i : nat,
     containsErrors (nth i (split_lines long_failing_log) "") = true /\
     extractRelevantContent long_failing_log =
       join nl (firstn (Nat.min (length (split_lines long_failing_log)) (i + 15) - (i - 5))
                       (skipn (i - 5) (split_lines long_failing_log)))) /\
  extractRelevantContent long_clean_log =
    join nl (firstn 10 (split_lines long_clean_log)) ++ nl ++ nl ++ "..." ++ nl ++ nl ++
    join nl (skipn (length (split_lines long_clean_log) - 20) (split_lines long_clean_log)).
Proof.
  split; [|split].
  - apply (proj1 (extractRelevantContent_window failing_build_log)).
    apply Nat.leb_le. vm_compute. reflexivity.
  - destruct (proj1 (proj2 (extractRelevantContent_window long_failing_log)))
      as [i [L [P [F [E1 E2]]]]].
    + apply Nat.ltb_lt. vm_compute. reflexivity.
    + vm_compute. reflexivity.
    + exists i. split; [exact P | exact E2].
  - apply (proj2 (proj2 (extractRelevantContent_window long_clean_log))).
    + apply Nat.ltb_lt. vm_compute. reflexivity.
    + vm_compute. reflexivity.
Defined.

Lemma analyzeBazelLogs_priority_witness :
  (exists w' r,
     LogAnalyzer.analyzeBazelLogs analyzer_params (on both_files) = (w', Returned r) /\
     LogAnalyzer.sourceFile r = Some "7_Get errors during workflow run.txt") /\
  snd (LogAnalyzer.analyzeBazelLogs analyzer_params (on blank_summary)) =
    Returned {| LogAnalyzer.success := false;
                LogAnalyzer.errorSummary := "Test failures detected";
                LogAnalyzer.errorDetails := "//foo:test FAILED in 3.1s";
                LogAnalyzer.sourceFile := Some "3_View Failed Test Logs.txt";
                LogAnalyzer.relevantLogContent := Some "//foo:test FAILED in 3.1s" |}.
Proof.
  split.
  - destruct (proj1 (analyzeBazelLogs_priority analyzer_params (on both_files)
                       "7_Get errors during workflow run.txt" ("ERROR: disk full" ++ nl)
                       eq_refl eq_refl eq_refl)
                    "3_View Failed Test Logs.txt" "//foo:test FAILED in 3.1s"
                    eq_refl eq_refl eq_refl eq_refl)
      as [w' [r [E [S _]]]].
    exists w', r. split; [exact E | exact S].
  - rewrite (proj2 (analyzeBazelLogs_priority analyzer_params (on blank_summary)
                      "7_Get errors during workflow run.txt" ("  " ++ nl)
                      eq_refl eq_refl eq_refl) eq_refl).
    reflexivity.
Defined.

Lemma analyzeBazelLogs_build_log_witness :
  snd (LogAnalyzer.analyzeBazelLogs analyzer_params (on failing_build)) =
    Returned {| LogAnalyzer.success := false;
                LogAnalyzer.errorSummary := "Build errors detected";
                LogAnalyzer.errorDetails :=
                  "BUILD FAILED: target //foo failed" ++ nl ++ "see above" ++ nl;
                LogAnalyzer.sourceFile := Some "Build Incremental.txt";
                LogAnalyzer.relevantLogContent := Some failing_build_log |} /\
  LogAnalyzer.success
    (match snd (LogAnalyzer.analyzeBazelLogs analyzer_params (on clean_build)) with
     | Returned r => r
     | Raised _ => LogAnalyzer.no_files_result ""
     end) = true.
Proof.
  split.
  - rewrite (proj1 (analyzeBazelLogs_build_log analyzer_params (on failing_build)
                      "Build Incremental.txt" failing_build_log
                      eq_refl eq_refl eq_refl eq_refl eq_refl)).
    + reflexivity.
    + exists "BUILD FAILED". split; [cbn; tauto | reflexivity].
  - rewrite (proj2 (analyzeBazelLogs_build_log analyzer_params (on clean_build)
                      "Build Incremental.txt"
                      ("Compiling..." ++ nl ++ "Build completed successfully" ++ nl)
                      eq_refl eq_refl eq_refl eq_refl eq_refl)).
    + reflexivity.
    + intros indicator Hin. cbn in Hin.
      repeat (destruct Hin as [<-|Hin]; [reflexivity|]). contradiction.
Defined.

Lemma analyzeBazelLogs_absent_inputs_witness :
  Path.join ["/tmp/x"; "Bazel Build and Test"] = logs_dir /\
  LogAnalyzer.analyzeBazelLogs analyzer_params empty_world =
    ({| on_disk := []; log := [ExistsSync logs_dir] |},
     Returned (LogAnalyzer.not_found_result "Bazel Build and Test" logs_dir)) /\
  snd (LogAnalyzer.analyzeBazelLogs analyzer_params (on unrelated_files)) =
    Returned (LogAnalyzer.no_files_result "Bazel Build and Test").
Proof.
  split; [reflexivity|]. split.
  - exact (proj1 (analyzeBazelLogs_absent_inputs analyzer_params empty_world
                    eq_refl eq_refl)
             eq_refl).
  - rewrite (proj2 (analyzeBazelLogs_absent_inputs analyzer_params (on unrelated_files)
                      eq_refl eq_refl)
               eq_refl eq_refl eq_refl eq_refl).
    reflexivity.
Defined.


Lemma analyzeWorkflowLogs_boundary_witness :
  snd (WorkflowLogs.analyzeWorkflowLogs no_network workflow_params empty_world) =
    Returned {| LogAnalyzer.success := false;
                LogAnalyzer.errorSummary := "Error analyzing workflow logs";
                LogAnalyzer.errorDetails := "getaddrinfo ENOTFOUND example.com";
                LogAnalyzer.sourceFile := None;
                LogAnalyzer.relevantLogContent := None |} /\
  snd (WorkflowLogs.analyzeWorkflowLogs good_run workflow_params (on blocked_output)) =
    Returned {| LogAnalyzer.success := false;
                LogAnalyzer.errorSummary := "Error analyzing workflow logs";
                LogAnalyzer.errorDetails :=
                  "EEXIST: file already exists, mkdir '/tmp/workflow_logs/2024-05-06T07-08-09-123Z'";
                LogAnalyzer.sourceFile := None;
                LogAnalyzer.relevantLogContent := None |}.
Proof.
  split.
  - pose proof (proj1 (proj2 (proj2
                  (analyzeWorkflowLogs_boundary no_network workflow_params empty_world))))
      as fetcher_fails.
    eapply eq_trans;
      [apply (f_equal snd); eapply fetcher_fails; lazy; reflexivity | reflexivity].
  - pose proof (proj1 (proj2
                  (analyzeWorkflowLogs_boundary good_run workflow_params
                     (on blocked_output))))
      as mkdir_fails.
    eapply eq_trans;
      [apply (f_equal snd); eapply mkdir_fails; lazy; reflexivity | reflexivity].
Defined.

Lemma downloadAndUnzip_fails_by_throwing_witness :
  exists w' r,
    Downloader.downloadAndUnzip good_run fetch_params empty_world = (w', Returned r) /\
    Downloader.success r = true.
Proof.
  eexists. eexists. split; [lazy; reflexivity|].
  eapply (proj1 (downloadAndUnzip_fails_by_throwing good_run workflow_params empty_world)
            fetch_params empty_world).
  lazy. reflexivity.
Defined.

Lemma default_folder_names_differ_in_case_witness :
  exists w3 r,
    WorkflowLogs.analyzeWorkflowLogs good_run workflow_params empty_world =
      (w3, Returned r) /\
    LogAnalyzer.success r = false /\
    LogAnalyzer.errorSummary r = "Bazel logs folder not found".
Proof.
  eapply (proj2 (proj2 (proj2 (proj2 (proj2
            (default_folder_names_differ_in_case good_run workflow_params
               empty_world)))))).
  - reflexivity.
  - lazy. reflexivity.
  - lazy. reflexivity.
  - reflexivity.
  - reflexivity.
Defined.

Lemma workflow_wrappers_environment_defaults_witness :
  Workflows.listWorkflowRuns no_network string string base_only send accept
      no_options empty_world =
    (empty_world, Raised (ErrorObject Workflows.owner_required)) /\
  Workflows.listWorkflowRunsByWorkflowId configured string string base_only send accept
      no_run_options empty_world =
    ({| on_disk := [];
        log := [Fetch "https://api.github.com/repos/octocat/hello-world/actions/workflows/ci.yml/runs"] |},
     Returned "https://api.github.com/repos/octocat/hello-world/actions/workflows/ci.yml/runs") /\
  Workflows.getCiWorkflowRun string string send accept run_42 empty_world =
    ({| on_disk := [];
        log := [Fetch "https://api.github.com/repos/askscio/scio/actions/runs/42"] |},
     Returned "https://api.github.com/repos/askscio/scio/actions/runs/42").
Proof.
  pose proof (workflow_wrappers_environment_defaults no_network string string string
                base_only send accept accept) as [_ [[missing _] _]].
  pose proof (workflow_wrappers_environment_defaults configured string string string
                base_only send accept accept) as [[_ [_ [fallback _]]] [_ [_ [_ ci]]]].
  destruct ci as [_ [_ [_ [_ [_ run]]]]].
  split; [|split].
  - apply missing. reflexivity.
  - rewrite fallback. reflexivity.
  - assert (safe : isSafeInteger (Workflows.gr_run_id run_42))
      by (unfold isSafeInteger; cbn; lia).
    rewrite (proj1 (run run_42 safe)). reflexivity.
Defined.

End Witnesses.

(* ================================================================== *)
(** * Further properties *)
(* ================================================================== *)

Import Observations.

(** ** More on strings and lines *)

Lemma startsWith_empty (s : string) : startsWith s "" = true.
Proof. destruct s; reflexivity. Qed.

Lemma startsWith_app (a b p : string) :
  startsWith a p = true -> startsWith (a ++ b) p = true.
Proof.
  revert a. induction p as [|c p IH]; intros a H; [apply startsWith_empty|].
  destruct a as [|x a]; [discriminate|].
  cbn [startsWith append] in *. apply andb_true_iff in H as [H1 H2].
  rewrite H1, (IH _ H2). reflexivity.
Qed.

Lemma startsWith_prefix (p s : string) : startsWith (p ++ s) p = true.
Proof.
  induction p as [|c p IH]; [apply startsWith_empty|].
  cbn [startsWith append]. rewrite Ascii.eqb_refl. exact IH.
Qed.

Lemma includes_app_l (a b p : string) :
  includes a p = true -> includes (a ++ b) p = true.
Proof.
  induction a as [|x a IH]; intros H.
  - cbn in H. rewrite orb_false_r in H.
    destruct p; [|discriminate]. apply startsWith_includes, startsWith_empty.
  - cbn [includes] in H. apply orb_true_iff in H as [H|H].
    + apply startsWith_includes. apply startsWith_app. exact H.
    + change (String x a ++ b) with (String x (a ++ b)).
      apply includes_cons. apply IH. exact H.
Qed.

Lemma includes_app_r (a b p : string) :
  includes b p = true -> includes (a ++ b) p = true.
Proof.
  intros H. induction a as [|x a IH]; [exact H|].
  change (String x a ++ b) with (String x (a ++ b)). apply includes_cons. exact IH.
Qed.

Lemma includes_middle (a p b : string) : includes (a ++ p ++ b) p = true.
Proof. apply includes_app_r, startsWith_includes, startsWith_prefix. Qed.

Lemma toLowerCase_app (a b : string) :
  toLowerCase (a ++ b) = toLowerCase a ++ toLowerCase b.
Proof. induction a as [|x a IH]; cbn; [reflexivity|]. rewrite IH. reflexivity. Qed.

Lemma startsWith_toLowerCase (s p : string) :
  startsWith s p = true -> startsWith (toLowerCase s) (toLowerCase p) = true.
Proof.
  revert s. induction p as [|c p IH]; intros s H; [apply startsWith_empty|].
  destruct s as [|x s]; [discriminate|].
  cbn [startsWith toLowerCase] in *. apply andb_true_iff in H as [H1 H2].
  apply Ascii.eqb_eq in H1. subst x. rewrite Ascii.eqb_refl. exact (IH _ H2).
Qed.

Lemma includes_toLowerCase (s p : string) :
  includes s p = true -> includes (toLowerCase s) (toLowerCase p) = true.
Proof.
  induction s as [|x s IH]; intros H.
  - cbn in H. rewrite orb_false_r in H.
    destruct p; [|discriminate]. reflexivity.
  - cbn [includes] in H. apply orb_true_iff in H as [H|H].
    + apply startsWith_includes. apply startsWith_toLowerCase. exact H.
    + cbn [toLowerCase]. apply includes_cons. exact (IH H).
Qed.

(** A line of a joined text is included in it. *)
Lemma includes_join (ls : list string) (l p : string) :
  In l ls -> includes l p = true -> includes (join nl ls) p = true.
Proof.
  unfold join. induction ls as [|x xs IH]; intros Hin H; [contradiction|].
  cbn [String.concat]. destruct xs as [|y ys].
  - destruct Hin as [->|[]]. exact H.
  - destruct Hin as [->|Hin].
    + apply includes_app_l. exact H.
    + apply includes_app_r, includes_app_r. exact (IH Hin H).
Qed.

Lemma toLowerCase_join (ls : list string) :
  toLowerCase (join nl ls) = join nl (map toLowerCase ls).
Proof.
  unfold join. induction ls as [|x xs IH]; [reflexivity|].
  cbn [String.concat map]. destruct xs as [|y ys]; [reflexivity|].
  rewrite !toLowerCase_app, IH. reflexivity.
Qed.

Lemma matches_join (alternatives : list string) (ls : list string) (l : string) :
  In l ls -> matches alternatives l = true -> matches alternatives (join nl ls) = true.
Proof.
  intros Hin H. unfold matches in *.
  apply existsb_exists in H as [p [Hp H]].
  apply existsb_exists. exists p. split; [exact Hp|].
  rewrite toLowerCase_join.
  apply (includes_join _ (toLowerCase l)); [apply in_map; exact Hin | exact H].
Qed.

Lemma containsErrors_join (ls : list string) (l : string) :
  In l ls -> containsErrors l = true -> containsErrors (join nl ls) = true.
Proof.
  intros Hin H. unfold containsErrors in *.
  apply existsb_exists in H as [p [Hp H]].
  apply existsb_exists. exists p. split; [exact Hp|].
  exact (includes_join _ _ _ Hin H).
Qed.

(** The lines of a text have no line break, and joining them gives the text
    back; a joined list of such lines splits into the list. *)
Lemma split_nl_no_newline (s : string) :
  has_newline (fst (split_nl s)) = false /\
  Forall (fun l => has_newline l = false) (snd (split_nl s)).
Proof.
  induction s as [|c r [IH1 IH2]]; [split; [reflexivity|constructor]|].
  cbn [split_nl]. destruct (split_nl r) as [l ls]. cbn [fst snd] in *.
  destruct (is_newline c) eqn:E; cbn [fst snd].
  - split; [reflexivity|]. constructor; assumption.
  - split; [|exact IH2]. cbn [has_newline]. rewrite E. exact IH1.
Qed.

Lemma split_lines_no_newline (s : string) :
  Forall (fun l => has_newline l = false) (split_lines s).
Proof.
  unfold split_lines. pose proof (split_nl_no_newline s) as [H1 H2].
  destruct (split_nl s). constructor; assumption.
Qed.

Lemma split_lines_not_empty (s : string) : split_lines s <> [].
Proof. unfold split_lines. destruct (split_nl s). discriminate. Qed.

Lemma join_of_split_lines (s : string) : join nl (split_lines s) = s.
Proof.
  unfold split_lines, join. induction s as [|c r IH]; [reflexivity|].
  cbn [split_nl]. destruct (split_nl r) as [l ls].
  destruct (is_newline c) eqn:E.
  - apply Ascii.eqb_eq in E. subst c.
    change (String.concat nl ("" :: l :: ls)) with (nl ++ String.concat nl (l :: ls)).
    rewrite IH. reflexivity.
  - destruct ls as [|y ys].
    + cbn in *. rewrite IH. reflexivity.
    + change (String.concat nl (String c l :: y :: ys))
        with (String c (l ++ nl ++ String.concat nl (y :: ys))).
      change (String.concat nl (l :: y :: ys))
        with (l ++ nl ++ String.concat nl (y :: ys)) in IH.
      rewrite IH. reflexivity.
Qed.

Lemma split_nl_line (a r : string) :
  has_newline a = false ->
  split_nl (a ++ String newline r) = (a, fst (split_nl r) :: snd (split_nl r)).
Proof.
  intros H. induction a as [|c a IH].
  - cbn. destruct (split_nl r). reflexivity.
  - cbn [has_newline] in H. apply orb_false_iff in H as [Hc Ha].
    cbn [append split_nl]. rewrite (IH Ha), Hc. reflexivity.
Qed.

Lemma split_nl_one (a : string) : has_newline a = false -> split_nl a = (a, []).
Proof.
  intros H. induction a as [|c a IH]; [reflexivity|].
  cbn [has_newline] in H. apply orb_false_iff in H as [Hc Ha].
  cbn [split_nl]. rewrite (IH Ha), Hc. reflexivity.
Qed.

Lemma split_lines_join (ls : list string) :
  ls <> [] -> Forall (fun l => has_newline l = false) ls ->
  split_lines (join nl ls) = ls.
Proof.
  unfold split_lines, join. induction ls as [|x xs IH]; intros Hne Hall; [congruence|].
  inversion Hall as [|? ? Hx Hxs]; subst.
  destruct xs as [|y ys].
  - cbn. rewrite (split_nl_one _ Hx). reflexivity.
  - change (String.concat nl (x :: y :: ys))
      with (x ++ String newline (String.concat nl (y :: ys))).
    rewrite (split_nl_line _ _ Hx).
    specialize (IH ltac:(discriminate) Hxs).
    destruct (split_nl (String.concat nl (y :: ys))) as [l ls']. cbn [fst snd].
    rewrite IH. reflexivity.
Qed.

Lemma Forall_firstn {A} (P : A -> Prop) (n : nat) (l : list A) :
  Forall P l -> Forall P (firstn n l).
Proof.
  intros H. revert n. induction H as [|x l Hx Hl IH]; intros [|n]; cbn;
    constructor; auto.
Qed.

Lemma Forall_skipn {A} (P : A -> Prop) (n : nat) (l : list A) :
  Forall P l -> Forall P (skipn n l).
Proof.
  intros H. revert n. induction H as [|x l Hx Hl IH]; intros [|n]; cbn;
    try constructor; auto.
Qed.

Lemma In_firstn {A} (x : A) (n : nat) (l : list A) : In x (firstn n l) -> In x l.
Proof.
  revert n. induction l as [|y l IH]; intros [|n]; cbn; try tauto.
  intros [->|H]; [left; reflexivity | right; exact (IH _ H)].
Qed.

Lemma In_skipn {A} (x : A) (n : nat) (l : list A) : In x (skipn n l) -> In x l.
Proof.
  revert n. induction l as [|y l IH]; intros [|n]; cbn; try tauto.
  intros H. right. exact (IH _ H).
Qed.

(** The element of index [i] is in every window that starts at or before
    [i] and ends after it. *)
Lemma In_window {A} (d : A) (l : list A) (i from n : nat) :
  (from <= i)%nat -> (i < from + n)%nat -> (i < length l)%nat ->
  In (nth i l d) (firstn n (skipn from l)).
Proof.
  intros H1 H2 H3.
  replace (nth i l d) with (nth (i - from) (firstn n (skipn from l)) d).
  - apply nth_In. rewrite length_firstn, length_skipn. lia.
  - rewrite nth_firstn. destruct (Nat.ltb_spec (i - from) n); [|lia].
    rewrite nth_skipn. f_equal. lia.
Qed.

(** ** More on the two extractors *)

Lemma errorIndicators_one_line :
  forallb (fun p => negb (has_newline p)) errorIndicators = true.
Proof. reflexivity. Qed.

(** A text has an error indicator exactly when one of its lines has one. *)
Lemma containsErrors_lines (content : string) :
  existsb containsErrors (split_lines content) = containsErrors content.
Proof.
  destruct (containsErrors content) eqn:E.
  - unfold containsErrors in E. apply existsb_exists in E as [p [Hp H]].
    pose proof errorIndicators_one_line as Hall.
    rewrite forallb_forall in Hall. specialize (Hall p Hp).
    apply negb_true_iff in Hall.
    pose proof (includes_some_line _ _ Hall H) as L.
    apply existsb_exists in L as [l [Hl Hinc]].
    apply existsb_exists. exists l. split; [exact Hl|].
    unfold containsErrors. apply existsb_exists. exists p. split; assumption.
  - apply not_true_is_false. intros C.
    apply existsb_exists in C as [l [Hl Hc]].
    pose proof (containsErrors_join _ _ Hl Hc) as J.
    rewrite join_of_split_lines in J. congruence.
Qed.

Lemma extractErrorDetails_matched (content : string) :
  matches errorPattern content = true ->
  exists i : nat,
    (i < length (split_lines content))%nat /\
    matches errorPattern (nth i (split_lines content) "") = true /\
    extractErrorDetails content = join nl (firstn 10 (skipn i (split_lines content))).
Proof.
  intros H. set (lines := split_lines content).
  pose proof (matches_some_line _ _ errorPattern_one_line H) as Hl.
  destruct (findIndex_first (matches errorPattern) "" _ Hl) as [i [E [L [P F]]]].
  exists i. fold lines in E, L, P. repeat split; try assumption.
  unfold extractErrorDetails, errorPatterns.
  cbn [extractErrorDetails_loop]. rewrite H. fold lines. rewrite E.
  destruct (Z.geb_spec (Z.of_nat i) 0); [|lia].
  replace (Z.min (Z.of_nat i + 10) (Z.of_nat (length lines)))
    with (Z.of_nat (Nat.min (i + 10) (length lines))) by lia.
  rewrite slice_nat. f_equal.
  destruct (Nat.le_gt_cases (i + 10) (length lines)) as [Le|Gt].
  - rewrite Nat.min_l by lia. f_equal. lia.
  - rewrite Nat.min_r by lia.
    rewrite !firstn_all2; [reflexivity | |]; rewrite length_skipn; lia.
Qed.

Lemma extractErrorDetails_unmatched (content : string) :
  matches errorPattern content = false ->
  extractErrorDetails content =
    String.substring 0 500 content ++
    (if (500 <? String.length content)%nat then "..." else "").
Proof.
  intros H. unfold extractErrorDetails, errorPatterns.
  cbn [extractErrorDetails_loop]. rewrite H.
  unfold substring0, len. change (Z.to_nat 500) with 500%nat. f_equal.
  destruct (Z.gtb_spec (Z.of_nat (String.length content)) 500);
    destruct (Nat.ltb_spec 500 (String.length content)); try reflexivity; lia.
Qed.

Lemma extractRelevantContent_long_indicator (content : string) :
  (2000 < String.length content)%nat ->
  containsErrors content = true ->
  exists i : nat,
    (i < length (split_lines content))%nat /\
    containsErrors (nth i (split_lines content) "") = true /\
    (forall j, (j < i)%nat -> containsErrors (nth j (split_lines content) "") = false) /\
    extractRelevantContent content =
      join nl (firstn (Nat.min (length (split_lines content)) (i + 15) - (i - 5))
                      (skipn (i - 5) (split_lines content))).
Proof.
  intros Hlen Hc. set (lines := split_lines content).
  assert (E : existsb containsErrors lines = true)
    by (unfold lines; rewrite containsErrors_lines; exact Hc).
  destruct (findIndex_first containsErrors "" lines E) as [i [Ei [L [P F]]]].
  exists i. repeat split; try assumption.
  unfold extractRelevantContent, len. fold lines.
  destruct (Z.leb_spec (Z.of_nat (String.length content)) 2000); [lia|].
  pose proof (filter_with_index_at containsErrors lines 0%Z) as W.
  unfold with_index.
  destruct (filter _ (with_index_at 0 lines)) as [|[x k] rest]; [congruence|].
  destruct W as [_ ->]. fold (findIndex containsErrors lines). rewrite Ei.
  replace (Z.max 0 (Z.of_nat i - 5)) with (Z.of_nat (i - 5)) by lia.
  replace (Z.min (Z.of_nat (length lines)) (Z.of_nat i + 15))
    with (Z.of_nat (Nat.min (length lines) (i + 15))) by lia.
  rewrite slice_nat. reflexivity.
Qed.

Lemma length_substring0 (n : nat) (s : string) :
  String.length (String.substring 0 n s) = Nat.min n (String.length s).
Proof.
  revert s. induction n as [|n IH]; intros [|c s]; cbn; try reflexivity.
  rewrite IH. reflexivity.
Qed.

Lemma substring0_all (n : nat) (s : string) :
  (String.length s <= n)%nat -> String.substring 0 n s = s.
Proof.
  revert s. induction n as [|n IH]; intros [|c s] H; cbn in *; try reflexivity; try lia.
  rewrite IH by lia. reflexivity.
Qed.

Lemma append_empty_r (s : string) : s ++ "" = s.
Proof. induction s as [|c s IH]; cbn; [reflexivity|]. rewrite IH. reflexivity. Qed.

(** X4. The excerpt for a build log that has an error indicator is the log
    itself or the window around the first line with an indicator, never the
    composite of first and last lines: an indicator has no line break, so a
    text that has one has a line that has one. *)
Theorem extractRelevantContent_of_flagged_log (content : string) :
  containsErrors content = true ->
  ((String.length content <= 2000)%nat /\ extractRelevantContent content = content)
  \/
  ((2000 < String.length content)%nat /\
   exists i : nat,
     (i < length (split_lines content))%nat /\
     containsErrors (nth i (split_lines content) "") = true /\
     (forall j, (j < i)%nat -> containsErrors (nth j (split_lines content) "") = false) /\
     extractRelevantContent content =
       join nl (slice (Z.max 0 (Z.of_nat i - 5))
                      (Z.min (Z.of_nat (length (split_lines content))) (Z.of_nat i + 15))
                      (split_lines content))).
Proof.
  intros Hc. destruct (Nat.le_gt_cases (String.length content) 2000) as [Hs|Hl].
  - left. split; [exact Hs|]. unfold extractRelevantContent, len.
    destruct (Z.leb_spec (Z.of_nat (String.length content)) 2000); [reflexivity|lia].
  - right. split; [exact Hl|].
    destruct (extractRelevantContent_long_indicator content Hl Hc) as [i [L [P [F E]]]].
    exists i. repeat split; try assumption.
    rewrite E.
    replace (Z.max 0 (Z.of_nat i - 5)) with (Z.of_nat (i - 5)) by lia.
    replace (Z.min (Z.of_nat (length (split_lines content))) (Z.of_nat i + 15))
      with (Z.of_nat (Nat.min (length (split_lines content)) (i + 15))) by lia.
    rewrite slice_nat. reflexivity.
Qed.

(** X2. The excerpts keep the evidence: when the pattern matches the text it
    matches the excerpt of [extractErrorDetails], and when the text has an
    error indicator so has the excerpt of [extractRelevantContent]. *)
Theorem excerpts_keep_the_evidence (content : string) :
  (matches errorPattern content = true ->
   matches errorPattern (extractErrorDetails content) = true)
  /\
  (containsErrors content = true ->
   containsErrors (extractRelevantContent content) = true).
Proof.
  split; intros H.
  - destruct (extractErrorDetails_matched content H) as [i [L [P E]]].
    rewrite E. apply (matches_join _ _ (nth i (split_lines content) "")); [|exact P].
    apply In_window; lia.
  - destruct (Nat.le_gt_cases (String.length content) 2000) as [Hs|Hl].
    + unfold extractRelevantContent, len.
      destruct (Z.leb_spec (Z.of_nat (String.length content)) 2000); [exact H|lia].
    + destruct (extractRelevantContent_long_indicator content Hl H) as [i [L [P [F E]]]].
      rewrite E.
      apply (containsErrors_join _ (nth i (split_lines content) "")); [|exact P].
      apply In_window; lia.
Qed.

(** X3. How long an excerpt can be: [extractErrorDetails] gives from one to ten
    lines when the pattern matches, and the text itself (up to 500
    characters) or 503 characters when it does not; the window of
    [extractRelevantContent] has from one to twenty lines. *)
Theorem excerpt_sizes (content : string) :
  (matches errorPattern content = true ->
   (1 <= length (split_lines (extractErrorDetails content)) <= 10)%nat)
  /\
  (matches errorPattern content = false ->
   ((String.length content <= 500)%nat -> extractErrorDetails content = content) /\
   ((500 < String.length content)%nat ->
    String.length (extractErrorDetails content) = 503%nat))
  /\
  ((2000 < String.length content)%nat ->
   containsErrors content = true ->
   (1 <= length (split_lines (extractRelevantContent content)) <= 20)%nat).
Proof.
  split; [|split].
  - intros H. destruct (extractErrorDetails_matched content H) as [i [L [P E]]].
    rewrite E. rewrite split_lines_join.
    + rewrite length_firstn, length_skipn. lia.
    + intros C. apply (f_equal (@length string)) in C.
      rewrite length_firstn, length_skipn in C. cbn [length] in C. lia.
    + apply Forall_firstn, Forall_skipn, split_lines_no_newline.
  - intros H. rewrite (extractErrorDetails_unmatched content H). split; intros Hlen.
    + destruct (Nat.ltb_spec 500 (String.length content)); [lia|].
      rewrite append_empty_r. apply substring0_all. exact Hlen.
    + destruct (Nat.ltb_spec 500 (String.length content)); [|lia].
      rewrite length_append, length_substring0. cbn [String.length]. lia.
  - intros Hl H.
    destruct (extractRelevantContent_long_indicator content Hl H) as [i [L [P [F E]]]].
    rewrite E. rewrite split_lines_join.
    + rewrite length_firstn, length_skipn. lia.
    + intros C. apply (f_equal (@length string)) in C.
      rewrite length_firstn, length_skipn in C. cbn [length] in C. lia.
    + apply Forall_firstn, Forall_skipn, split_lines_no_newline.
Qed.

(** X5. Detection and excerpt use two lists, and they differ in one entry:
    "Execution failed" is an indicator of [containsErrors] and no alternative
    of the pattern of [extractErrorDetails].  So a text that [containsErrors]
    flags is matched by the pattern, or else it has "Execution failed", is
    not matched, and gets its first 500 characters as error details. *)
Theorem flagged_text_matches_or_execution_failed (content : string) :
  (forall p, In p errorIndicators <-> In p errorPattern \/ p = "Execution failed")
  /\
  (containsErrors content = true ->
   matches errorPattern content = true
   \/
   (includes content "Execution failed" = true /\
    matches errorPattern content = false /\
    extractErrorDetails content =
      String.substring 0 500 content ++
      (if (500 <? String.length content)%nat then "..." else ""))).
Proof.
  split.
  - intros p. cbn. intuition congruence.
  - intros H. destruct (matches errorPattern content) eqn:M; [left; reflexivity|].
    right. split; [|split; [reflexivity | exact (extractErrorDetails_unmatched _ M)]].
    unfold containsErrors in H. apply existsb_exists in H as [p [Hp H]].
    assert (K : In p errorPattern -> False).
    { intros Hin. assert (matches errorPattern content = true); [|congruence].
      unfold matches. apply existsb_exists. exists p. split; [exact Hin|].
      apply includes_toLowerCase. exact H. }
    cbn in Hp.
    repeat (destruct Hp as [<-|Hp]; [try exact H; exfalso; apply K; cbn; tauto|]).
    contradiction.
Qed.

(** ** More on the log analyzer *)

Section LogFileNames.

Import LogAnalyzer.

(** X6. A file is recognised by its name whatever precedes and follows the known
    name in it, and whatever the case of the letters of the known name. *)
Theorem log_file_names_recognised (before name after : string) :
  (toLowerCase name = "get errors during workflow run.txt" ->
   is_summary_file (before ++ name ++ after) = true) /\
  (toLowerCase name = "view failed test logs.txt" ->
   is_failed_test_file (before ++ name ++ after) = true) /\
  (toLowerCase name = "build incremental.txt" ->
   is_build_file (before ++ name ++ after) = true).
Proof.
  unfold is_summary_file, is_failed_test_file, is_build_file.
  rewrite !toLowerCase_app.
  repeat split; intros ->; apply includes_middle.
Qed.

End LogFileNames.

Lemma strip_prefix_app (pre s r : string) :
  strip_prefix pre s = Some r -> s = pre ++ r.
Proof.
  revert s. induction pre as [|a pre IH]; intros s H.
  - cbn in H. destruct s; injection H as <-; reflexivity.
  - destruct s as [|b s]; [discriminate|]. cbn in H.
    destruct (Ascii.eqb_spec a b) as [->|]; [|discriminate].
    cbn. f_equal. exact (IH _ H).
Qed.

Lemma append_assoc (a b c : string) : (a ++ b) ++ c = a ++ b ++ c.
Proof. induction a as [|x a IH]; cbn; [reflexivity|]. rewrite IH. reflexivity. Qed.

Lemma entry_name_path (dir p name : string) :
  entry_name dir p = Some name -> p = path_join dir name.
Proof.
  unfold entry_name, path_join. intros H.
  destruct (strip_prefix (dir ++ "/") p) as [[|c r]|] eqn:E; try discriminate.
  destruct (includes (String c r) "/"); [discriminate|].
  injection H as <-. apply strip_prefix_app in E. rewrite E. apply append_assoc.
Qed.

(** What a directory lists is on the disk. *)
Lemma entries_stat (d : disk) (dir name : string) :
  In name (entries d dir) -> exists n, stat d (path_join dir name) = Some n.
Proof.
  induction d as [|[p n] r IH]; [contradiction|].
  cbn [entries stat]. intros H.
  destruct (entry_name dir p) as [name'|] eqn:E.
  - destruct H as [->|H].
    + apply entry_name_path in E. subst p. rewrite String.eqb_refl. eauto.
    + destruct (String.eqb p (path_join dir name)); eauto.
  - destruct (String.eqb p (path_join dir name)); eauto.
Qed.

Lemma analyzeBazelLogs_disk_post (p : LogAnalyzer.AnalyzeBazelLogsParams) (w : world) :
  post (LogAnalyzer.analyzeBazelLogs p) w (fun w' _ => on_disk w' = on_disk w).
Proof.
  unfold LogAnalyzer.analyzeBazelLogs, LogAnalyzer.analyze_summary,
    LogAnalyzer.analyze_failed_tests, LogAnalyzer.analyze_build_log, post.
  unfold_ops. all_cases; reflexivity.
Qed.

Section AnalyzerMore.

Import LogAnalyzer.

Variable params : AnalyzeBazelLogsParams.
Variable w : world.

Let folder := bazelLogsFolderName params.
Let path := path_join (extractedDir params) folder.
Let listing := entries (on_disk w) path.

(** X7. The analyzer reads: whatever it returns or throws, the disk is as it
    was. *)
Theorem analyzeBazelLogs_reads_only (w' : world) (o : outcome LogAnalysisResult) :
  analyzeBazelLogs params w = (w', o) -> on_disk w' = on_disk w.
Proof.
  intros H. exact (post_run _ _ _ _ _ (analyzeBazelLogs_disk_post params w) H).
Qed.

Lemma analyzeBazelLogs_shape_post :
  post (analyzeBazelLogs params) w
    (fun _ o =>
       match o with
       | Raised _ => True
       | Returned r =>
           (success r = true ->
            errorSummary r = "No errors found in build log" /\
            relevantLogContent r = None /\
            exists f content,
              sourceFile r = Some f /\ is_build_file f = true /\
              stat (on_disk w) (path_join path f) = Some (File content) /\
              containsErrors content = false) /\
           (forall f, sourceFile r = Some f ->
              In f listing /\
              (is_summary_file f || is_failed_test_file f || is_build_file f) = true) /\
           (sourceFile r = None ->
            errorSummary r = "Bazel logs folder not found" \/
            errorSummary r = "No relevant log files found")
       end).
Proof.
  unfold analyzeBazelLogs, analyze_summary, analyze_failed_tests, analyze_build_log, post.
  fold folder. fold path.
  unfold_ops. fold listing.
  all_cases; trivial;
    cbn [success errorSummary sourceFile relevantLogContent no_files_result
         not_found_result];
    (split; [|split]); try discriminate; try tauto;
    repeat match goal with
           | H : find _ _ = Some _ |- _ => apply find_some in H; destruct H
           end.
  all: try (intros f E; injection E as <-; split; [assumption|];
            repeat match goal with H : _ = true |- _ => rewrite H end;
            rewrite ?orb_true_r; reflexivity).
  all: intros _; repeat split; eauto 10.
Qed.

(** X8. What a result says about the folder.  A success is the verdict on a build
    log that is on the disk and has no error indicator; a [sourceFile] is an
    entry of the folder with one of the three names; a result without
    [sourceFile] is one of the two "not found" failures. *)
Theorem analyzeBazelLogs_result_shape (w' : world) (r : LogAnalysisResult) :
  analyzeBazelLogs params w = (w', Returned r) ->
  (success r = true ->
   errorSummary r = "No errors found in build log" /\
   relevantLogContent r = None /\
   exists f content,
     sourceFile r = Some f /\ is_build_file f = true /\
     stat (on_disk w) (path_join path f) = Some (File content) /\
     containsErrors content = false) /\
  (forall f, sourceFile r = Some f ->
     In f listing /\
     (is_summary_file f || is_failed_test_file f || is_build_file f) = true) /\
  (sourceFile r = None ->
   errorSummary r = "Bazel logs folder not found" \/
   errorSummary r = "No relevant log files found").
Proof.
  intros H. exact (post_run _ _ _ _ _ analyzeBazelLogs_shape_post H).
Qed.

End AnalyzerMore.

Lemma trace_of_log {A} (m : M A) (w : world) (events : list event) :
  log (fst (m w)) = (log w ++ events)%list -> trace m w = events.
Proof.
  intros H. unfold trace. rewrite H.
  rewrite skipn_app, skipn_all, Nat.sub_diag. reflexivity.
Qed.

Ltac read_file H :=
  match goal with
  | |- context [bind (readFileSync ?p) _ ?w0] =>
      rewrite (bind_returned _ _ _ _ _ (readFileSync_file p _ w0 H))
  end.

Lemma readFileSync_directory (p : string) (w0 : world) :
  stat (on_disk w0) p = Some Directory ->
  exists e, readFileSync p w0 = (logged w0 [ReadFileSync p], Raised e).
Proof.
  intros H. unfold readFileSync, bind, emit, get_files, throw. cbn [on_disk log].
  rewrite H. eexists. reflexivity.
Qed.

Section AnalyzerRules.

Import LogAnalyzer.

Variable params : AnalyzeBazelLogsParams.
Variable w : world.

Let folder := bazelLogsFolderName params.
Let path := path_join (extractedDir params) folder.
Let listing := entries (on_disk w) path.

Lemma analyzeBazelLogs_log_post :
  post (analyzeBazelLogs params) w
    (fun w' _ => exists events,
       log w' = (log w ++ events)%list /\ (count is_read events <= 3)%nat /\
       count is_write events = 0%nat).
Proof.
  unfold analyzeBazelLogs, analyze_summary, analyze_failed_tests, analyze_build_log, post.
  unfold_ops. all_cases.
  all: repeat rewrite <- app_assoc; cbn [app].
  all: eexists; split; [reflexivity|]; cbn; lia.
Qed.

(** X9. The analyzer reads at most three files in a call and asks for no
    operation that changes the disk; when the summary file has content, that
    file is the only one it reads. *)
Theorem analyzeBazelLogs_reads_what_it_needs :
  ((count is_read (trace (analyzeBazelLogs params) w) <= 3)%nat /\
   count is_write (trace (analyzeBazelLogs params) w) = 0%nat)
  /\
  (forall summary content,
     stat (on_disk w) path = Some Directory ->
     find is_summary_file listing = Some summary ->
     stat (on_disk w) (path_join path summary) = Some (File content) ->
     (len (trim content) > 0)%Z ->
     trace (analyzeBazelLogs params) w =
       [ExistsSync path; ReaddirSync path; ReadFileSync (path_join path summary)]).
Proof.
  split.
  - pose proof analyzeBazelLogs_log_post as P. unfold post in P.
    destruct (analyzeBazelLogs params w) as [w' o] eqn:E.
    destruct P as [events [L [R W]]].
    assert (T : trace (analyzeBazelLogs params) w = events)
      by (apply trace_of_log; rewrite E; exact L).
    rewrite T. split; assumption.
  - intros summary content Hdir Hfind Hfile Hc.
    apply trace_of_log.
    rewrite (analyzeBazelLogs_listing params w Hdir). fold folder path listing.
    unfold analyze_summary. rewrite Hfind.
    assert (R : readFileSync (path_join path summary)
                  (logged w [ExistsSync path; ReaddirSync path]) =
                (logged w [ExistsSync path; ReaddirSync path;
                           ReadFileSync (path_join path summary)], Returned content)).
    { rewrite (readFileSync_file _ content) by exact Hfile.
      rewrite logged_logged. reflexivity. }
    rewrite (bind_returned _ _ _ _ _ R).
    destruct (Z.gtb_spec (len (trim content)) 0); [reflexivity|lia].
Qed.

(** X10. A summary file that is missing, or blank after trimming, leaves the
    verdict to the failed-test file: when that has content, the result is
    "Test failures detected" with the whole file as [relevantLogContent],
    whatever the build log says. *)
Theorem analyzeBazelLogs_failed_tests (test testContent : string) :
  stat (on_disk w) path = Some Directory ->
  blank_or_missing (on_disk w) path (find is_summary_file listing) ->
  find is_failed_test_file listing = Some test ->
  stat (on_disk w) (path_join path test) = Some (File testContent) ->
  (len (trim testContent) > 0)%Z ->
  exists w',
    analyzeBazelLogs params w =
      (w', Returned {| success := false;
                       errorSummary := "Test failures detected";
                       errorDetails := extractErrorDetails testContent;
                       sourceFile := Some test;
                       relevantLogContent := Some testContent |}).
Proof.
  intros Hdir Hs Ht Hfile Hc.
  rewrite (analyzeBazelLogs_listing params w Hdir). fold folder path listing.
  unfold analyze_summary.
  destruct (find is_summary_file listing) as [s|].
  - destruct Hs as [c [Hsf Hblank]].
    read_file Hsf.
    rewrite Hblank. cbn [Z.gtb Z.compare].
    unfold analyze_failed_tests. rewrite Ht.
    read_file Hfile.
    destruct (Z.gtb_spec (len (trim testContent)) 0); [|lia].
    eexists. reflexivity.
  - unfold analyze_failed_tests. rewrite Ht.
    read_file Hfile.
    destruct (Z.gtb_spec (len (trim testContent)) 0); [|lia].
    eexists. reflexivity.
Qed.

(** X11. Blank files count as missing.  When the summary file and the failed-test
    file are each missing or blank, the build log decides alone; and without
    a build log the result is "No relevant log files found", also when the
    two blank files are there. *)
Theorem analyzeBazelLogs_blank_files :
  stat (on_disk w) path = Some Directory ->
  blank_or_missing (on_disk w) path (find is_summary_file listing) ->
  blank_or_missing (on_disk w) path (find is_failed_test_file listing) ->
  (exists events,
     analyzeBazelLogs params w = analyze_build_log folder path listing (logged w events))
  /\
  (find is_build_file listing = None ->
   exists w', analyzeBazelLogs params w = (w', Returned (no_files_result folder))).
Proof.
  intros Hdir Hs Ht.
  assert (E : exists events,
             analyzeBazelLogs params w =
               analyze_build_log folder path listing (logged w events)).
  { rewrite (analyzeBazelLogs_listing params w Hdir). fold folder path listing.
    unfold analyze_summary, analyze_failed_tests.
    destruct (find is_summary_file listing) as [s|];
      destruct (find is_failed_test_file listing) as [t|].
    - destruct Hs as [c [Hsf Hsb]]. destruct Ht as [c' [Htf Htb]].
      read_file Hsf.
      rewrite Hsb. cbn [Z.gtb Z.compare].
      read_file Htf.
      rewrite Htb. cbn [Z.gtb Z.compare].
      rewrite !logged_logged. eexists. reflexivity.
    - destruct Hs as [c [Hsf Hsb]].
      read_file Hsf.
      rewrite Hsb. cbn [Z.gtb Z.compare].
      rewrite !logged_logged. eexists. reflexivity.
    - destruct Ht as [c' [Htf Htb]].
      read_file Htf.
      rewrite Htb. cbn [Z.gtb Z.compare].
      rewrite !logged_logged. eexists. reflexivity.
    - eexists. reflexivity. }
  split; [exact E|].
  intros Hb. destruct E as [events E]. rewrite E.
  unfold analyze_build_log. rewrite Hb. eexists. reflexivity.
Qed.

Lemma analyze_summary_blank (w0 : world) :
  on_disk w0 = on_disk w ->
  blank_or_missing (on_disk w) path (find is_summary_file listing) ->
  exists events,
    analyze_summary folder path listing w0 =
    analyze_failed_tests folder path listing (logged w0 events).
Proof.
  intros D H. unfold analyze_summary.
  destruct (find is_summary_file listing) as [s|].
  - destruct H as [c [Hf Hb]]. rewrite <- D in Hf.
    read_file Hf. rewrite Hb. cbn [Z.gtb Z.compare]. eexists. reflexivity.
  - exists []. unfold logged. rewrite app_nil_r. destruct w0. reflexivity.
Qed.

Lemma analyze_failed_tests_blank (w0 : world) :
  on_disk w0 = on_disk w ->
  blank_or_missing (on_disk w) path (find is_failed_test_file listing) ->
  exists events,
    analyze_failed_tests folder path listing w0 =
    analyze_build_log folder path listing (logged w0 events).
Proof.
  intros D H. unfold analyze_failed_tests.
  destruct (find is_failed_test_file listing) as [s|].
  - destruct H as [c [Hf Hb]]. rewrite <- D in Hf.
    read_file Hf. rewrite Hb. cbn [Z.gtb Z.compare]. eexists. reflexivity.
  - exists []. unfold logged. rewrite app_nil_r. destruct w0. reflexivity.
Qed.

(** X12. The analyzer catches nothing: an error of the file system is thrown to
    the caller.  It throws when the path of the folder is that of a file (the
    folder "exists", and listing it fails), and when the entry that a rule
    picks is a directory: the summary entry; the failed-test entry, after a
    summary that is missing or blank; the build-log entry, after a summary
    and a failed-test file that are missing or blank.  The paths are those
    of [path.join], for a directory, a folder name and entries that it joins
    as they are written, with no separator at the end of the folder. *)
Theorem analyzeBazelLogs_throws :
  let bazelLogsPath := Path.join [extractedDir params; folder] in
  let files := entries (on_disk w) bazelLogsPath in
  bazelLogsPath = path_join (extractedDir params) folder ->
  Path.ends_with_separator bazelLogsPath = false ->
  (forall f, In f files -> Path.join [bazelLogsPath; f] = path_join bazelLogsPath f) ->
  (forall content,
     stat (on_disk w) bazelLogsPath = Some (File content) ->
     exists e,
       analyzeBazelLogs params w =
         (logged w [ExistsSync bazelLogsPath; ReaddirSync bazelLogsPath], Raised e))
  /\
  (forall entry,
     stat (on_disk w) bazelLogsPath = Some Directory ->
     stat (on_disk w) (Path.join [bazelLogsPath; entry]) = Some Directory ->
     find is_summary_file files = Some entry \/
     (blank_or_missing (on_disk w) bazelLogsPath (find is_summary_file files) /\
      find is_failed_test_file files = Some entry) \/
     (blank_or_missing (on_disk w) bazelLogsPath (find is_summary_file files) /\
      blank_or_missing (on_disk w) bazelLogsPath (find is_failed_test_file files) /\
      find is_build_file files = Some entry) ->
     exists w' e, analyzeBazelLogs params w = (w', Raised e)).
Proof.
  intros bazelLogsPath files E _. fold path in E. subst files. rewrite E. fold listing.
  intros Hjoin. split.
  - intros content Hfile.
    unfold analyzeBazelLogs. fold folder. fold path.
    rewrite (bind_returned _ _ _ _ _ (existsSync_run path w)). rewrite Hfile. cbn [negb].
    unfold readdirSync, bind, emit, get_files, throw. cbn [on_disk log logged].
    rewrite Hfile. eexists. unfold logged. cbn [on_disk log].
    rewrite <- app_assoc. reflexivity.
  - intros entry Hdir Hsub Hcase.
    assert (Hin : In entry listing).
    { destruct Hcase as [Hs | [[_ Ht] | [_ [_ Hb]]]];
        eapply find_some; eassumption. }
    rewrite (Hjoin entry Hin) in Hsub.
    assert (K : forall w0, on_disk w0 = on_disk w ->
                exists e, readFileSync (path_join path entry) w0 =
                            (logged w0 [ReadFileSync (path_join path entry)], Raised e)).
    { intros w0 D. apply readFileSync_directory. rewrite D. exact Hsub. }
    rewrite (analyzeBazelLogs_listing params w Hdir). fold folder path listing.
    set (w0 := logged w [ExistsSync path; ReaddirSync path]).
    assert (D0 : on_disk w0 = on_disk w) by reflexivity.
    destruct Hcase as [Hs | [[Hs Ht] | [Hs [Ht Hb]]]].
    + unfold analyze_summary. rewrite Hs.
      destruct (K w0 D0) as [e Ee].
      rewrite (bind_raised _ _ _ _ _ Ee). eauto.
    + destruct (analyze_summary_blank w0 D0 Hs) as [ev1 ->].
      unfold analyze_failed_tests. rewrite Ht.
      destruct (K (logged w0 ev1) D0) as [e Ee].
      rewrite (bind_raised _ _ _ _ _ Ee). eauto.
    + destruct (analyze_summary_blank w0 D0 Hs) as [ev1 ->].
      destruct (analyze_failed_tests_blank (logged w0 ev1) D0 Ht) as [ev2 ->].
      unfold analyze_build_log. rewrite Hb.
      destruct (K (logged (logged w0 ev1) ev2) D0) as [e Ee].
      rewrite (bind_raised _ _ _ _ _ Ee). eauto.
Qed.

End AnalyzerRules.

(** ** More on the archive fetcher *)

Lemma entries_remove (d : disk) (dir name : string) :
  ~ In name (entries (remove d (path_join dir name)) dir).
Proof.
  induction d as [|[p n] r IH]; [intros []|].
  cbn [remove filter]. fold (remove r (path_join dir name)).
  destruct (String.eqb_spec p (path_join dir name)) as [->|Hne]; cbn [negb]; [exact IH|].
  cbn [entries]. destruct (entry_name dir p) as [name'|] eqn:E; [|exact IH].
  intros [->|H]; [|exact (IH H)].
  apply entry_name_path in E. contradiction.
Qed.

Section FetcherMore.

Import Downloader.

Variable X : externals.
Variable params : DownloadAndUnzipParams.
Variable w : world.

Let tempFilename := tempFilename_of (filename params).
Let tempFilePath := path_join (outputDir params) tempFilename.

Lemma downloadAndUnzip_result_post :
  post (downloadAndUnzip X params) w
    (fun w' o =>
       match o with
       | Raised _ => True
       | Returned r =>
           (exists response content,
              http X (url params) [] = Returned response /\
              ok response = true /\ body response = Some content /\
              pipe_failure X = None /\
              sp_error (unzip_result X) = None /\
              sp_status (unzip_result X) = Some 0%Z) /\
           message r = "File downloaded and unzipped successfully to " ++ outputDir params /\
           files r = entries (on_disk w') (outputDir params) /\
           ~ In tempFilename (files r) /\
           stat (on_disk w') (outputDir params) = Some Directory
       end).
Proof.
  unfold downloadAndUnzip, download_steps, download_cleanup, post. unfold_ops.
  fold tempFilename. fold tempFilePath.
  all_cases; trivial.
  all: cbn [message files].
  all: try congruence.
  all: repeat split; try apply entries_remove; try assumption.
  all: do 2 eexists; repeat split; try eassumption.
  all: apply negb_false_iff; assumption.
Qed.

(** X13. A call that returns has done everything: the answer was a success with a
    body, the transfer was complete, [unzip] started and ended with code 0.
    The result names the output directory, which is a directory then, and
    lists it as it is after the call: without the temporary archive. *)
Theorem downloadAndUnzip_returns_after_success (w' : world) (r : DownloadResult) :
  downloadAndUnzip X params w = (w', Returned r) ->
  (exists response content,
     http X (url params) [] = Returned response /\
     ok response = true /\ body response = Some content /\
     pipe_failure X = None /\
     sp_error (unzip_result X) = None /\ sp_status (unzip_result X) = Some 0%Z) /\
  extractedDirectory r = outputDir params /\
  message r = "File downloaded and unzipped successfully to " ++ outputDir params /\
  files r = entries (on_disk w') (outputDir params) /\
  ~ In tempFilename (files r) /\
  stat (on_disk w') (outputDir params) = Some Directory.
Proof.
  intros H.
  pose proof (post_run _ _ _ _ _ downloadAndUnzip_result_post H) as [C [M [F [N D]]]].
  pose proof (post_run _ _ _ _ _ (downloadAndUnzip_returned X params w) H) as [_ E].
  repeat split; assumption.
Qed.

End FetcherMore.

Section FetcherErrors.

Import Downloader.

Variable X : externals.
Variable params : DownloadAndUnzipParams.
Variable w : world.

Let tempFilePath := path_join (outputDir params) (tempFilename_of (filename params)).

Lemma downloadAndUnzip_log_post :
  post (downloadAndUnzip X params) w
    (fun w' o => exists events,
       log w' = (log w ++ events)%list /\
       count is_fetch events = 1%nat /\
       (count is_pipeline events <= 1)%nat /\
       (count is_spawn events <= 1)%nat /\
       (count is_pipeline events = 1%nat ->
        exists response content,
          http X (url params) [] = Returned response /\
          ok response = true /\ body response = Some content) /\
       (count is_spawn events = 1%nat ->
        count is_pipeline events = 1%nat /\ pipe_failure X = None) /\
       (forall e, http X (url params) [] = Raised e ->
          o = Raised e \/ stat (on_disk w) tempFilePath = Some Directory) /\
       (forall response, http X (url params) [] = Returned response ->
          ok response = false ->
          o = Raised (ErrorObject ("HTTP error! Status: " ++ show_Z (status response) ++
                                   ", Message: " ++ text response))
          \/ stat (on_disk w) tempFilePath = Some Directory) /\
       (stat (on_disk w) tempFilePath = Some Directory ->
        o = Raised (ErrorObject ("EISDIR: illegal operation on a directory, unlink '" ++
                                 tempFilePath ++ "'")))).
Proof.
  unfold downloadAndUnzip, download_steps, download_cleanup, post. unfold_ops.
  fold tempFilePath.
  all_cases.
  all: repeat rewrite <- app_assoc; cbn [app].
  all: eexists; split; [reflexivity|].
  all: cbn [count filter is_fetch is_pipeline is_spawn length].
  all: repeat split; try lia; try discriminate; try congruence.
  all: try match goal with
           | H : stat (put _ _ Directory) tempFilePath = _ |- _ =>
               rewrite stat_put_other in H
                 by (apply not_eq_sym; exact (path_join_longer _ _))
           end.
  all: try congruence.
  all: try (intros _; do 2 eexists; repeat split;
            first [apply negb_false_iff; assumption | eassumption]).
  all: try (intros ? E; injection E as <-; first [left; reflexivity | right; congruence]).
  all: try (intros ? E Hok; injection E as <-; rewrite Hok in *; cbn [negb] in *;
            first [discriminate | left; reflexivity | right; congruence]).
Qed.

Lemma downloadAndUnzip_returned_log_post :
  post (downloadAndUnzip X params) w
    (fun w' o =>
       match o with
       | Raised _ => True
       | Returned _ =>
           exists events,
             log w' = (log w ++ events)%list /\
             count is_fetch events = 1%nat /\
             count is_pipeline events = 1%nat /\
             count is_spawn events = 1%nat
       end).
Proof.
  unfold downloadAndUnzip, download_steps, download_cleanup, post. unfold_ops.
  all_cases; trivial.
  all: repeat rewrite <- app_assoc; cbn [app].
  all: eexists; split; [reflexivity|].
  all: cbn [count filter is_fetch is_pipeline is_spawn length].
  all: repeat split.
Qed.

(** X14. No retries: a call makes at most one request, at most one transfer and
    runs [unzip] at most once.  The transfer starts only after the request,
    for an answer that is a success with a body, and [unzip] runs only after
    a transfer, and a complete one.  A call that returns has made the
    request, the transfer and the run of [unzip], each once. *)
Theorem downloadAndUnzip_at_most_one_request :
  let events := trace (downloadAndUnzip X params) w in
  ((count is_fetch events <= 1)%nat /\
   (count is_pipeline events <= 1)%nat /\
   (count is_spawn events <= 1)%nat)
  /\
  (count is_pipeline events = 1%nat ->
   count is_fetch events = 1%nat /\
   exists response content,
     http X (url params) [] = Returned response /\
     ok response = true /\ body response = Some content)
  /\
  (count is_spawn events = 1%nat ->
   count is_pipeline events = 1%nat /\ pipe_failure X = None)
  /\
  (forall r,
     snd (downloadAndUnzip X params w) = Returned r ->
     count is_fetch events = 1%nat /\
     count is_pipeline events = 1%nat /\
     count is_spawn events = 1%nat).
Proof.
  pose proof downloadAndUnzip_log_post as P.
  pose proof downloadAndUnzip_returned_log_post as Q. unfold post in P, Q.
  destruct (downloadAndUnzip X params w) as [w' o] eqn:E.
  destruct P as [events [L [F [Pi [Sp [G1 [G2 _]]]]]]].
  assert (T : trace (downloadAndUnzip X params) w = events)
    by (apply trace_of_log; rewrite E; exact L).
  cbn zeta. rewrite T. split; [|split; [|split]].
  - lia.
  - intros C. split; [exact F | exact (G1 C)].
  - exact G2.
  - cbn [snd]. intros r ->. destruct Q as [events' [L' C]].
    rewrite L in L'. apply app_inv_head in L'. subst events'. exact C.
Qed.


(** X16. When a directory is in the place of the temporary archive, the cleanup
    of the [catch] block fails, and its error is the one the caller gets:
    the error that sent the call to the [catch] block is lost. *)
Theorem downloadAndUnzip_cleanup_error_wins :
  stat (on_disk w) tempFilePath = Some Directory ->
  exists e,
    snd (unlinkSync tempFilePath w) = Raised e /\
    snd (downloadAndUnzip X params w) = Raised e.
Proof.
  intros Hdir.
  pose proof downloadAndUnzip_log_post as P. unfold post in P.
  destruct (downloadAndUnzip X params w) as [w' o] eqn:E.
  destruct P as [events [_ [_ [_ [_ [_ [_ [_ [_ M]]]]]]]]].
  cbn [snd]. rewrite (M Hdir). eexists. split; [|reflexivity].
  unfold unlinkSync, bind, emit, get_files, throw. cbn [on_disk log].
  rewrite Hdir. reflexivity.
Qed.

End FetcherErrors.

(** ** More on the orchestrator *)

Section OrchestratorMore.

Import WorkflowLogs.

Variable X : externals.
Variable params : AnalyzeWorkflowLogsParams.
Variable w : world.

Let analysisDir := analysisDir_of X (outputDir params).
Let fetchParams :=
  {| Downloader.url := url params;
     Downloader.outputDir := analysisDir;
     Downloader.filename := None |}.

(** X17. When the directory is made and the archive fetched, the result of the
    orchestrator is the result of the analyzer for the directory of the
    analysis and the folder name of the call, unchanged. *)
Theorem analyzeWorkflowLogs_passes_result_on
    (w1 w2 w3 : world) (downloadResult : Downloader.DownloadResult)
    (r : LogAnalyzer.LogAnalysisResult) :
  mkdirSync analysisDir w = (w1, Returned tt) ->
  Downloader.downloadAndUnzip X fetchParams w1 = (w2, Returned downloadResult) ->
  LogAnalyzer.analyzeBazelLogs
    {| LogAnalyzer.extractedDir := analysisDir;
       LogAnalyzer.bazelLogsFolderName := bazelLogsFolderName params |} w2
    = (w3, Returned r) ->
  analyzeWorkflowLogs X params w = (w3, Returned r).
Proof.
  intros Hm Hd Ha.
  pose proof (post_run _ _ _ _ _ (downloadAndUnzip_returned X fetchParams w1) Hd)
    as [Hs Hdir].
  cbn [Downloader.outputDir fetchParams] in Hdir.
  unfold analyzeWorkflowLogs. apply try_returned.
  unfold workflow_steps. fold analysisDir. fold fetchParams.
  rewrite (bind_returned _ _ _ _ _ Hm). rewrite (bind_returned _ _ _ _ _ Hd).
  rewrite Hs, Hdir. cbn [negb].
  rewrite (bind_returned _ _ _ _ _ Ha). reflexivity.
Qed.

(** X18. The orchestrator leaves no archive behind: the file "github-logs.zip" of
    the directory of the analysis, not there before the call, is not there
    after it, whatever the result. *)
Theorem analyzeWorkflowLogs_leaves_no_archive
    (w' : world) (o : outcome LogAnalyzer.LogAnalysisResult) :
  stat (on_disk w) (path_join analysisDir "github-logs.zip") = None ->
  analyzeWorkflowLogs X params w = (w', o) ->
  stat (on_disk w') (path_join analysisDir "github-logs.zip") = None.
Proof.
  intros Hnone Hrun.
  set (temp := path_join analysisDir "github-logs.zip") in *.
  unfold analyzeWorkflowLogs, try_catch in Hrun.
  assert (K : forall w0 o0, workflow_steps X params w = (w0, o0) ->
                stat (on_disk w0) temp = None).
  { intros w0 o0 Hs. unfold workflow_steps, bind in Hs.
    fold analysisDir in Hs. fold fetchParams in Hs.
    destruct (mkdirSync analysisDir w) as [w1 [[]|e1]] eqn:Hm.
    - assert (D1 : stat (on_disk w1) temp = None).
      { revert Hm. unfold mkdirSync, bind, emit, get_files, set_files, throw, ret.
        cbn [on_disk log].
        destruct (stat (on_disk w) analysisDir) as [[c|]|]; intros Hm;
          inversion Hm; subst; cbn [on_disk]; try exact Hnone.
        rewrite stat_put_other; [exact Hnone|].
        apply not_eq_sym. exact (path_join_longer _ _). }
      assert (D1' : stat (on_disk w1) temp <> Some Directory) by congruence.
      pose proof (downloadAndUnzip_leaves_no_archive X fetchParams w1 D1') as P.
      unfold post in P.
      destruct (Downloader.downloadAndUnzip X fetchParams w1) as [w2 [d|e2]].
      + destruct (negb (Downloader.success d)).
        * inversion Hs; subst. exact P.
        * pose proof (analyzeBazelLogs_disk_post
                        {| LogAnalyzer.extractedDir := Downloader.extractedDirectory d;
                           LogAnalyzer.bazelLogsFolderName := bazelLogsFolderName params |}
                        w2) as Q.
          unfold post in Q.
          destruct (LogAnalyzer.analyzeBazelLogs _ w2) as [w3 [r|e3]];
            inversion Hs; subst; rewrite Q; exact P.
      + inversion Hs; subst. exact P.
    - inversion Hs; subst.
      revert Hm. unfold mkdirSync, bind, emit, get_files, set_files, throw, ret.
      cbn [on_disk log].
      destruct (stat (on_disk w) analysisDir) as [[c|]|]; intros Hm;
        inversion Hm; subst; exact Hnone. }
  destruct (workflow_steps X params w) as [w0 [r|e]] eqn:Hs.
  - inversion Hrun; subst. exact (K _ _ eq_refl).
  - unfold ret in Hrun. inversion Hrun; subst. exact (K _ _ eq_refl).
Qed.

End OrchestratorMore.

(** ** More on the workflow-run wrappers *)

Section WrapperMore.

Import Workflows.

Variable X : externals.
Variables json WorkflowRuns WorkflowRun : Type.
Variable buildUrl : string -> list (string * option string) -> string.
Variable githubRequest : string -> list (string * string) -> M json.
Variable parseRuns : json -> outcome WorkflowRuns.
Variable parseRun : json -> outcome WorkflowRun.

(** X20. What [getOwnerAndRepo] returns is never empty, a parameter that is given
    is what it returns, whatever the environment says, and it leaves the
    world alone. *)
Theorem getOwnerAndRepo_result (providedOwner providedRepo : option string)
    (w w' : world) (owner repo : string) :
  getOwnerAndRepo X providedOwner providedRepo w = (w', Returned (owner, repo)) ->
  w' = w /\ owner <> "" /\ repo <> "" /\
  (truthy providedOwner = true -> providedOwner = Some owner) /\
  (truthy providedRepo = true -> providedRepo = Some repo) /\
  (truthy providedOwner = false -> process_env X "GITHUB_OWNER" = Some owner) /\
  (truthy providedRepo = false -> process_env X "GITHUB_REPO" = Some repo).
Proof.
  unfold getOwnerAndRepo, or_else, ret, throw.
  destruct (truthy providedOwner) eqn:To; destruct (truthy providedRepo) eqn:Tr.
  all: repeat match goal with
              | |- context [match ?x with _ => _ end] => destruct x as [[|? ?]|] eqn:?
              end.
  all: intros H; inversion H; subst; repeat split; try discriminate; congruence.
Qed.

Lemma logs_redirect_same_token (X' : externals) (url : string) :
  (forall u headers, http X u headers = http X' u headers) ->
  process_env X "GITHUB_PERSONAL_ACCESS_TOKEN" =
    process_env X' "GITHUB_PERSONAL_ACCESS_TOKEN" ->
  forall w, logs_redirect X url w = logs_redirect X' url w.
Proof.
  intros Hhttp Htoken w0.
  unfold logs_redirect, fetch, logs_headers, bind, emit, lift. cbn [on_disk log].
  rewrite Htoken, Hhttp. reflexivity.
Qed.

(** X21. What the requests for the logs read of the environment.  With the same
    answers of the network, [getWorkflowRunLogs] does the same in two
    environments that agree on [GITHUB_PERSONAL_ACCESS_TOKEN], on
    [GITHUB_OWNER] when the call gives no owner and on [GITHUB_REPO] when it
    gives no repository; [getCiWorkflowRunLogs] does the same in two that
    agree on the token.  No other variable, and neither the clock, is
    looked at. *)
Theorem logs_requests_read_three_variables (X' : externals) :
  (forall url headers, http X url headers = http X' url headers) ->
  process_env X "GITHUB_PERSONAL_ACCESS_TOKEN" =
    process_env X' "GITHUB_PERSONAL_ACCESS_TOKEN" ->
  (forall options w,
     (truthy (gr_owner options) = false ->
      process_env X "GITHUB_OWNER" = process_env X' "GITHUB_OWNER") ->
     (truthy (gr_repo options) = false ->
      process_env X "GITHUB_REPO" = process_env X' "GITHUB_REPO") ->
     getWorkflowRunLogs X options w = getWorkflowRunLogs X' options w)
  /\
  (forall options w,
     getCiWorkflowRunLogs X options w = getCiWorkflowRunLogs X' options w).
Proof.
  intros Hhttp Htoken. split.
  - intros options w Ho Hr.
    unfold getWorkflowRunLogs.
    assert (E : getOwnerAndRepo X (gr_owner options) (gr_repo options) =
                getOwnerAndRepo X' (gr_owner options) (gr_repo options)).
    { unfold getOwnerAndRepo, or_else.
      destruct (truthy (gr_owner options)); destruct (truthy (gr_repo options));
        rewrite ?(Ho eq_refl), ?(Hr eq_refl); reflexivity. }
    rewrite E. unfold bind.
    destruct (getOwnerAndRepo X' (gr_owner options) (gr_repo options) w)
      as [w1 [[owner repo]|e]]; [|reflexivity].
    apply logs_redirect_same_token; assumption.
  - intros options w. unfold getCiWorkflowRunLogs.
    apply logs_redirect_same_token; assumption.
Qed.

(** X22. The operations of ci_workflows.ts are those of workflows.ts for the
    repository askscio/scio (the listing for a branch: for the workflow
    bazel_pr_runner.yml), whatever the environment and the parameters
    [owner], [repo] and [workflow_id] are. *)
Theorem ci_operations_are_the_operations_for_scio :
  (forall options,
     listCiWorkflowRuns json WorkflowRuns buildUrl githubRequest parseRuns options =
     listWorkflowRuns X json WorkflowRuns buildUrl githubRequest parseRuns
       (lr_set_repository (Some "askscio") (Some "scio") options))
  /\
  (forall options,
     getCiWorkflowRun json WorkflowRun githubRequest parseRun options =
     getWorkflowRun X json WorkflowRun githubRequest parseRun
       (gr_set_repository (Some "askscio") (Some "scio") options))
  /\
  (forall options,
     listCiWorkflowRunsForBranch json WorkflowRuns buildUrl githubRequest parseRuns options =
     listWorkflowRunsByWorkflowId X json WorkflowRuns buildUrl githubRequest parseRuns
       (lw_set_repository (Some "askscio") (Some "scio") (Some "bazel_pr_runner.yml")
          options))
  /\
  (forall options,
     getCiWorkflowRunLogs X options =
     getWorkflowRunLogs X (gr_set_repository (Some "askscio") (Some "scio") options)).
Proof.
  repeat split.
Qed.

(** X23. The request for the logs.  It is one request.  It returns a URL only for
    an answer with status 302 and a location that is not empty, and the URL
    is that location; every other answer is an error: with the status, its
    text and the body for another status, and "No download URL found in the
    response headers" for a 302 without a location.  A request that fails
    is thrown on. *)
Theorem logs_redirect_answers (url : string) (w : world) :
  fst (logs_redirect X url w) = logged w [Fetch url] /\
  (forall downloadUrl,
     snd (logs_redirect X url w) = Returned downloadUrl <->
     exists response,
       http X url (logs_headers X) = Returned response /\
       status response = 302%Z /\
       location response = Some downloadUrl /\ downloadUrl <> "") /\
  (forall response,
     http X url (logs_headers X) = Returned response ->
     status response <> 302%Z ->
     snd (logs_redirect X url w) =
       Raised (ErrorObject ("Failed to get logs download URL: " ++
                            show_Z (status response) ++ " " ++ statusText response ++
                            nl ++ text response))) /\
  (forall response,
     http X url (logs_headers X) = Returned response ->
     status response = 302%Z ->
     truthy (location response) = false ->
     snd (logs_redirect X url w) =
       Raised (ErrorObject "No download URL found in the response headers")) /\
  (forall e,
     http X url (logs_headers X) = Raised e ->
     snd (logs_redirect X url w) = Raised e).
Proof.
  unfold logs_redirect, fetch, bind, emit, lift, ret, throw. cbn [on_disk log].
  destruct (http X url (logs_headers X)) as [response|e] eqn:H.
  - destruct (Z.eqb_spec (status response) 302) as [S|S]; cbn [negb].
    + destruct (location response) as [[|c r]|] eqn:L; cbn [fst snd].
      * split; [reflexivity|]. split; [|split; [|split]].
        -- intros downloadUrl. split; [discriminate|].
           intros [r' [E [_ [L' N]]]]. injection E as <-.
           rewrite L in L'. injection L' as <-. contradiction.
        -- intros r' E S'. injection E as <-. contradiction.
        -- intros r' E _ _. reflexivity.
        -- intros e E. discriminate E.
      * split; [reflexivity|]. split; [|split; [|split]].
        -- intros downloadUrl. split.
           ++ intros E. injection E as <-. exists response.
              repeat split; try assumption. discriminate.
           ++ intros [r' [E [_ [L' N]]]]. injection E as <-.
              rewrite L in L'. injection L' as <-. reflexivity.
        -- intros r' E S'. injection E as <-. contradiction.
        -- intros r' E _ T. injection E as <-. rewrite L in T. discriminate T.
        -- intros e E. discriminate E.
      * split; [reflexivity|]. split; [|split; [|split]].
        -- intros downloadUrl. split; [discriminate|].
           intros [r' [E [_ [L' N]]]]. injection E as <-.
           rewrite L in L'. discriminate L'.
        -- intros r' E S'. injection E as <-. contradiction.
        -- intros r' E _ _. reflexivity.
        -- intros e E. discriminate E.
    + cbn [fst snd]. split; [reflexivity|]. split; [|split; [|split]].
      * intros downloadUrl. split; [discriminate|].
        intros [r' [E [S' _]]]. injection E as <-. contradiction.
      * intros r' E _. injection E as <-. reflexivity.
      * intros r' E S'. injection E as <-. contradiction.
      * intros e E. discriminate E.
  - cbn [fst snd]. split; [reflexivity|]. split; [|split; [|split]].
    + intros downloadUrl. split; [discriminate|]. intros [r' [E _]]. discriminate E.
    + intros r' E. discriminate E.
    + intros r' E. discriminate E.
    + intros e' E. injection E as <-. reflexivity.
Qed.

End WrapperMore.

(** ** The excerpts as pieces of the log *)

Lemma startsWith_parts (s p : string) :
  startsWith s p = true -> exists v, s = p ++ v.
Proof.
  revert s. induction p as [|c p IH]; intros s H; [exists s; reflexivity|].
  destruct s as [|x s]; [discriminate|].
  cbn [startsWith] in H. apply andb_true_iff in H as [H1 H2].
  apply Ascii.eqb_eq in H1. subst x. destruct (IH _ H2) as [v ->].
  exists v. reflexivity.
Qed.

(** [includes s p] says that [p] is a piece of [s]. *)
Lemma includes_parts (s p : string) :
  includes s p = true <-> exists u v, s = u ++ p ++ v.
Proof.
  split.
  - induction s as [|x s IH]; intros H.
    + cbn [includes] in H. rewrite orb_false_r in H.
      destruct (startsWith_parts _ _ H) as [v E]. exists "", v. exact E.
    + cbn [includes] in H. apply orb_true_iff in H as [H|H].
      * destruct (startsWith_parts _ _ H) as [v E]. exists "", v. exact E.
      * destruct (IH H) as [u [v ->]]. exists (String x u), v. reflexivity.
  - intros [u [v ->]]. apply includes_middle.
Qed.

Lemma join_app (a b : list string) :
  a <> [] -> b <> [] -> join nl (a ++ b) = join nl a ++ nl ++ join nl b.
Proof.
  unfold join. intros Ha Hb. induction a as [|x xs IH]; [congruence|].
  destruct xs as [|y ys].
  - cbn [app String.concat]. destruct b; [congruence|reflexivity].
  - change ((x :: y :: ys) ++ b)%list with (x :: ((y :: ys) ++ b))%list.
    change (String.concat nl (x :: (y :: ys) ++ b))
      with (x ++ nl ++ String.concat nl ((y :: ys) ++ b)).
    rewrite IH by discriminate.
    change (String.concat nl (x :: y :: ys))
      with (x ++ nl ++ String.concat nl (y :: ys)).
    rewrite !append_assoc. reflexivity.
Qed.

(** A window of the lines of a text, joined, is a piece of the text. *)
Lemma includes_window (content : string) (from n : nat) :
  includes content (join nl (firstn n (skipn from (split_lines content)))) = true.
Proof.
  apply includes_parts.
  set (l := split_lines content).
  assert (E : content = join nl l) by (symmetry; apply join_of_split_lines).
  set (A := firstn from l). set (R := skipn from l).
  set (W := firstn n R). set (B := skipn n R).
  assert (D : l = (A ++ W ++ B)%list).
  { unfold A, W, B, R. rewrite firstn_skipn, firstn_skipn. reflexivity. }
  rewrite E, D. clearbody A W B. clear.
  destruct W as [|w W']; [exists "", (join nl (A ++ B)); reflexivity|].
  destruct A as [|a A']; destruct B as [|b B'].
  - exists "", "". rewrite app_nil_r. cbn [app append]. rewrite append_empty_r. reflexivity.
  - exists "", (nl ++ join nl (b :: B')). cbn [app append].
    change (w :: W' ++ b :: B')%list with ((w :: W') ++ (b :: B'))%list.
    rewrite join_app by discriminate. reflexivity.
  - exists (join nl (a :: A') ++ nl), "".
    rewrite app_nil_r, join_app by discriminate.
    rewrite append_empty_r, append_assoc. reflexivity.
  - exists (join nl (a :: A') ++ nl), (nl ++ join nl (b :: B')).
    rewrite join_app by discriminate.
    rewrite (join_app (w :: W') (b :: B')) by discriminate.
    rewrite !append_assoc. reflexivity.
Qed.

Lemma startsWith_substring0 (n : nat) (s : string) :
  startsWith s (String.substring 0 n s) = true.
Proof.
  revert s. induction n as [|n IH]; intros [|c s]; cbn; try reflexivity.
  rewrite Ascii.eqb_refl. apply IH.
Qed.

(** X1. The excerpts quote the log.  What [extractErrorDetails] returns for a
    text the pattern matches is a piece of the text, and what it returns
    otherwise begins with a beginning of the text; what
    [extractRelevantContent] returns for a text of at most 2000 characters,
    or one with an error indicator, is a piece of the text. *)
Theorem excerpts_quote_the_log (content : string) :
  (matches errorPattern content = true ->
   includes content (extractErrorDetails content) = true)
  /\
  (matches errorPattern content = false ->
   exists beginning,
     startsWith content beginning = true /\
     (extractErrorDetails content = beginning \/
      extractErrorDetails content = beginning ++ "..."))
  /\
  ((String.length content <= 2000)%nat \/ containsErrors content = true ->
   includes content (extractRelevantContent content) = true).
Proof.
  split; [|split].
  - intros H. destruct (extractErrorDetails_matched content H) as [i [_ [_ ->]]].
    apply includes_window.
  - intros H. exists (String.substring 0 500 content).
    split; [apply startsWith_substring0|].
    rewrite (extractErrorDetails_unmatched content H).
    destruct (500 <? String.length content)%nat;
      [right; reflexivity | left; apply append_empty_r].
  - intros H.
    destruct (Nat.le_gt_cases (String.length content) 2000) as [Hs|Hl].
    + unfold extractRelevantContent, len.
      destruct (Z.leb_spec (Z.of_nat (String.length content)) 2000); [|lia].
      apply includes_parts. exists "", "". cbn. rewrite append_empty_r. reflexivity.
    + destruct H as [H|H]; [lia|].
      destruct (extractRelevantContent_long_indicator content Hl H)
        as [i [_ [_ [_ ->]]]].
      apply includes_window.
Qed.

(** ** The further theorems at work on the scenarios *)

Section MoreWitnesses.

Import Scenario MoreScenarios.

Lemma extractRelevantContent_of_flagged_log_witness :
  extractRelevantContent failing_build_log = failing_build_log /\
  exists i : nat,
    containsErrors (nth i (split_lines long_failing_log) "") = true /\
    extractRelevantContent long_failing_log =
      join nl (slice (Z.max 0 (Z.of_nat i - 5))
                     (Z.min (Z.of_nat (length (split_lines long_failing_log)))
                            (Z.of_nat i + 15))
                     (split_lines long_failing_log)).
Proof.
  split.
  - destruct (extractRelevantContent_of_flagged_log failing_build_log eq_refl)
      as [[_ E]|[L _]]; [exact E|].
    apply Nat.ltb_lt in L. vm_compute in L. discriminate L.
  - assert (C : containsErrors long_failing_log = true) by (vm_compute; reflexivity).
    destruct (extractRelevantContent_of_flagged_log long_failing_log C)
      as [[S _]|[_ [i [_ [P [_ E]]]]]].
    + apply Nat.leb_le in S. vm_compute in S. discriminate S.
    + exists i. split; [exact P | exact E].
Defined.

Lemma excerpts_keep_the_evidence_witness :
  matches errorPattern (extractErrorDetails disk_full_log) = true /\
  containsErrors (extractRelevantContent long_failing_log) = true.
Proof.
  split.
  - apply (proj1 (excerpts_keep_the_evidence disk_full_log)). reflexivity.
  - apply (proj2 (excerpts_keep_the_evidence long_failing_log)).
    vm_compute. reflexivity.
Defined.

Lemma excerpt_sizes_witness :
  (1 <= length (split_lines (extractErrorDetails disk_full_log)) <= 10)%nat /\
  extractErrorDetails "all targets built" = "all targets built" /\
  String.length (extractErrorDetails long_clean_log) = 503%nat /\
  (1 <= length (split_lines (extractRelevantContent long_failing_log)) <= 20)%nat.
Proof.
  split; [|split; [|split]].
  - apply (proj1 (excerpt_sizes disk_full_log)). reflexivity.
  - apply (proj1 (proj2 (excerpt_sizes "all targets built"))); [reflexivity|].
    apply Nat.leb_le. reflexivity.
  - apply (proj1 (proj2 (excerpt_sizes long_clean_log))).
    + vm_compute. reflexivity.
    + apply Nat.ltb_lt. vm_compute. reflexivity.
  - apply (proj2 (proj2 (excerpt_sizes long_failing_log))).
    + apply Nat.ltb_lt. vm_compute. reflexivity.
    + vm_compute. reflexivity.
Defined.

Lemma flagged_text_matches_or_execution_failed_witness :
  extractErrorDetails execution_failed_log = execution_failed_log /\
  matches errorPattern failing_build_log = true.
Proof.
  split.
  - destruct (proj2 (flagged_text_matches_or_execution_failed execution_failed_log)
                eq_refl)
      as [M|[_ [_ E]]]; [discriminate M|exact E].
  - destruct (proj2 (flagged_text_matches_or_execution_failed failing_build_log)
                eq_refl)
      as [M|[_ [M _]]]; [exact M|discriminate M].
Defined.

Lemma log_file_names_recognised_witness :
  LogAnalyzer.is_summary_file "7_Get Errors During Workflow Run.txt" = true /\
  LogAnalyzer.is_build_file "4_BUILD INCREMENTAL.TXT.bak" = true.
Proof.
  split.
  - apply (proj1 (log_file_names_recognised "7_" "Get Errors During Workflow Run.txt" "")).
    reflexivity.
  - apply (proj2 (proj2 (log_file_names_recognised "4_" "BUILD INCREMENTAL.TXT" ".bak"))).
    reflexivity.
Defined.

Lemma analyzeBazelLogs_reads_only_witness :
  on_disk (fst (LogAnalyzer.analyzeBazelLogs analyzer_params (on both_files))) = both_files.
Proof.
  apply (analyzeBazelLogs_reads_only analyzer_params (on both_files) _
           (snd (LogAnalyzer.analyzeBazelLogs analyzer_params (on both_files)))).
  reflexivity.
Defined.

Lemma analyzeBazelLogs_result_shape_witness :
  exists f content,
    is_true (LogAnalyzer.is_build_file f) /\
    stat clean_build (path_join logs_dir f) = Some (File content) /\
    containsErrors content = false.
Proof.
  destruct (LogAnalyzer.analyzeBazelLogs analyzer_params (on clean_build))
    as [w' [r|e]] eqn:E; [|vm_compute in E; discriminate E].
  destruct (analyzeBazelLogs_result_shape analyzer_params (on clean_build) w' r E)
    as [S _].
  assert (T : LogAnalyzer.success r = true) by (vm_compute in E; inversion E; reflexivity).
  destruct (S T) as [_ [_ [f [content [_ [B [F C]]]]]]].
  exists f, content. repeat split; assumption.
Defined.

Lemma analyzeBazelLogs_reads_what_it_needs_witness :
  trace (LogAnalyzer.analyzeBazelLogs analyzer_params) (on both_files) =
    [ExistsSync logs_dir; ReaddirSync logs_dir;
     ReadFileSync (path_join logs_dir "7_Get errors during workflow run.txt")].
Proof.
  apply (proj2 (analyzeBazelLogs_reads_what_it_needs analyzer_params (on both_files))
           "7_Get errors during workflow run.txt" ("ERROR: disk full" ++ nl));
    reflexivity.
Defined.

Lemma analyzeBazelLogs_failed_tests_witness :
  exists w',
    LogAnalyzer.analyzeBazelLogs analyzer_params (on failed_tests_only) =
      (w', Returned {| LogAnalyzer.success := false;
                       LogAnalyzer.errorSummary := "Test failures detected";
                       LogAnalyzer.errorDetails :=
                         extractErrorDetails "//foo:test FAILED in 3.1s";
                       LogAnalyzer.sourceFile := Some "3_View Failed Test Logs.txt";
                       LogAnalyzer.relevantLogContent := Some "//foo:test FAILED in 3.1s" |}).
Proof.
  apply (analyzeBazelLogs_failed_tests analyzer_params (on failed_tests_only)
           "3_View Failed Test Logs.txt" "//foo:test FAILED in 3.1s").
  - reflexivity.
  - exact I.
  - reflexivity.
  - reflexivity.
  - reflexivity.
Defined.

Lemma analyzeBazelLogs_blank_files_witness :
  exists w',
    LogAnalyzer.analyzeBazelLogs analyzer_params (on blank_files) =
      (w', Returned (LogAnalyzer.no_files_result "Bazel Build and Test")).
Proof.
  apply (proj2 (analyzeBazelLogs_blank_files analyzer_params (on blank_files)
                  eq_refl
                  (ex_intro _ ("  " ++ nl) (conj eq_refl eq_refl))
                  (ex_intro _ "" (conj eq_refl eq_refl)))).
  reflexivity.
Defined.

Lemma analyzeBazelLogs_throws_witness :
  (exists e,
     LogAnalyzer.analyzeBazelLogs analyzer_params (on folder_is_a_file) =
       ({| on_disk := folder_is_a_file;
           log := [ExistsSync logs_dir; ReaddirSync logs_dir] |}, Raised e)) /\
  (exists w' e,
     LogAnalyzer.analyzeBazelLogs analyzer_params (on summary_is_a_directory) =
       (w', Raised e)) /\
  (exists w' e,
     LogAnalyzer.analyzeBazelLogs analyzer_params (on failed_tests_is_a_directory) =
       (w', Raised e)).
Proof.
  split; [|split].
  - apply (proj1 (analyzeBazelLogs_throws analyzer_params (on folder_is_a_file)
                    eq_refl eq_refl (fun f (H : In f []) => match H with end))
             "not a folder").
    reflexivity.
  - assert (plain : forall f,
              In f (entries summary_is_a_directory logs_dir) ->
              Path.join [logs_dir; f] = path_join logs_dir f).
    { intros f Hin. vm_compute in Hin.
      repeat (destruct Hin as [<-|Hin]; [reflexivity|]). contradiction. }
    apply (proj2 (analyzeBazelLogs_throws analyzer_params (on summary_is_a_directory)
                    eq_refl eq_refl plain)
             "Get errors during workflow run.txt"); [reflexivity | reflexivity |].
    left. reflexivity.
  - assert (plain : forall f,
              In f (entries failed_tests_is_a_directory logs_dir) ->
              Path.join [logs_dir; f] = path_join logs_dir f).
    { intros f Hin. vm_compute in Hin.
      repeat (destruct Hin as [<-|Hin]; [reflexivity|]). contradiction. }
    apply (proj2 (analyzeBazelLogs_throws analyzer_params (on failed_tests_is_a_directory)
                    eq_refl eq_refl plain)
             "View Failed Test Logs.txt"); [reflexivity | reflexivity |].
    right. left. split; [|reflexivity].
    exists ("  " ++ nl). split; reflexivity.
Defined.

Lemma downloadAndUnzip_returns_after_success_witness :
  exists w' r,
    Downloader.downloadAndUnzip good_run fetch_params empty_world = (w', Returned r) /\
    Downloader.files r = ["Bazel Build and Test"] /\
    ~ In "github-logs.zip" (Downloader.files r).
Proof.
  destruct (Downloader.downloadAndUnzip good_run fetch_params empty_world)
    as [w' [r|e]] eqn:E; [|vm_compute in E; discriminate E].
  exists w', r. split; [reflexivity|].
  destruct (downloadAndUnzip_returns_after_success good_run fetch_params empty_world
              w' r E) as [_ [_ [_ [F [N _]]]]].
  split; [|exact N].
  vm_compute in E. inversion E. reflexivity.
Defined.

Lemma downloadAndUnzip_at_most_one_request_witness :
  pipe_failure broken_archive = None /\
  count is_spawn (trace (Downloader.downloadAndUnzip good_run fetch_params) empty_world)
    = 1%nat.
Proof.
  pose proof (downloadAndUnzip_at_most_one_request broken_archive fetch_params empty_world)
    as [_ [_ [S _]]].
  pose proof (downloadAndUnzip_at_most_one_request good_run fetch_params empty_world)
    as [_ [_ [_ R]]].
  split.
  - apply S. vm_compute. reflexivity.
  - eapply R. lazy. reflexivity.
Defined.


Lemma downloadAndUnzip_cleanup_error_wins_witness :
  exists e,
    snd (unlinkSync "/tmp/out/github-logs.zip" (on archive_is_a_directory)) = Raised e /\
    snd (Downloader.downloadAndUnzip not_found fetch_params (on archive_is_a_directory)) =
      Raised e.
Proof.
  apply (downloadAndUnzip_cleanup_error_wins not_found fetch_params
           (on archive_is_a_directory)).
  reflexivity.
Defined.

Lemma analyzeWorkflowLogs_passes_result_on_witness :
  exists w3,
    WorkflowLogs.analyzeWorkflowLogs good_run
      (WorkflowLogs.AnalyzeWorkflowLogsSchema_parse "https://example.com/logs.zip" None
         (Some "Bazel Build and Test")) empty_world =
    (w3, Returned {| LogAnalyzer.success := false;
                     LogAnalyzer.errorSummary := "Build errors detected";
                     LogAnalyzer.errorDetails :=
                       "BUILD FAILED: target //foo failed" ++ nl ++ "see above" ++ nl;
                     LogAnalyzer.sourceFile := Some "Build Incremental.txt";
                     LogAnalyzer.relevantLogContent := Some failing_build_log |}).
Proof.
  eexists.
  eapply analyzeWorkflowLogs_passes_result_on.
  - lazy. reflexivity.
  - lazy. reflexivity.
  - lazy. reflexivity.
Defined.

Lemma analyzeWorkflowLogs_leaves_no_archive_witness :
  stat (on_disk (fst (WorkflowLogs.analyzeWorkflowLogs broken_archive workflow_params
                        empty_world)))
       "/tmp/workflow_logs/2024-05-06T07-08-09-123Z/github-logs.zip" = None.
Proof.
  apply (analyzeWorkflowLogs_leaves_no_archive broken_archive workflow_params empty_world
           _ (snd (WorkflowLogs.analyzeWorkflowLogs broken_archive workflow_params
                     empty_world))).
  - reflexivity.
  - reflexivity.
Defined.

Lemma getOwnerAndRepo_result_witness :
  "octocat" <> "" /\ process_env configured "GITHUB_REPO" = Some "hello-world".
Proof.
  destruct (getOwnerAndRepo_result configured (Some "octocat") None
              empty_world empty_world "octocat" "hello-world" eq_refl)
    as [_ [O [_ [_ [_ [_ R]]]]]].
  split; [exact O | exact (R eq_refl)].
Defined.

Lemma logs_requests_read_three_variables_witness :
  Workflows.getWorkflowRunLogs redirecting run_42_named empty_world =
    Workflows.getWorkflowRunLogs redirecting_configured run_42_named empty_world /\
  Workflows.getCiWorkflowRunLogs redirecting run_42_named empty_world =
    Workflows.getCiWorkflowRunLogs redirecting_configured run_42_named empty_world.
Proof.
  pose proof (logs_requests_read_three_variables redirecting redirecting_configured
                (fun _ _ => eq_refl) eq_refl) as [named ci].
  split.
  - apply named; discriminate.
  - apply ci.
Defined.

Lemma logs_redirect_answers_witness :
  snd (Workflows.logs_redirect redirecting "https://api.github.com/x/logs" empty_world) =
    Returned "https://logs.example.com/run-42.zip" /\
  snd (Workflows.logs_redirect not_found "https://api.github.com/x/logs" empty_world) =
    Raised (ErrorObject ("Failed to get logs download URL: 404 Not Found" ++ nl ++
                         "no such run")).
Proof.
  split.
  - apply (proj1 (proj2 (logs_redirect_answers redirecting
                           "https://api.github.com/x/logs" empty_world))).
    exists redirect_response. repeat split. discriminate.
  - apply (proj1 (proj2 (proj2 (logs_redirect_answers not_found
                                  "https://api.github.com/x/logs" empty_world)))
             not_found_response); [reflexivity|discriminate].
Defined.

Lemma excerpts_quote_the_log_witness :
  includes disk_full_log (extractErrorDetails disk_full_log) = true /\
  includes long_failing_log (extractRelevantContent long_failing_log) = true.
Proof.
  split.
  - apply (proj1 (excerpts_quote_the_log disk_full_log)). reflexivity.
  - apply (proj2 (proj2 (excerpts_quote_the_log long_failing_log))).
    right. vm_compute. reflexivity.
Defined.

End MoreWitnesses.
